(** * ai-engagement-scorer: the scoring engine and its dimension analyzers

    A shallow embedding of [src/scoring/scoringEngine.js] and of the
    dimension scorers [promptEngineering.js], [problemSolving.js] and
    [criticalThinking.js], followed by the properties of the engine.  The
    catalog of dimensions, the earlier version of the engine and the route
    /analyze of [index.js] with its own validation are embedded as well.

    Conventions of the embedding.
    - A JavaScript string is held as a [string] of bytes, its UTF-8
      encoding: one byte per ASCII character, two to four for the others
      (a lone surrogate is encoded like any code below U+10000).  A
      literal of the source is the literal here, byte for byte.  Searching
      a text for a marker ([includes], [/and/g]) finds the same
      occurrences on the bytes as on the code units, because no encoding
      of a character starts inside the encoding of another.
    - What the language defines on code units or characters is read off
      the encoding: [length] counts UTF-16 code units, [\s] and the line
      terminators that [.] refuses include their members outside ASCII,
      [toLowerCase] maps the two letters outside ASCII whose lower case
      holds an ASCII letter.  [\d] and the comparison of the [i] flag
      with an ASCII letter of a pattern concern ASCII only in the
      language itself.
    - Scores are small integers; they are modelled in [Z].
    - An object used as a record with insertion order ([scores],
      [breakdown], the four [dimensions]) is an association list in
      insertion order.
    - [throw] is the [Throw] case of a completion; [try]/[catch] is a
      [match] on it. *)

From Stdlib Require Import Strings.String Strings.Ascii ZArith NArith List Lia Bool Arith.
From Stdlib Require Import DecimalString Permutation.
Import ListNotations.

Local Open Scope string_scope.
Local Open Scope Z_scope.

(** ** Values and completions *)

Module Js.

(** The values a caller can hand to the engine (the image of [JSON.parse],
    plus [undefined]). *)
#[warning="-register-all"]
Inductive Value : Type :=
| Undefined
| Null
| Bool (b : bool)
| Num (n : Z)
| Str (s : string)
| Arr (elements : list Value)
| Obj (properties : list (string * Value)).

(** [ToBoolean]. *)
Definition truthy (v : Value) : bool :=
  match v with
  | Undefined | Null => false
  | Bool b => b
  | Num n => negb (n =? 0)
  | Str s => negb (s =? "")%string
  | Arr _ | Obj _ => true
  end.

(** [Array.isArray]. *)
Definition isArray (v : Value) : bool :=
  match v with Arr _ => true | _ => false end.

(** What is thrown. *)
Inductive Exception : Type :=
| Error (message : string)
| TypeError.

Inductive Completion (A : Type) : Type :=
| Return (a : A)
| Throw (e : Exception).
Arguments Return {A} a.
Arguments Throw {A} e.

Definition bind {A B} (c : Completion A) (k : A -> Completion B) : Completion B :=
  match c with
  | Return a => k a
  | Throw e => Throw e
  end.

(** Own-property lookup in an object built from a literal or by assignment. *)
Fixpoint lookup {V} (key : string) (o : list (string * V)) : option V :=
  match o with
  | [] => None
  | (k, v) :: rest => if (k =? key)%string then Some v else lookup key rest
  end.

(** [o[key] = v]: overwrite in place, or append in insertion order. *)
Fixpoint assign {V} (key : string) (v : V) (o : list (string * V)) : list (string * V) :=
  match o with
  | [] => [(key, v)]
  | (k, w) :: rest =>
      if (k =? key)%string then (k, v) :: rest else (k, w) :: assign key v rest
  end.

(** [Object.values]. *)
Definition values {V} (o : list (string * V)) : list V := map snd o.

(** [v.key] for a value [v]: a [TypeError] on [null] and [undefined],
    [undefined] where the property is absent. *)
Definition getProp (key : string) (v : Value) : Completion Value :=
  match v with
  | Undefined | Null => Throw TypeError
  | Obj props =>
      match lookup key props with
      | Some w => Return w
      | None => Return Undefined
      end
  | _ => Return Undefined
  end.

(** [`${index}`] for an array index. *)
Definition indexToString (index : nat) : string :=
  NilEmpty.string_of_uint (Nat.to_uint index).

End Js.

Notation "x <- c ;; k" := (Js.bind c (fun x => k))
  (at level 61, c at next level, right associativity).

(** ** Strings *)

Module Text.

Definition isUpper (c : ascii) : bool :=
  let n := nat_of_ascii c in (65 <=? n)%nat && (n <=? 90)%nat.

Definition isLower (c : ascii) : bool :=
  let n := nat_of_ascii c in (97 <=? n)%nat && (n <=? 122)%nat.

Definition lowerChar (c : ascii) : ascii :=
  if isUpper c then ascii_of_nat (nat_of_ascii c + 32) else c.

Definition upperChar (c : ascii) : ascii :=
  if isLower c then ascii_of_nat (nat_of_ascii c - 32) else c.

(** The byte of value [n]. *)
Definition byte (n : N) : string := String (ascii_of_N n) EmptyString.

(** The encoding of the character of code [code]: one byte below U+0080,
    two below U+0800, three below U+10000 (one UTF-16 code unit), four
    from U+10000 on (a surrogate pair). *)
Definition utf8 (code : N) : string :=
  (if code <? 128 then byte code
   else if code <? 2048 then
     byte (192 + code / 64) ++ byte (128 + code mod 64)
   else if code <? 65536 then
     byte (224 + code / 4096) ++ byte (128 + (code / 64) mod 64)
     ++ byte (128 + code mod 64)
   else
     byte (240 + code / 262144) ++ byte (128 + (code / 4096) mod 64)
     ++ byte (128 + (code / 64) mod 64) ++ byte (128 + code mod 64))%N.

(** The UTF-16 code units of the character that starts at the byte [c]:
    none when [c] continues a character, two when it opens four bytes. *)
Definition codeUnitsAt (c : ascii) : nat :=
  let n := N_of_ascii c in
  if (n <? 128)%N then 1%nat
  else if (n <? 192)%N then 0%nat
  else if (n <? 240)%N then 1%nat
  else 2%nat.

(** [s.length]. *)
Fixpoint length (s : string) : nat :=
  match s with
  | EmptyString => O
  | String c rest => (codeUnitsAt c + length rest)%nat
  end.

(** The character of [characters] that [s] starts with. *)
Definition headAmong (characters : list string) (s : string) : option string :=
  find (fun character => String.prefix character s) characters.

(** K, the Kelvin sign U+212A, whose lower case is the letter k. *)
Definition kelvinSign : string := Eval cbv in utf8 8490.

(** I with a dot above, U+0130, whose lower case is the letter i followed
    by the combining dot U+0307. *)
Definition dottedCapitalI : string := Eval cbv in utf8 304.
Definition combiningDot : string := Eval cbv in utf8 775.

(** [String.prototype.toLowerCase].  [skip] counts the bytes still
    covered by the character just mapped.  The capitals of ASCII and the
    two letters above are mapped.  Every other letter outside ASCII has
    its lower case outside ASCII and is kept: the scorers only search the
    result for ASCII markers, which no byte of such a letter can be part
    of, before or after the mapping. *)
Fixpoint lowerLoop (skip : nat) (s : string) : string :=
  match s with
  | EmptyString => EmptyString
  | String c rest =>
      match skip with
      | S skip' => lowerLoop skip' rest
      | O =>
          if String.prefix kelvinSign s then "k" ++ lowerLoop 2 rest
          else if String.prefix dottedCapitalI s then
            "i" ++ combiningDot ++ lowerLoop 1 rest
          else String (lowerChar c) (lowerLoop 0 rest)
      end
  end.

Definition toLowerCase (s : string) : string := lowerLoop 0 s.

(** [text.includes(marker)]. *)
Fixpoint includes (text marker : string) : bool :=
  if String.prefix marker text then true
  else match text with
       | EmptyString => false
       | String _ rest => includes rest marker
       end.

(** [markers.some(marker => text.includes(marker))]. *)
Definition someIncluded (markers : list string) (text : string) : bool :=
  existsb (fun marker => includes text marker) markers.

(** [\s]: the white space and the line terminators of the language, by
    code.  U+0009 to U+000D and U+0020, the no-break space U+00A0,
    U+1680, U+2000 to U+200A, the line and paragraph separators U+2028
    and U+2029, U+202F, U+205F, U+3000 and the byte order mark U+FEFF. *)
Definition whiteSpaceCharacters : list string :=
  Eval cbv in
  map utf8
    [9; 10; 11; 12; 13; 32; 160; 5760;
     8192; 8193; 8194; 8195; 8196; 8197; 8198; 8199; 8200; 8201; 8202;
     8232; 8233; 8239; 8287; 12288; 65279]%N.

(** The line terminators, which [.] does not match: line feed, carriage
    return, U+2028 and U+2029. *)
Definition lineTerminators : list string :=
  Eval cbv in map utf8 [10; 13; 8232; 8233]%N.

Definition startsLineTerminator (s : string) : bool :=
  match headAmong lineTerminators s with
  | Some _ => true
  | None => false
  end.

(** [\d]. *)
Definition isDigit (c : ascii) : bool :=
  let n := nat_of_ascii c in (48 <=? n)%nat && (n <=? 57)%nat.

(** [s.split(/\s+/)]: [piece] is the piece being read, [inSeparator] tells
    that the previous character belonged to a separator, [skip] counts
    the bytes still covered by the white-space character just read. *)
Fixpoint splitLoop (piece : string) (inSeparator : bool) (skip : nat) (s : string)
  : list string :=
  match s with
  | EmptyString => [piece]
  | String c rest =>
      match skip with
      | S skip' => splitLoop piece inSeparator skip' rest
      | O =>
          match headAmong whiteSpaceCharacters s with
          | Some space =>
              if inSeparator then splitLoop piece true (String.length space - 1) rest
              else piece :: splitLoop EmptyString true (String.length space - 1) rest
          | None => splitLoop (piece ++ String c EmptyString) false 0 rest
          end
      end
  end.

Definition splitWhiteSpace (s : string) : list string :=
  splitLoop EmptyString false 0 s.

(** [s.split(/\s+/).length]. *)
Definition wordCount (s : string) : Z :=
  Z.of_nat (List.length (splitWhiteSpace s)).

(** [(text.match(/lit/g) || []).length] for a non-empty literal: the
    matches are found left to right and do not overlap.  [skip] counts the
    characters still covered by the last match. *)
Fixpoint countMatchesLoop (lit : string) (skip : nat) (s : string) : Z :=
  match s with
  | EmptyString => 0
  | String _ rest =>
      match skip with
      | S skip' => countMatchesLoop lit skip' rest
      | O =>
          if String.prefix lit s
          then 1 + countMatchesLoop lit (String.length lit - 1) rest
          else countMatchesLoop lit 0 rest
      end
  end.

Definition countMatches (lit : string) (s : string) : Z :=
  countMatchesLoop lit 0 s.

End Text.

(** ** Regular expressions

    The fragment of ECMAScript patterns that the scorers use, with the
    backtracking semantics of the language: alternatives are tried left to
    right, a lazy quantifier tries its continuation first, a greedy one
    last, and [match] without [g] returns the leftmost start at which the
    pattern matches. *)

Module RegExp.

Inductive CharClass : Type :=
| AnyChar   (* . *)
| Digit.    (* \d *)

Inductive Pattern : Type :=
| Lit (s : string)                 (* a run of literal characters *)
| Seq (p q : Pattern)              (* pq *)
| Alt (p q : Pattern)              (* p|q *)
| Group (n : nat) (p : Pattern)    (* the n-th capturing group *)
| PlusLazy (c : CharClass)         (* c+? *)
| PlusGreedy (c : CharClass)       (* c+ *)
| EndOfInput.                      (* $ without the m flag *)

(** The class [c] matches at the head of [s], whose first byte it then
    consumes.  [.] refuses to enter a line terminator; the bytes of any
    other character are consumed one after the other, and what follows [.]
    in the patterns of the scorers (an ASCII character or the end of the
    text) cannot match inside a character. *)
Definition inClass (c : CharClass) (s : string) : bool :=
  match s with
  | EmptyString => false
  | String a _ =>
      match c with
      | AnyChar => negb (Text.startsLineTerminator s)
      | Digit => Text.isDigit a
      end
  end.

(** Character comparison, through [Canonicalize] under the [i] flag: the
    letters of ASCII are compared in upper case, and a byte outside ASCII
    as it is, since [Canonicalize] maps no character outside ASCII to one
    of ASCII. *)
Definition sameChar (ignoreCase : bool) (a b : ascii) : bool :=
  if ignoreCase then Ascii.eqb (Text.upperChar a) (Text.upperChar b)
  else Ascii.eqb a b.

(** Consume the literal [lit] at the head of [s]. *)
Fixpoint stripLit (ignoreCase : bool) (lit s : string) : option string :=
  match lit with
  | EmptyString => Some s
  | String a lit' =>
      match s with
      | EmptyString => None
      | String b s' =>
          if sameChar ignoreCase a b then stripLit ignoreCase lit' s' else None
      end
  end.

(** The captures recorded so far, the latest first. *)
Definition Captures := list (nat * string).

(** [match[n]]. *)
Fixpoint capture (n : nat) (caps : Captures) : option string :=
  match caps with
  | [] => None
  | (m, text) :: rest => if (m =? n)%nat then Some text else capture n rest
  end.

(** The text between the input [s] and its suffix [rest]. *)
Definition consumed (s rest : string) : string :=
  String.substring 0 (String.length s - String.length rest) s.

Section Matcher.
Variable ignoreCase : bool.

(** [c*?] followed by [k]. *)
Fixpoint lazyStar {R} (c : CharClass) (s : string) (k : string -> option R) : option R :=
  match k s with
  | Some r => Some r
  | None =>
      match s with
      | EmptyString => None
      | String a rest => if inClass c s then lazyStar c rest k else None
      end
  end.

(** [c*] followed by [k]. *)
Fixpoint greedyStar {R} (c : CharClass) (s : string) (k : string -> option R) : option R :=
  match s with
  | EmptyString => k s
  | String a rest =>
      if inClass c s then
        match greedyStar c rest k with
        | Some r => Some r
        | None => k s
        end
      else k s
  end.

(** The matcher in continuation-passing style: [k] is what remains of
    the pattern, [None] makes the caller backtrack. *)
Fixpoint run (p : Pattern) (s : string) (caps : Captures)
         (k : string -> Captures -> option Captures) : option Captures :=
  match p with
  | Lit lit =>
      match stripLit ignoreCase lit s with
      | Some rest => k rest caps
      | None => None
      end
  | Seq p1 p2 => run p1 s caps (fun rest caps' => run p2 rest caps' k)
  | Alt p1 p2 =>
      match run p1 s caps k with
      | Some r => Some r
      | None => run p2 s caps k
      end
  | Group n p1 =>
      run p1 s caps (fun rest caps' => k rest ((n, consumed s rest) :: caps'))
  | PlusLazy c =>
      match s with
      | EmptyString => None
      | String a rest =>
          if inClass c s then lazyStar c rest (fun rest' => k rest' caps) else None
      end
  | PlusGreedy c =>
      match s with
      | EmptyString => None
      | String a rest =>
          if inClass c s then greedyStar c rest (fun rest' => k rest' caps) else None
      end
  | EndOfInput =>
      match s with
      | EmptyString => k s caps
      | String _ _ => None
      end
  end.

(** The pattern matched at the head of [s]. *)
Definition matchHere (p : Pattern) (s : string) : option Captures :=
  run p s [] (fun _ caps => Some caps).

(** [s.match(p)] for a pattern without the [g] flag: the captures of
    the leftmost match, [None] for [null]. *)
Fixpoint exec (p : Pattern) (s : string) : option Captures :=
  match matchHere p s with
  | Some caps => Some caps
  | None =>
      match s with
      | EmptyString => None
      | String _ rest => exec p rest
      end
  end.

(** [p.test(s)]. *)
Definition test (p : Pattern) (s : string) : bool :=
  match exec p s with Some _ => true | None => false end.

End Matcher.

End RegExp.

(** ** Messages and dimension results *)

Import Js.

(** A message that passed the engine's validation: [role] is any truthy
    value, [content] a string. *)
Record Message : Type := {
  role : Value;
  content : string
}.

(** [msg.role === name]. *)
Definition hasRole (name : string) (msg : Message) : bool :=
  match role msg with
  | Str s => (s =? name)%string
  | _ => false
  end.

(** [conversation.filter(msg => msg.role === 'user')]. *)
Definition userMessagesOf (conversation : list Message) : list Message :=
  filter (hasRole "user") conversation.

(** What [analyze] returns. *)
Module Result.
Record t : Type := {
  score : Z;
  breakdown : list (string * Z);
  feedback : list string
}.
End Result.
Definition DimensionResult : Type := Result.t.

(** The common shape of the four dimension scorers. *)
Definition Scorer : Type := list Message -> Completion DimensionResult.

(** [if (cond) score += points]. *)
Definition addIf (cond : bool) (points score : Z) : Z :=
  if cond then score + points else score.

(** [messages.forEach(m => { ...; best = Math.max(best, score) })] from
    [best = 0]. *)
Definition maxOver (perMessage : Message -> Z) (messages : list Message) : Z :=
  fold_left (fun best m => Z.max best (perMessage m)) messages 0.

(** [Object.values(scores).reduce((sum, score) => sum + score, 0)]. *)
Definition sumValues (scores : list (string * Z)) : Z :=
  fold_left (fun sum score => sum + score) (values scores) 0.

(** [scores.key < bound]; the comparison is false on [undefined]. *)
Definition below (scores : list (string * Z)) (key : string) (bound : Z) : bool :=
  match lookup key scores with
  | Some v => v <? bound
  | None => false
  end.

(** [if (cond) feedback.push(line)]. *)
Definition pushIf (cond : bool) (line : string) (feedback : list string) : list string :=
  if cond then feedback ++ [line] else feedback.

(** [feedback.length > 0 ? feedback : [praise]]. *)
Definition orPraise (feedback : list string) (praise : string) : list string :=
  match feedback with
  | [] => [praise]
  | _ => feedback
  end.

Definition LF : string := String (ascii_of_nat 10) EmptyString.

(** ** dimensions/promptEngineering.js *)

Module PromptEngineeringScorer.

Definition specificMarkers : list string :=
  ["specific"; "exactly"; "precisely"; "detailed"; "particular"].
Definition vagueMarkers : list string :=
  ["something"; "stuff"; "things"; "help me with"; "general"].

(** The body of the [forEach] of [assessSpecificity]. *)
Definition specificityOf (prompt : Message) : Z :=
  let score := 0 in
  let text := Text.toLowerCase (content prompt) in
  let wordCount := Text.wordCount (content prompt) in
  let score := addIf (wordCount >? 50) 2 score in
  let score := addIf (wordCount >? 100) 1 score in
  let score := addIf (Text.someIncluded specificMarkers text) 2 score in
  let score := addIf (negb (Text.someIncluded vagueMarkers text)) 1 score in
  score.

Definition assessSpecificity (prompts : list Message) : Z :=
  Z.min 6 (maxOver specificityOf prompts).

(** [/\d+\./]. *)
Definition numbering : RegExp.Pattern :=
  RegExp.Seq (RegExp.PlusGreedy RegExp.Digit) (RegExp.Lit ".").

Definition structureOf (prompt : Message) : Z :=
  let score := 0 in
  let content := content prompt in
  let hasBulletPoints := Text.includes content "-" || Text.includes content "•" in
  let hasNumbering := RegExp.test false numbering content in
  let hasSections := Text.includes content (LF ++ LF) in
  let lineBreaks := Text.countMatches LF content in
  let score := addIf (hasBulletPoints || hasNumbering) 3 score in
  let score := addIf (hasSections && (lineBreaks >? 2)) 2 score in
  let score := addIf (lineBreaks >? 4) 1 score in
  score.

Definition assessStructure (prompts : list Message) : Z :=
  Z.min 6 (maxOver structureOf prompts).

Definition contextMarkers : list string :=
  ["context:"; "background:"; "assume"; "given that"; "scenario:"].
Definition constraintMarkers : list string :=
  ["constraint"; "limit"; "must"; "should not"; "requirement"].

Definition contextOf (prompt : Message) : Z :=
  let score := 0 in
  let text := Text.toLowerCase (content prompt) in
  let hasExamples :=
    Text.includes text "example" || Text.includes text "e.g."
    || Text.includes text "for instance" in
  let score := addIf (Text.someIncluded contextMarkers text) 3 score in
  let score := addIf hasExamples 2 score in
  let score := addIf (Text.someIncluded constraintMarkers text) 1 score in
  score.

Definition assessContext (prompts : list Message) : Z :=
  Z.min 6 (maxOver contextOf prompts).

(** [(a|an) (.+?)(?:\.|,|\n|$)], the tail shared by the three role
    patterns, and its last group [(?:\.|,|\n|$)]. *)
Definition roleEnd : RegExp.Pattern :=
  RegExp.Alt (RegExp.Lit ".")
    (RegExp.Alt (RegExp.Lit ",")
       (RegExp.Alt (RegExp.Lit LF) RegExp.EndOfInput)).

Definition roleClause : RegExp.Pattern :=
  RegExp.Seq (RegExp.Group 1 (RegExp.Alt (RegExp.Lit "a") (RegExp.Lit "an")))
    (RegExp.Seq (RegExp.Lit " ")
       (RegExp.Seq (RegExp.Group 2 (RegExp.PlusLazy RegExp.AnyChar)) roleEnd)).

(** [/act as (a|an) (.+?)(?:\.|,|\n|$)/i] *)
Definition actAsPattern : RegExp.Pattern := RegExp.Seq (RegExp.Lit "act as ") roleClause.
(** [/you are (a|an) (.+?)(?:\.|,|\n|$)/i] *)
Definition youArePattern : RegExp.Pattern := RegExp.Seq (RegExp.Lit "you are ") roleClause.
(** [/as (a|an) (.+?)(?:\.|,|\n|$)/i] *)
Definition asPattern : RegExp.Pattern := RegExp.Seq (RegExp.Lit "as ") roleClause.

Definition rolePatterns : list RegExp.Pattern :=
  [actAsPattern; youArePattern; asPattern].

(** [text.match(pattern)] followed by [match[2]]. *)
Definition capturedRole (pattern : RegExp.Pattern) (text : string) : option string :=
  match RegExp.exec true pattern text with
  | Some caps => RegExp.capture 2 caps
  | None => None
  end.

(** The points one captured role earns. *)
Definition rolePoints (role : string) (score : Z) : Z :=
  if negb (role =? "")%string && (Z.of_nat (Text.length role) >? 5) then
    let score := score + 3 in
    let score := addIf (Z.of_nat (Text.length role) >? 15) 2 score in
    let score :=
      addIf (Text.includes role "with" || Text.includes role "experienced"
             || Text.includes role "expert") 2 score in
    score
  else score.

(** The body of the inner [rolePatterns.forEach]. *)
Definition rolePatternStep (text : string) (score : Z) (pattern : RegExp.Pattern) : Z :=
  match capturedRole pattern text with
  | Some role => rolePoints role score
  | None => score
  end.

Definition roleDefinitionOf (prompt : Message) : Z :=
  let score := 0 in
  let text := content prompt in
  fold_left (rolePatternStep text) rolePatterns score.

Definition assessRoleDefinition (prompts : list Message) : Z :=
  Z.min 7 (maxOver roleDefinitionOf prompts).

Definition generateFeedback (scores : list (string * Z)) : list string :=
  let feedback := [] in
  let feedback := pushIf (below scores "specificity" 3)
    "Try to be more specific in your prompts - include details about what you need" feedback in
  let feedback := pushIf (below scores "structure" 3)
    "Consider using bullet points, numbering, or sections to organize your prompts" feedback in
  let feedback := pushIf (below scores "context" 3)
    "Provide more context and examples to help the AI understand your needs better" feedback in
  let feedback := pushIf (below scores "roleDefinition" 3)
    "Define clear roles for the AI (e.g., 'Act as a marketing expert') to improve response quality" feedback in
  orPraise feedback "Your prompt engineering skills are strong! Keep up the good work.".

Definition analyze (conversation : list Message) : DimensionResult :=
  let userPrompts := userMessagesOf conversation in
  match userPrompts with
  | [] =>
      {| Result.score := 0;
         Result.breakdown := [("specificity", 0); ("structure", 0); ("context", 0);
                       ("roleDefinition", 0)];
         Result.feedback := ["No user prompts found in conversation"] |}
  | _ =>
      let scores :=
        [("specificity", assessSpecificity userPrompts);
         ("structure", assessStructure userPrompts);
         ("context", assessContext userPrompts);
         ("roleDefinition", assessRoleDefinition userPrompts)] in
      let totalScore := sumValues scores in
      {| Result.score := totalScore;
         Result.breakdown := scores;
         Result.feedback := generateFeedback scores |}
  end.

End PromptEngineeringScorer.

(** ** dimensions/problemSolving.js *)

Module ProblemSolvingScorer.

Definition stepMarkers : list string :=
  ["step by step"; "first"; "then"; "next"; "finally"; "break down"; "step 1"; "step 2"].

(** The body of the [forEach] of [assessDecomposition]. *)
Definition decompositionOf (msg : Message) : Z :=
  let score := 0 in
  let text := Text.toLowerCase (content msg) in
  let hasStepLanguage := Text.someIncluded stepMarkers text in
  let hasMultipleRequests := Text.countMatches "and" text >=? 2 in
  let hasTaskList := Text.includes text "1." && Text.includes text "2." in
  let hasSubTasks :=
    Text.includes text "subtask" || Text.includes text "component"
    || Text.includes text "part" in
  let score := addIf hasStepLanguage 3 score in
  let score := addIf hasMultipleRequests 2 score in
  let score := addIf hasTaskList 2 score in
  let score := addIf hasSubTasks 1 score in
  score.

Definition assessDecomposition (userMessages : list Message) : Z :=
  Z.min 8 (maxOver decompositionOf userMessages).

Definition topicKeywords : list string :=
  ["research"; "analysis"; "plan"; "strategy"; "design"; "develop";
   "write"; "create"; "build"; "analyze"; "calculate"; "optimize"].

(** [topics.add(keyword)] on a [Set] kept in insertion order. *)
Definition setAdd (keyword : string) (topics : list string) : list string :=
  if existsb (String.eqb keyword) topics then topics else topics ++ [keyword].

Definition extractMainTopics (conversation : list Message) : list string :=
  fold_left
    (fun topics msg =>
       let text := Text.toLowerCase (content msg) in
       fold_left
         (fun topics keyword =>
            if Text.includes text keyword then setAdd keyword topics else topics)
         topicKeywords topics)
    conversation [].

Definition continuityMarkers : list string :=
  ["building on"; "following from"; "based on previous";
   "continue from"; "as we discussed"; "following up"].

(** One turn of the loop [for (let i = 1; i < userMessages.length; i++)],
    on [userMessages[i-1]] and [userMessages[i]]. *)
Definition sequencingStep (previous current : Message) (sequencingScore : Z) : Z :=
  let currentText := Text.toLowerCase (content current) in
  let previousText := Text.toLowerCase (content previous) in
  let hasContinuity := Text.someIncluded continuityMarkers currentText in
  let previousHasBasic :=
    Text.includes previousText "basic" || Text.includes previousText "simple" in
  let currentHasAdvanced :=
    Text.includes currentText "advanced" || Text.includes currentText "complex" in
  let sequencingScore := addIf hasContinuity 2 sequencingScore in
  let sequencingScore := addIf (previousHasBasic && currentHasAdvanced) 2 sequencingScore in
  sequencingScore.

(** The loop over the adjacent pairs, [previous] being [userMessages[i-1]]. *)
Fixpoint sequencingLoop (previous : Message) (later : list Message) (sequencingScore : Z) : Z :=
  match later with
  | [] => sequencingScore
  | current :: later' =>
      sequencingLoop current later' (sequencingStep previous current sequencingScore)
  end.

Definition assessSequencing (conversation : list Message) : Z :=
  let sequencingScore := 0 in
  let userMessages := userMessagesOf conversation in
  match userMessages with
  | [] | [_] => Z.min 8 sequencingScore
  | first :: later =>
      let sequencingScore := sequencingLoop first later sequencingScore in
      let mainTopics := extractMainTopics conversation in
      let sequencingScore :=
        addIf (Z.of_nat (length mainTopics) <=? 3) 2 sequencingScore in
      Z.min 8 sequencingScore
  end.

Definition objectiveMarkers : list string :=
  ["objective:"; "goal:"; "i need to"; "i want to achieve";
   "purpose:"; "aim:"; "target:"; "deliverable:"].
Definition completionMarkers : list string :=
  ["thanks"; "perfect"; "this solves"; "exactly what i needed";
   "completed"; "finished"; "that works"; "great, that answers"].
Definition offTopicMarkers : list string :=
  ["unrelated"; "by the way"; "another question"; "completely different"].

(** [relevantMessages / totalMessages > 0.8].  Both counts are array
    lengths (below 2^32), for which the rounded quotient exceeds the double
    nearest to 0.8 exactly when the rational one exceeds 4/5. *)
Definition focusRatioAbove08 (relevantMessages totalMessages : Z) : bool :=
  5 * relevantMessages >? 4 * totalMessages.

Definition assessGoalOrientation (conversation : list Message) : Z :=
  let goalScore := 0 in
  let userMessages := userMessagesOf conversation in
  match userMessages with
  | [] => 0
  | first :: _ =>
      let firstMessage := Text.toLowerCase (content first) in
      let lastMessage := Text.toLowerCase (content (last userMessages first)) in
      let hasClearObjective := Text.someIncluded objectiveMarkers firstMessage in
      let hasActionVerbs :=
        Text.includes firstMessage "create" || Text.includes firstMessage "build"
        || Text.includes firstMessage "analyze" || Text.includes firstMessage "develop" in
      let indicatesCompletion := Text.someIncluded completionMarkers lastMessage in
      let totalMessages := Z.of_nat (length conversation) in
      let relevantMessages :=
        Z.of_nat (length (filter
          (fun msg =>
             let text := Text.toLowerCase (content msg) in
             negb (Text.someIncluded offTopicMarkers text))
          conversation)) in
      let goalScore := addIf hasClearObjective 3 goalScore in
      let goalScore := addIf hasActionVerbs 1 goalScore in
      let goalScore := addIf indicatesCompletion 3 goalScore in
      let goalScore := addIf (focusRatioAbove08 relevantMessages totalMessages) 2 goalScore in
      Z.min 9 goalScore
  end.

Definition generateFeedback (scores : list (string * Z)) : list string :=
  let feedback := [] in
  let feedback := pushIf (below scores "decomposition" 3)
    "Break complex problems into smaller steps - use 'step by step' or numbered tasks" feedback in
  let feedback := pushIf (below scores "sequencing" 3)
    "Build questions logically - reference previous answers and maintain topic flow" feedback in
  let feedback := pushIf (below scores "goalOrientation" 3)
    "Start with clear objectives and maintain focus throughout the conversation" feedback in
  orPraise feedback
    "Your problem-solving approach is strategic and effective! You break down tasks well and maintain clear goals.".

Definition analyze (conversation : list Message) : DimensionResult :=
  let userMessages := userMessagesOf conversation in
  match userMessages with
  | [] =>
      {| Result.score := 0;
         Result.breakdown := [("decomposition", 0); ("sequencing", 0); ("goalOrientation", 0)];
         Result.feedback := ["No user messages found in conversation"] |}
  | _ =>
      let scores :=
        [("decomposition", assessDecomposition userMessages);
         ("sequencing", assessSequencing conversation);
         ("goalOrientation", assessGoalOrientation conversation)] in
      let totalScore := sumValues scores in
      {| Result.score := totalScore;
         Result.breakdown := scores;
         Result.feedback := generateFeedback scores |}
  end.

End ProblemSolvingScorer.

(** ** dimensions/criticalThinking.js *)

Module CriticalThinkingScorer.

Definition verificationMarkers : list string :=
  ["verify"; "check"; "is this correct"; "source"; "reference";
   "fact check"; "evidence"; "proof"; "citation"; "confirm";
   "is this accurate"; "double check"; "validate"].
Definition doubtMarkers : list string :=
  ["are you sure"; "i think"; "actually"; "but what about";
   "this seems"; "i doubt"; "is that right"; "correction"].

Definition verificationOf (msg : Message) : Z :=
  let score := 0 in
  let text := Text.toLowerCase (content msg) in
  let sourceRequests :=
    Text.includes text "source" || Text.includes text "reference"
    || Text.includes text "citation" in
  let score := addIf (Text.someIncluded verificationMarkers text) 3 score in
  let score := addIf (Text.someIncluded doubtMarkers text) 2 score in
  let score := addIf sourceRequests 2 score in
  score.

Definition assessVerification (userMessages : list Message) : Z :=
  Z.min 8 (maxOver verificationOf userMessages).

Definition biasMarkers : list string :=
  ["bias"; "assumption"; "perspective"; "point of view";
   "limitation"; "constraint"; "what if"; "alternative";
   "balanced"; "neutral"; "objective"; "subjective"].
Definition challengeMarkers : list string :=
  ["why"; "how do you know"; "what makes you think";
   "what evidence"; "prove it"; "justify"; "explain why"].
Definition alternativeMarkers : list string :=
  ["other perspective"; "different angle"; "alternative view";
   "on the other hand"; "counterargument"; "opposing view"].

Definition biasDetectionOf (msg : Message) : Z :=
  let score := 0 in
  let text := Text.toLowerCase (content msg) in
  let score := addIf (Text.someIncluded biasMarkers text) 3 score in
  let score := addIf (Text.someIncluded challengeMarkers text) 2 score in
  let score := addIf (Text.someIncluded alternativeMarkers text) 2 score in
  score.

Definition assessBiasDetection (userMessages : list Message) : Z :=
  Z.min 8 (maxOver biasDetectionOf userMessages).

Definition qualityMarkers : list string :=
  ["quality"; "better"; "improve"; "enhance"; "refine";
   "more detailed"; "more specific"; "higher quality";
   "comprehensive"; "thorough"; "depth"; "clarity"].
Definition improvementCriteria : list string :=
  ["make it more concise"; "add more details"; "simplify";
   "more examples"; "better structure"; "clearer";
   "more professional"; "more engaging"; "more practical"].
Definition comparativeMarkers : list string :=
  ["this is good but"; "could be better"; "needs improvement";
   "not quite right"; "almost there"; "getting closer"].

Definition qualityAssessmentOf (msg : Message) : Z :=
  let score := 0 in
  let text := Text.toLowerCase (content msg) in
  let score := addIf (Text.someIncluded qualityMarkers text) 3 score in
  let score := addIf (Text.someIncluded improvementCriteria text) 3 score in
  let score := addIf (Text.someIncluded comparativeMarkers text) 2 score in
  score.

Definition assessQualityAssessment (userMessages : list Message) : Z :=
  Z.min 9 (maxOver qualityAssessmentOf userMessages).

Definition generateFeedback (scores : list (string * Z)) : list string :=
  let feedback := [] in
  let feedback := pushIf (below scores "verification" 3)
    "Practice verifying AI outputs - ask for sources and double-check important facts" feedback in
  let feedback := pushIf (below scores "biasDetection" 3)
    "Consider potential biases in AI responses and ask for alternative perspectives" feedback in
  let feedback := pushIf (below scores "qualityAssessment" 3)
    "Evaluate output quality more critically - specify what makes a response 'good' or needs improvement" feedback in
  orPraise feedback
    "Your critical thinking skills are excellent! You effectively evaluate and validate AI responses.".

Definition analyze (conversation : list Message) : DimensionResult :=
  let userMessages := userMessagesOf conversation in
  match userMessages with
  | [] =>
      {| Result.score := 0;
         Result.breakdown := [("verification", 0); ("biasDetection", 0); ("qualityAssessment", 0)];
         Result.feedback := ["No user messages found in conversation"] |}
  | _ =>
      let scores :=
        [("verification", assessVerification userMessages);
         ("biasDetection", assessBiasDetection userMessages);
         ("qualityAssessment", assessQualityAssessment userMessages)] in
      let totalScore := sumValues scores in
      {| Result.score := totalScore;
         Result.breakdown := scores;
         Result.feedback := generateFeedback scores |}
  end.

End CriticalThinkingScorer.

(** ** dimensions/iterativeRefinement.js *)

Module IterativeRefinementScorer.

Section Design.
(** What the specification leaves to the analyzer: the uncapped
    assessments of the three sub-criteria, and the feedback texts. *)
Variables precisionOf errorCorrectionOf progressiveImprovementOf : list Message -> Z.
Variable noUserMessages : string.
Variable generateFeedback : list (string * Z) -> list string.

(** Modelled from the spec: the Iterative Refinement analyzer, which the
    engine requires from [./dimensions/iterativeRefinement] and which is
    not among the sources.  Section 4.3: the same shape as the other
    analyzers, over the user messages, with the sub-criteria precision,
    errorCorrection and progressiveImprovement capped at 8, 8 and 9; the
    empty-user-message path mirrors section 4.2 (zero score, zero
    breakdown, explanatory feedback). *)
Definition analyze (conversation : list Message) : DimensionResult :=
  let userMessages := userMessagesOf conversation in
  match userMessages with
  | [] =>
      {| Result.score := 0;
         Result.breakdown :=
           [("precision", 0); ("errorCorrection", 0); ("progressiveImprovement", 0)];
         Result.feedback := [noUserMessages] |}
  | _ =>
      let scores :=
        [("precision", Z.min 8 (precisionOf userMessages));
         ("errorCorrection", Z.min 8 (errorCorrectionOf userMessages));
         ("progressiveImprovement", Z.min 9 (progressiveImprovementOf userMessages))] in
      let totalScore := sumValues scores in
      {| Result.score := totalScore;
         Result.breakdown := scores;
         Result.feedback := generateFeedback scores |}
  end.
End Design.

End IterativeRefinementScorer.

(** ** scoringEngine.js *)

Module ScoringEngine.

(** The engine object: [this.dimensions], in insertion order. *)
Record t : Type := {
  dimensions : list (string * Scorer)
}.

(** A scorer of the sources, which returns on every validated
    conversation. *)
Definition total (analyze : list Message -> DimensionResult) : Scorer :=
  fun conversation => Return (analyze conversation).

(** The constructor.  The iterative-refinement module is not among the
    sources; the engine takes it as it comes. *)
Definition new (iterativeRefinementScorer : Scorer) : t :=
  {| dimensions :=
       [("promptEngineering", total PromptEngineeringScorer.analyze);
        ("iterativeRefinement", iterativeRefinementScorer);
        ("problemSolving", total ProblemSolvingScorer.analyze);
        ("criticalThinking", total CriticalThinkingScorer.analyze)] |}.

Record ConversationStats : Type := {
  totalMessages : Z;
  userMessages : Z;
  assistantMessages : Z;
  averageUserWords : Z;
  averageAssistantWords : Z;
  conversationDuration : string
}.

Record AnalysisReport : Type := {
  overallScore : Z;
  proficiencyLevel : string;
  dimensionScores : list (string * Z);
  detailedBreakdown : list (string * list (string * Z));
  feedback : list string;
  analysisTimestamp : string;
  conversationStats : ConversationStats
}.

Definition getProficiencyLevel (score : Z) : string :=
  if score >=? 86 then "Expert"
  else if score >=? 76 then "Advanced"
  else if score >=? 61 then "Proficient"
  else if score >=? 41 then "Intermediate"
  else "Novice".

(** [messages.reduce((sum, msg) => sum + msg.content.split(/\s+/).length, 0)]. *)
Definition totalWords (messages : list Message) : Z :=
  fold_left (fun sum msg => sum + Text.wordCount (content msg)) messages 0.

Definition estimateConversationDuration (conversation : list Message) : string :=
  let totalWords := totalWords conversation in
  (* Math.ceil(totalWords / 200 + totalWords / 40), on the rationals *)
  let totalMinutes := (3 * totalWords + 99) / 100 in
  if totalMinutes <=? 1 then "1 minute"
  else indexToString (Z.to_nat totalMinutes) ++ " minutes".

(** [Math.round(words / count)], on the rationals: halves round up. *)
Definition roundedAverage (words count : Z) : Z :=
  (2 * words + count) / (2 * count).

Definition getConversationStats (conversation : list Message) : ConversationStats :=
  let userMessages := userMessagesOf conversation in
  let assistantMessages := filter (hasRole "assistant") conversation in
  let totalUserWords := totalWords userMessages in
  let totalAssistantWords := totalWords assistantMessages in
  {| totalMessages := Z.of_nat (length conversation);
     userMessages := Z.of_nat (length userMessages);
     assistantMessages := Z.of_nat (length assistantMessages);
     averageUserWords :=
       if Z.of_nat (length userMessages) >? 0
       then roundedAverage totalUserWords (Z.of_nat (length userMessages)) else 0;
     averageAssistantWords :=
       if Z.of_nat (length assistantMessages) >? 0
       then roundedAverage totalAssistantWords (Z.of_nat (length assistantMessages)) else 0;
     conversationDuration := estimateConversationDuration conversation |}.

Definition missingProperties (index : nat) : string :=
  "Message at index " ++ indexToString index ++ " must have role and content properties".

Definition contentNotString (index : nat) : string :=
  "Message content at index " ++ indexToString index ++ " must be a string".

(** The body of the validating [forEach]; on success the element is read
    as the message the scorers will see. *)
Definition validateMessage (index : nat) (msg : Value) : Completion Message :=
  msgRole <- getProp "role" msg ;;
  if negb (truthy msgRole) then Throw (Error (missingProperties index))
  else
    msgContent <- getProp "content" msg ;;
    if negb (truthy msgContent) then Throw (Error (missingProperties index))
    else
      match msgContent with
      | Str text => Return {| role := msgRole; content := text |}
      | _ => Throw (Error (contentNotString index))
      end.

(** [conversation.forEach((msg, index) => ...)] from [index]. *)
Fixpoint validateFrom (index : nat) (elements : list Value) : Completion (list Message) :=
  match elements with
  | [] => Return []
  | msg :: rest =>
      message <- validateMessage index msg ;;
      messages <- validateFrom (S index) rest ;;
      Return (message :: messages)
  end.

(** The input validation as a whole. *)
Definition validate (conversation : Value) : Completion (list Message) :=
  if negb (truthy conversation) || negb (isArray conversation) then
    Throw (Error "Conversation must be an array of messages")
  else
    match conversation with
    | Arr elements => validateFrom 0 elements
    | _ => Throw (Error "Conversation must be an array of messages")
    end.

(** The three accumulators of the scoring loop. *)
Record Tally : Type := {
  scores : list (string * Z);
  breakdown : list (string * list (string * Z));
  allFeedback : list string
}.

(** The body of [for (const [dimensionName, scorer] of ...)], with its
    [try] and [catch]. *)
Definition scoreDimension (conversation : list Message) (tally : Tally)
           (entry : string * Scorer) : Tally :=
  let (dimensionName, scorer) := entry in
  match scorer conversation with
  | Return result =>
      {| scores := assign dimensionName (Result.score result) (scores tally);
         breakdown := assign dimensionName (Result.breakdown result) (breakdown tally);
         allFeedback := allFeedback tally ++ Result.feedback result |}
  | Throw error =>
      {| scores := assign dimensionName 0 (scores tally);
         breakdown := assign dimensionName [] (breakdown tally);
         allFeedback := allFeedback tally ++ ["Scoring issue in " ++ dimensionName] |}
  end.

(** [[...new Set(allFeedback)]]: the first occurrence of each line, in
    order. *)
Fixpoint uniqueFrom (seen lines : list string) : list string :=
  match lines with
  | [] => []
  | line :: rest =>
      if existsb (String.eqb line) seen then uniqueFrom seen rest
      else line :: uniqueFrom (line :: seen) rest
  end.

Definition unique (lines : list string) : list string := uniqueFrom [] lines.

(** [analyzeConversation]; [now] is [new Date().toISOString()]. *)
Definition analyzeConversation (this : t) (now : string) (conversation : Value)
  : Completion AnalysisReport :=
  messages <- validate conversation ;;
  let tally :=
    fold_left (scoreDimension messages) (dimensions this)
      {| scores := []; breakdown := []; allFeedback := [] |} in
  let totalScore := sumValues (scores tally) in
  let uniqueFeedback := unique (allFeedback tally) in
  Return
    {| overallScore := totalScore;
       proficiencyLevel := getProficiencyLevel totalScore;
       dimensionScores := scores tally;
       detailedBreakdown := breakdown tally;
       feedback := uniqueFeedback;
       analysisTimestamp := now;
       conversationStats := getConversationStats messages |}.

End ScoringEngine.

(** ** scoringEngine.js: the catalog of dimensions *)

Module Catalog.

Record Entry : Type := {
  description : string;
  criteria : list (string * string)
}.

Definition getDimensionDescriptions : list (string * Entry) :=
  [("promptEngineering",
    {| description := "Measures how effectively users formulate prompts";
       criteria :=
         [("specificity", "Detail and precision in requests (0-6)");
          ("structure", "Organization and formatting (0-6)");
          ("context", "Background information provided (0-6)");
          ("roleDefinition", "Clarity of AI role specification (0-7)")] |});
   ("iterativeRefinement",
    {| description := "Measures how users improve outputs through follow-ups";
       criteria :=
         [("precision", "Specificity of refinement requests (0-8)");
          ("errorCorrection", "Identification and correction of mistakes (0-8)");
          ("progressiveImprovement", "Quality improvement across iterations (0-9)")] |});
   ("problemSolving",
    {| description := "Evaluates strategic approach to complex tasks";
       criteria :=
         [("decomposition", "Breaking down problems into steps (0-8)");
          ("sequencing", "Logical order of questions (0-8)");
          ("goalOrientation", "Maintaining focus on objectives (0-9)")] |});
   ("criticalThinking",
    {| description := "Measures evaluation and validation of AI outputs";
       criteria :=
         [("verification", "Fact-checking and accuracy assessment (0-8)");
          ("biasDetection", "Identification of biases and assumptions (0-8)");
          ("qualityAssessment", "Evaluation of output quality (0-9)")] |})].

End Catalog.

(** ** The engine before it validated its input

    The class [ScoringEngine] as the second file of the sources has it:
    the same dimensions, no check of the conversation and no [try] around
    the scorers.  It is read here on the conversations the scorers can
    work on, arrays of messages with a string content. *)

Module EarlierScoringEngine.

Record t : Type := {
  dimensions : list (string * Scorer)
}.

Definition new (iterativeRefinementScorer : Scorer) : t :=
  {| dimensions :=
       [("promptEngineering", ScoringEngine.total PromptEngineeringScorer.analyze);
        ("iterativeRefinement", iterativeRefinementScorer);
        ("problemSolving", ScoringEngine.total ProblemSolvingScorer.analyze);
        ("criticalThinking", ScoringEngine.total CriticalThinkingScorer.analyze)] |}.

Record AnalysisReport : Type := {
  overallScore : Z;
  proficiencyLevel : string;
  dimensionScores : list (string * Z);
  detailedBreakdown : list (string * list (string * Z));
  analysisTimestamp : string
}.

Definition getProficiencyLevel (score : Z) : string :=
  if score >=? 86 then "Expert"
  else if score >=? 76 then "Advanced"
  else if score >=? 61 then "Proficient"
  else if score >=? 41 then "Intermediate"
  else "Novice".

(** The two accumulators of the loop. *)
Record Tally : Type := {
  scores : list (string * Z);
  breakdown : list (string * list (string * Z))
}.

(** The body of [for (const [dimension, scorer] of ...)]; what a scorer
    throws leaves the loop. *)
Definition scoreDimension (conversation : list Message) (tally : Completion Tally)
           (entry : string * Scorer) : Completion Tally :=
  let (dimension, scorer) := entry in
  tally <- tally ;;
  result <- scorer conversation ;;
  Return {| scores := assign dimension (Result.score result) (scores tally);
            breakdown := assign dimension (Result.breakdown result) (breakdown tally) |}.

Definition analyzeConversation (this : t) (now : string) (conversation : list Message)
  : Completion AnalysisReport :=
  tally <- fold_left (scoreDimension conversation) (dimensions this)
             (Return {| scores := []; breakdown := [] |}) ;;
  let totalScore := sumValues (scores tally) in
  Return
    {| overallScore := totalScore;
       proficiencyLevel := getProficiencyLevel totalScore;
       dimensionScores := scores tally;
       detailedBreakdown := breakdown tally;
       analysisTimestamp := now |}.

End EarlierScoringEngine.

(** ** index.js: the validation of the request and the route /analyze *)

Module Server.

Definition DQ : string := String (ascii_of_nat 34) EmptyString.

Definition validRoles : list string := ["user"; "assistant"; "system"].

(** [['user', 'assistant', 'system'].includes(message.role)]. *)
Definition isValidRole (messageRole : Value) : bool :=
  match messageRole with
  | Str s => existsb (String.eqb s) validRoles
  | _ => false
  end.

(** [message.content !== '']. *)
Definition notEmptyString (v : Value) : bool :=
  match v with
  | Str s => negb (s =? "")%string
  | _ => true
  end.

Section Routes.
(** [`${message.role}`]: the conversion of a value to a string by the
    language. *)
Variable toText : Value -> string.

(** The [for] loop of [validateConversation], from index [i]; [None] is
    [null]. *)
Fixpoint validateFrom (i : nat) (conversation : list Value) : Completion (option string) :=
  match conversation with
  | [] => Return None
  | message :: rest =>
      messageRole <- getProp "role" message ;;
      if negb (truthy messageRole) then
        Return (Some ("Message at index " ++ indexToString i ++ " missing 'role' property"))
      else if negb (isValidRole messageRole) then
        Return (Some ("Message at index " ++ indexToString i ++ " has invalid role: "
                      ++ toText messageRole
                      ++ ". Must be 'user', 'assistant', or 'system'"))
      else
        messageContent <- getProp "content" message ;;
        if negb (truthy messageContent) && notEmptyString messageContent then
          Return (Some ("Message at index " ++ indexToString i ++ " missing 'content' property"))
        else
          match messageContent with
          | Str text =>
              if Z.of_nat (Text.length text) >? 10000 then
                Return (Some ("Message at index " ++ indexToString i ++ " content too long ("
                              ++ indexToString (Text.length text)
                              ++ " characters). Maximum is 10,000."))
              else validateFrom (S i) rest
          | _ =>
              Return (Some ("Message at index " ++ indexToString i
                            ++ " content must be a string"))
          end
  end.

Definition validateConversation (conversation : list Value) : Completion (option string) :=
  if (length conversation =? 0)%nat then Return (Some "Conversation array cannot be empty")
  else validateFrom 0 conversation.

(** What the route sends: [res.json] alone is status 200. *)
Inductive Response : Type :=
| Success (userId : Value) (analysis : ScoringEngine.AnalysisReport)
          (metadata : Value) (analysisTime : string)
| BadRequest (error details : string)
| AnalysisFailed (error : string) (thrown : Exception) (analysisTime : string).

Definition status (response : Response) : nat :=
  match response with
  | Success _ _ _ _ => 200
  | BadRequest _ _ => 400
  | AnalysisFailed _ _ _ => 500
  end.

(** [app.post('/analyze', ...)]: [body] is [req.body], [elapsed] is
    [Date.now() - startTime] when the response is sent.  The field
    [message] of the status 500 is the message of [thrown]. *)
Definition postAnalyze (scoringEngine : ScoringEngine.t) (now : string) (elapsed : nat)
           (body : Value) : Response :=
  let attempt : Completion Response :=
    conversation <- getProp "conversation" body ;;
    userId <- getProp "userId" body ;;
    metadata <- getProp "metadata" body ;;
    if negb (truthy conversation) || negb (isArray conversation) then
      Return (BadRequest "Conversation data is required and must be an array"
                ("Provide conversation as array of {role: " ++ DQ ++ "user" ++ DQ ++ "|"
                 ++ DQ ++ "assistant" ++ DQ ++ ", content: " ++ DQ ++ "string" ++ DQ ++ "}"))
    else
      validationError <-
        match conversation with
        | Arr elements => validateConversation elements
        | _ => Return None
        end ;;
      match validationError with
      | Some details =>
          if negb (details =? "")%string
          then Return (BadRequest "Invalid conversation structure" details)
          else
            analysis <- ScoringEngine.analyzeConversation scoringEngine now conversation ;;
            Return (Success (if truthy userId then userId else Str "anonymous") analysis
                      (if truthy metadata then metadata else Obj [])
                      (indexToString elapsed ++ "ms"))
      | None =>
          analysis <- ScoringEngine.analyzeConversation scoringEngine now conversation ;;
          Return (Success (if truthy userId then userId else Str "anonymous") analysis
                    (if truthy metadata then metadata else Obj [])
                    (indexToString elapsed ++ "ms"))
      end
  in
  match attempt with
  | Return response => response
  | Throw error => AnalysisFailed "Analysis failed" error (indexToString elapsed ++ "ms")
  end.

End Routes.

End Server.

(** * Reference notions

    The notions in which the properties are stated. *)

(** The greatest element of a list of scores, [0] for the empty list. *)
Definition listMax (l : list Z) : Z := fold_right Z.max 0 l.

(** What the scoring loop is to record for a dimension whose scorer
    completed with [c]. *)
Module Outcome.

Definition scoreOf (c : Completion DimensionResult) : Z :=
  match c with Return result => Result.score result | Throw _ => 0 end.

Definition breakdownOf (c : Completion DimensionResult) : list (string * Z) :=
  match c with Return result => Result.breakdown result | Throw _ => [] end.

Definition feedbackOf (dimensionName : string) (c : Completion DimensionResult) : list string :=
  match c with
  | Return result => Result.feedback result
  | Throw _ => ["Scoring issue in " ++ dimensionName]
  end.

End Outcome.

(** The documented cap of each sub-criterion of the three analyzers of the
    sources (the ranges of [getDimensionDescriptions]). *)
Definition documentedCaps : list (string * list (string * Z)) :=
  [("promptEngineering",
    [("specificity", 6); ("structure", 6); ("context", 6); ("roleDefinition", 7)]);
   ("problemSolving",
    [("decomposition", 8); ("sequencing", 8); ("goalOrientation", 9)]);
   ("criticalThinking",
    [("verification", 8); ("biasDetection", 8); ("qualityAssessment", 9)])].

(** The words of a text are its maximal runs of characters other than
    white space; [inWord] tells that the previous character belonged to a
    word, [skip] counts the bytes still covered by the white-space
    character just read. *)
Fixpoint wordsLoop (inWord : bool) (skip : nat) (s : string) : nat :=
  match s with
  | EmptyString => O
  | String c rest =>
      match skip with
      | S skip' => wordsLoop inWord skip' rest
      | O =>
          match Text.headAmong Text.whiteSpaceCharacters s with
          | Some space => wordsLoop false (String.length space - 1) rest
          | None => if inWord then wordsLoop true 0 rest else S (wordsLoop true 0 rest)
          end
      end
  end.

Definition wordsIn (s : string) : nat := wordsLoop false 0 s.

(** White space at the two ends of a text. *)
Definition startsWithWhiteSpace (s : string) : bool :=
  existsb (fun space => String.prefix space s) Text.whiteSpaceCharacters.

(** [s] ends with [ending]. *)
Fixpoint endsWith (s ending : string) : bool :=
  (s =? ending)%string
  || match s with
     | EmptyString => false
     | String _ rest => endsWith rest ending
     end.

Definition endsWithWhiteSpace (s : string) : bool :=
  existsb (endsWith s) Text.whiteSpaceCharacters.

(** The same from left to right, as [split] reads the text: [afterSpace]
    tells that the last character read is white space. *)
Fixpoint endsLoop (afterSpace : bool) (skip : nat) (s : string) : bool :=
  match s with
  | EmptyString => afterSpace
  | String c rest =>
      match skip with
      | S skip' => endsLoop afterSpace skip' rest
      | O =>
          match Text.headAmong Text.whiteSpaceCharacters s with
          | Some space => endsLoop true (String.length space - 1) rest
          | None => endsLoop false 0 rest
          end
      end
  end.

(** A byte that continues a character, and a text made of such bytes. *)
Definition isContinuation (c : ascii) : bool :=
  let n := nat_of_ascii c in (128 <=? n)%nat && (n <=? 191)%nat.

Fixpoint allContinuation (s : string) : bool :=
  match s with
  | EmptyString => true
  | String c rest => isContinuation c && allContinuation rest
  end.

(** The encoding of one character: a byte that opens it, then bytes that
    continue it. *)
Definition isCharacter (s : string) : bool :=
  match s with
  | EmptyString => false
  | String c rest => negb (isContinuation c) && allContinuation rest
  end.

(** The pieces that white space cuts a text into: its words, an empty
    piece before leading white space (the empty text is one empty piece),
    and an empty piece after trailing white space. *)
Definition piecesIn (s : string) : Z :=
  Z.of_nat (wordsIn s)
  + (if (s =? "")%string || startsWithWhiteSpace s then 1 else 0)
  + (if endsWithWhiteSpace s then 1 else 0).

(** Specificity of one message as section 4.2 words it, the word count
    being the number of words: 2 points for more than 50 words, 1 more
    for more than 100, 2 for a specific-language marker, 1 for the absence
    of every vague-language marker. *)
Definition specificityByWords (text : string) : Z :=
  (if Z.of_nat (wordsIn text) >? 50 then 2 else 0)
  + (if Z.of_nat (wordsIn text) >? 100 then 1 else 0)
  + (if Text.someIncluded PromptEngineeringScorer.specificMarkers (Text.toLowerCase text)
     then 2 else 0)
  + (if Text.someIncluded PromptEngineeringScorer.vagueMarkers (Text.toLowerCase text)
     then 0 else 1).

(** The same rule on the number of pieces. *)
Definition specificityByPieces (text : string) : Z :=
  (if piecesIn text >? 50 then 2 else 0)
  + (if piecesIn text >? 100 then 1 else 0)
  + (if Text.someIncluded PromptEngineeringScorer.specificMarkers (Text.toLowerCase text)
     then 2 else 0)
  + (if Text.someIncluded PromptEngineeringScorer.vagueMarkers (Text.toLowerCase text)
     then 0 else 1).

(** A letter of the alphabet. *)
Definition isLetter (c : ascii) : bool := Text.isUpper c || Text.isLower c.

(** The conjunctions "and" of a text: its maximal runs of letters that
    spell the word, in any letter case.  [run] is the run being read, in
    lower case. *)
Fixpoint conjunctionsLoop (run : string) (s : string) : nat :=
  match s with
  | EmptyString => if (run =? "and")%string then 1 else 0
  | String c rest =>
      if isLetter c then conjunctionsLoop (run ++ String (Text.lowerChar c) EmptyString) rest
      else ((if (run =? "and")%string then 1 else 0) + conjunctionsLoop EmptyString rest)%nat
  end.

Definition conjunctionsIn (text : string) : nat := conjunctionsLoop EmptyString text.

(** Decomposition of one message as section 4.4 words it: 3 points for a
    step-language marker, 2 for at least two occurrences of the
    conjunction "and", 2 for both "1." and "2.", 1 for sub-task
    vocabulary. *)
Definition decompositionByConjunctions (text : string) : Z :=
  let lowered := Text.toLowerCase text in
  (if Text.someIncluded ProblemSolvingScorer.stepMarkers lowered then 3 else 0)
  + (if (2 <=? conjunctionsIn text)%nat then 2 else 0)
  + (if Text.includes lowered "1." && Text.includes lowered "2." then 2 else 0)
  + (if Text.someIncluded ["subtask"; "component"; "part"] lowered then 1 else 0).

(** The same rule on the matches of [/and/g] in the lower-cased text:
    the letters "and" wherever they stand, each letter in one match at
    most. *)
Definition decompositionByOccurrences (text : string) : Z :=
  let lowered := Text.toLowerCase text in
  (if Text.someIncluded ProblemSolvingScorer.stepMarkers lowered then 3 else 0)
  + (if 2 <=? Text.countMatches "and" lowered then 2 else 0)
  + (if Text.includes lowered "1." && Text.includes lowered "2." then 2 else 0)
  + (if Text.someIncluded ["subtask"; "component"; "part"] lowered then 1 else 0).

(** A message sent by the user. *)
Definition userMessage (text : string) : Message :=
  {| role := Str "user"; content := text |}.

(** [n] copies of [word], each followed by [separator]. *)
Fixpoint wordsWith (separator : string) (n : nat) (word : string) : string :=
  match n with
  | O => EmptyString
  | S n' => word ++ separator ++ wordsWith separator n' word
  end.

(** The no-break space U+00A0. *)
Definition noBreakSpace : string := Eval cbv in Text.utf8 160.

(** A message of exactly 101 words, the last of which is "specific". *)
Definition hundredAndOneWords : string := wordsWith " " 100 "alpha" ++ "specific".

(** A text that a role clause captures whole: it holds neither a full
    stop, nor a comma, nor a line terminator. *)
Fixpoint isRoleText (s : string) : bool :=
  match s with
  | EmptyString => true
  | String a rest =>
      negb (Text.startsLineTerminator s) && negb (Ascii.eqb a ".")
      && negb (Ascii.eqb a ",") && isRoleText rest
  end.

(** A phrase of ASCII letters read in lower case, to tell that it is
    written in any letter case. *)
Fixpoint lowerLetters (s : string) : string :=
  match s with
  | EmptyString => EmptyString
  | String c rest => String (Text.lowerChar c) (lowerLetters rest)
  end.

(** A text of ASCII characters. *)
Definition isAscii (c : ascii) : bool := (nat_of_ascii c <? 128)%nat.

Fixpoint isAsciiText (s : string) : bool :=
  match s with
  | EmptyString => true
  | String c rest => isAscii c && isAsciiText rest
  end.

(** A text without any ASCII character. *)
Fixpoint hasNoAscii (s : string) : bool :=
  match s with
  | EmptyString => true
  | String c rest => negb (isAscii c) && hasNoAscii rest
  end.

(** A marker of the scorers: a non-empty ASCII text in lower case. *)
Definition isMarker (marker : string) : bool :=
  negb (marker =? "")%string && isAsciiText marker
  && (lowerLetters marker =? marker)%string.

(** A text given by the codes of its characters, and its length in
    UTF-16 code units: one per character below U+10000, two above. *)
Fixpoint encode (codes : list N) : string :=
  match codes with
  | [] => EmptyString
  | code :: rest => Text.utf8 code ++ encode rest
  end.

Fixpoint codeUnitsOf (codes : list N) : nat :=
  match codes with
  | [] => O
  | code :: rest => ((if (code <? 65536)%N then 1 else 2) + codeUnitsOf rest)%nat
  end.

(** What ends a role clause: the end of the text, a full stop, a comma or
    a line feed. *)
Definition endsRole (ending : string) : bool :=
  match ending with
  | EmptyString => true
  | String a _ => Ascii.eqb a "." || Ascii.eqb a "," || Ascii.eqb a (ascii_of_nat 10)
  end.

(** The points that the role captured by a pattern earns by itself;
    [None] is no match. *)
Definition pointsOf (captured : option string) : Z :=
  match captured with
  | Some role => PromptEngineeringScorer.rolePoints role 0
  | None => 0
  end.

(** The opening of the expert conversation of the test suite. *)
Definition expertRole : string :=
  "senior software architect with 15 years experience in cloud infrastructure".

Definition expertOpening : string :=
  "Act as " ++ "a" ++ " " ++ expertRole
  ++ "." ++ LF ++ LF ++ "I need to design a scalable microservices architecture.".

(** The order of the five proficiency tiers. *)
Definition tierRank (level : string) : nat :=
  if (level =? "Novice")%string then 0
  else if (level =? "Intermediate")%string then 1
  else if (level =? "Proficient")%string then 2
  else if (level =? "Advanced")%string then 3
  else if (level =? "Expert")%string then 4
  else 5.

(** A message object as a caller writes it. *)
Definition messageObject (role content : string) : Value :=
  Obj [("role", Str role); ("content", Str content)].

(** The own property [key] of an array element, when it has one. *)
Definition ownProperty (key : string) (element : Value) : option Value :=
  match element with
  | Obj properties => lookup key properties
  | _ => None
  end.

(** A scorer that fails on every conversation. *)
Definition failingScorer : Scorer := fun _ => Throw TypeError.

(** An iterative-refinement scorer of the specified shape, for the
    examples: it finds nothing to reward. *)
Definition quietRefinementScorer : Scorer :=
  ScoringEngine.total
    (IterativeRefinementScorer.analyze (fun _ => 0) (fun _ => 0) (fun _ => 0)
       "No user messages found in conversation"
       (fun _ => ["Refine the answers you get with precise follow-up requests"])).

(** The novice conversation of the test suite. *)
Definition noviceConversation : Value :=
  Arr [messageObject "user" "help me with marketing";
       messageObject "assistant" "Sure, I can help with marketing. What specifically do you need?";
       messageObject "user" "make it better"].

(** The conversation without user turns of the test suite. *)
Definition assistantOnly : Value :=
  Arr [messageObject "assistant" "Hello! How can I help you?"].

Definition timestamp : string := "2024-01-01T00:00:00.000Z".

(** A message that is neither the user's nor the assistant's. *)
Definition isOtherRole (msg : Message) : bool :=
  negb (hasRole "user" msg) && negb (hasRole "assistant" msg).

(** The sub-criteria of a breakdown that are below 3. *)
Definition belowThree (scores : list (string * Z)) : list (string * Z) :=
  filter (fun entry => snd entry <? 3) scores.

(** A message without any of the off-topic markers. *)
Definition onTopic (msg : Message) : bool :=
  negb (Text.someIncluded ProblemSolvingScorer.offTopicMarkers
          (Text.toLowerCase (content msg))).

(** The engine reads [element] as [message]: a truthy [role], and a
    non-empty string as [content]. *)
Definition readsAs (element : Value) (message : Message) : Prop :=
  getProp "role" element = Return (role message)
  /\ truthy (role message) = true
  /\ getProp "content" element = Return (Str (content message))
  /\ content message <> EmptyString.

(** The object a message is read from. *)
Definition toObject (message : Message) : Value :=
  Obj [("role", role message); ("content", Str (content message))].

(** What the route accepts as a message: one of the three roles, and a
    string of at most 10,000 UTF-16 code units. *)
Definition routeAccepts (element : Value) : Prop :=
  exists r text,
    getProp "role" element = Return (Str r)
    /\ In r Server.validRoles
    /\ getProp "content" element = Return (Str text)
    /\ Z.of_nat (Text.length text) <= 10000.

Definition hasEmptyContent (element : Value) : Prop :=
  getProp "content" element = Return (Str EmptyString).

(** The analyzers of the sources, under the names the engine gives them. *)
Definition sourceAnalyzers : list (string * (list Message -> DimensionResult)) :=
  [("promptEngineering", PromptEngineeringScorer.analyze);
   ("problemSolving", ProblemSolvingScorer.analyze);
   ("criticalThinking", CriticalThinkingScorer.analyze)].

(** A catalog text that ends with the range from 0 to [cap]. *)
Definition documentsRange (text : string) (cap : nat) : Prop :=
  exists words : string, text = words ++ " (0-" ++ indexToString cap ++ ")".

(** The novice conversation of the test suite, as the engine reads it. *)
Definition noviceMessages : list Message :=
  [userMessage "help me with marketing";
   {| role := Str "assistant";
      content := "Sure, I can help with marketing. What specifically do you need?" |};
   userMessage "make it better"].

(** A conversation that the route lets through and the engine rejects. *)
Definition emptyReply : list Value :=
  [messageObject "user" "Hello there"; messageObject "user" ""].

(** The conversion of a role to a string, for the examples: their roles
    are strings. *)
Definition roleText (v : Value) : string :=
  match v with
  | Str s => s
  | _ => EmptyString
  end.

(** * Properties *)

(** ** Association lists *)

Section ObjectFacts.
Context {V : Type}.

Lemma lookup_assign_same (key : string) (v : V) (o : list (string * V)) :
  lookup key (assign key v o) = Some v.
Proof.
  induction o as [|[k w] rest IH]; simpl.
  - now rewrite String.eqb_refl.
  - destruct (k =? key)%string eqn:E; simpl; rewrite E; auto.
Qed.

Lemma lookup_assign_other (key key' : string) (v : V) (o : list (string * V)) :
  key <> key' -> lookup key' (assign key v o) = lookup key' o.
Proof.
  intros Hne. induction o as [|[k w] rest IH]; simpl.
  - destruct (key =? key')%string eqn:E; auto.
    apply String.eqb_eq in E. contradiction.
  - destruct (k =? key)%string eqn:E; simpl.
    + apply String.eqb_eq in E. subst k.
      destruct (key =? key')%string eqn:E'; auto.
      apply String.eqb_eq in E'. contradiction.
    + destruct (k =? key')%string; auto.
Qed.
End ObjectFacts.

(** ** Maxima and sums *)

Lemma listMax_nonneg (l : list Z) : 0 <= listMax l.
Proof. induction l; simpl; unfold listMax in *; simpl; lia. Qed.

Lemma fold_max_from (f : Message -> Z) (messages : list Message) (best : Z) :
  0 <= best ->
  fold_left (fun best m => Z.max best (f m)) messages best
  = Z.max best (listMax (map f messages)).
Proof.
  revert best. induction messages as [|m rest IH]; intros best Hbest; simpl.
  - unfold listMax. simpl. lia.
  - rewrite IH by lia. unfold listMax. simpl. lia.
Qed.

Lemma maxOver_listMax (f : Message -> Z) (messages : list Message) :
  maxOver f messages = listMax (map f messages).
Proof.
  unfold maxOver. rewrite fold_max_from by lia.
  pose proof (listMax_nonneg (map f messages)). lia.
Qed.

Lemma maxOver_nonneg (f : Message -> Z) (messages : list Message) :
  0 <= maxOver f messages.
Proof. rewrite maxOver_listMax. apply listMax_nonneg. Qed.

Lemma maxOver_upper (f : Message -> Z) (bound : Z) (messages : list Message) :
  0 <= bound -> (forall m, f m <= bound) -> maxOver f messages <= bound.
Proof.
  intros Hb Hf. rewrite maxOver_listMax.
  induction messages as [|m rest IH]; unfold listMax in *; simpl; [lia|].
  specialize (Hf m). lia.
Qed.

Lemma addIf_bounds (cond : bool) (points score : Z) :
  0 <= points -> score <= addIf cond points score <= score + points.
Proof. destruct cond; simpl; lia. Qed.

Lemma addIf_indicator (cond : bool) (points score : Z) :
  addIf cond points score = score + (if cond then points else 0).
Proof. destruct cond; simpl; lia. Qed.

(** ** The scoring loop *)

Module EngineFacts.
Import ScoringEngine Outcome.

Lemma scoreDimension_eq (messages : list Message) (tally : Tally)
      (dimensionName : string) (scorer : Scorer) :
  scoreDimension messages tally (dimensionName, scorer)
  = {| scores := assign dimensionName (scoreOf (scorer messages)) (scores tally);
       breakdown := assign dimensionName (breakdownOf (scorer messages)) (breakdown tally);
       allFeedback := allFeedback tally ++ feedbackOf dimensionName (scorer messages) |}.
Proof. unfold scoreDimension. now destruct (scorer messages). Qed.

(** The tally of the engine built by [new], dimension by dimension. *)
Lemma tally_new (ir : Scorer) (messages : list Message) :
  fold_left (scoreDimension messages) (dimensions (new ir))
    {| scores := []; breakdown := []; allFeedback := [] |}
  = {| scores :=
         [("promptEngineering", Result.score (PromptEngineeringScorer.analyze messages));
          ("iterativeRefinement", scoreOf (ir messages));
          ("problemSolving", Result.score (ProblemSolvingScorer.analyze messages));
          ("criticalThinking", Result.score (CriticalThinkingScorer.analyze messages))];
       breakdown :=
         [("promptEngineering", Result.breakdown (PromptEngineeringScorer.analyze messages));
          ("iterativeRefinement", breakdownOf (ir messages));
          ("problemSolving", Result.breakdown (ProblemSolvingScorer.analyze messages));
          ("criticalThinking", Result.breakdown (CriticalThinkingScorer.analyze messages))];
       allFeedback :=
         Result.feedback (PromptEngineeringScorer.analyze messages)
         ++ feedbackOf "iterativeRefinement" (ir messages)
         ++ Result.feedback (ProblemSolvingScorer.analyze messages)
         ++ Result.feedback (CriticalThinkingScorer.analyze messages) |}.
Proof.
  unfold new, dimensions. cbn [fold_left].
  rewrite !scoreDimension_eq. unfold total. cbn [scoreOf breakdownOf feedbackOf scores breakdown allFeedback].
  cbn [assign String.eqb Ascii.eqb Bool.eqb app].
  now rewrite <- !app_assoc.
Qed.

(** The engine returns a report on every validated conversation. *)
Lemma analyzeConversation_validated (this : t) (now : string) (conversation : Value)
      (messages : list Message) :
  validate conversation = Return messages ->
  analyzeConversation this now conversation
  = let tally :=
      fold_left (scoreDimension messages) (dimensions this)
        {| scores := []; breakdown := []; allFeedback := [] |} in
    Return
      {| overallScore := sumValues (scores tally);
         proficiencyLevel := getProficiencyLevel (sumValues (scores tally));
         dimensionScores := scores tally;
         detailedBreakdown := breakdown tally;
         feedback := unique (allFeedback tally);
         analysisTimestamp := now;
         conversationStats := getConversationStats messages |}.
Proof. intros Hv. unfold analyzeConversation. now rewrite Hv. Qed.

Lemma analyzeConversation_rejected (this : t) (now : string) (conversation : Value)
      (e : Exception) :
  validate conversation = Throw e ->
  analyzeConversation this now conversation = Throw e.
Proof. intros Hv. unfold analyzeConversation. now rewrite Hv. Qed.

Lemma analyzeConversation_inv (this : t) (now : string) (conversation : Value)
      (report : AnalysisReport) :
  analyzeConversation this now conversation = Return report ->
  exists messages, validate conversation = Return messages.
Proof.
  unfold analyzeConversation. destruct (validate conversation) as [messages|e]; simpl.
  - eauto.
  - discriminate.
Qed.

(** The validating loop stops at the first element it rejects. *)
Lemma validateFrom_stops (before : list Value) :
  forall (index : nat) (validBefore : list Message) (bad : Value) (after : list Value)
         (e : Exception),
    validateFrom index before = Return validBefore ->
    validateMessage (index + length before) bad = Throw e ->
    validateFrom index (before ++ bad :: after) = Throw e.
Proof.
  induction before as [|msg before IH]; intros index validBefore bad after e Hok Hbad.
  - simpl in *. rewrite Nat.add_0_r in Hbad. now rewrite Hbad.
  - simpl in *. destruct (validateMessage index msg) as [message|e']; simpl in *;
      [|discriminate].
    destruct (validateFrom (S index) before) as [messages|e'] eqn:Hrest; simpl in *;
      [|discriminate].
    rewrite (IH (S index) messages bad after e Hrest); [reflexivity|].
    now rewrite Nat.add_succ_comm.
Qed.

Lemma validate_array (elements : list Value) :
  validate (Arr elements) = validateFrom 0 elements.
Proof. reflexivity. Qed.

Lemma validate_not_array (conversation : Value) :
  isArray conversation = false ->
  validate conversation = Throw (Error "Conversation must be an array of messages").
Proof.
  intros Hna. unfold validate. rewrite Hna.
  now rewrite Bool.orb_true_r.
Qed.

(** An object whose [role] or [content] is absent or falsy. *)
Lemma validateMessage_missing (index : nat) (properties : list (string * Value)) :
  (lookup "role" properties = None
   \/ (exists v, lookup "role" properties = Some v /\ truthy v = false)
   \/ lookup "content" properties = None
   \/ (exists c, lookup "content" properties = Some c /\ truthy c = false)) ->
  validateMessage index (Obj properties) = Throw (Error (missingProperties index)).
Proof.
  intros Hcase. unfold validateMessage, getProp.
  destruct (lookup "role" properties) as [r|] eqn:Hr; simpl.
  - destruct (truthy r) eqn:Tr; simpl; [|reflexivity].
    destruct (lookup "content" properties) as [c|] eqn:Hc; simpl; [|reflexivity].
    destruct (truthy c) eqn:Tc; simpl; [|reflexivity].
    destruct Hcase as [H|[(v & H & Hv)|[H|(v & H & Hv)]]]; try discriminate;
      injection H as <-; congruence.
  - reflexivity.
Qed.

(** Reading a property off [null] or [undefined] throws before the
    engine's own check. *)
Lemma nullish_element_is_a_TypeError (this : t) (now : string) (after : list Value) :
  analyzeConversation this now (Arr (Null :: after)) = Throw TypeError
  /\ analyzeConversation this now (Arr (Undefined :: after)) = Throw TypeError.
Proof. split; reflexivity. Qed.

Lemma In_uniqueFrom (lines : list string) :
  forall (seen : list string) (line : string),
    In line (uniqueFrom seen lines) <-> In line lines /\ ~ In line seen.
Proof.
  induction lines as [|l lines IH]; intros seen line; simpl.
  - tauto.
  - destruct (existsb (String.eqb l) seen) eqn:E.
    + rewrite IH. apply existsb_exists in E. destruct E as (x & Hx & Hlx).
      apply String.eqb_eq in Hlx. subst x.
      split; [tauto|]. intros [[->|H] Hn]; [contradiction|tauto].
    + simpl. rewrite IH. simpl.
      assert (Hl : ~ In l seen).
      { intros Hin. assert (existsb (String.eqb l) seen = true) as Hc.
        { apply existsb_exists. exists l. split; [assumption|apply String.eqb_refl]. }
        congruence. }
      destruct (string_dec l line) as [->|Hne]; [tauto|].
      tauto.
Qed.

Lemma In_unique (lines : list string) (line : string) :
  In line (unique lines) <-> In line lines.
Proof. unfold unique. rewrite In_uniqueFrom. simpl. tauto. Qed.

(** The scoring loop over any list of dimensions with distinct names:
    each dimension ends with the outcome of its own scorer. *)
Lemma tally_fold (messages : list Message) (dims : list (string * Scorer)) :
  forall tally : Tally,
    NoDup (map fst dims) ->
    let final := fold_left (scoreDimension messages) dims tally in
    (forall name scorer,
        In (name, scorer) dims ->
        lookup name (scores final) = Some (scoreOf (scorer messages))
        /\ lookup name (breakdown final) = Some (breakdownOf (scorer messages))
        /\ incl (feedbackOf name (scorer messages)) (allFeedback final))
    /\ (forall name,
           ~ In name (map fst dims) ->
           lookup name (scores final) = lookup name (scores tally)
           /\ lookup name (breakdown final) = lookup name (breakdown tally))
    /\ incl (allFeedback tally) (allFeedback final).
Proof.
  induction dims as [|[dimensionName scorer] dims IH]; intros tally Hnd; cbn zeta.
  - simpl. repeat split; try tauto. apply incl_refl.
  - cbn [fold_left]. rewrite scoreDimension_eq.
    cbn [map fst] in Hnd. inversion Hnd as [|? ? Hfresh Hnd']; subst.
    match goal with
    | |- context [fold_left _ dims ?t] => specialize (IH t Hnd')
    end.
    cbn zeta in IH.
    destruct IH as (Hin & Hout & Hfb). cbn [scores breakdown allFeedback] in *.
    split; [|split].
    + intros name scorer' [Heq|Hlater].
      * injection Heq as <- <-.
        destruct (Hout _ Hfresh) as [Hs Hb].
        rewrite Hs, Hb, !lookup_assign_same.
        repeat split. intros line Hline. apply Hfb, in_or_app. now right.
      * now apply Hin.
    + intros name Hnotin. cbn [map fst In] in Hnotin.
      assert (Hne : dimensionName <> name) by tauto.
      destruct (Hout name) as [Hs Hb]; [tauto|].
      now rewrite Hs, Hb, !lookup_assign_other.
    + intros line Hline. apply Hfb, in_or_app. now left.
Qed.

End EngineFacts.

(** ** Strings *)

Module TextFacts.
Import Text.

Lemma prefix_split (lit s : string) :
  String.prefix lit s = true <-> exists rest, s = lit ++ rest.
Proof.
  revert s. induction lit as [|c lit IH]; intros s.
  - split; [intros _; now exists s | intros _; now destruct s].
  - destruct s as [|d s]; simpl.
    + split; [discriminate | intros [rest H]; discriminate].
    + destruct (ascii_dec c d) as [->|Hne].
      * rewrite IH. split; intros [rest H]; exists rest; [now subst | now injection H].
      * split; [discriminate | intros [rest H]; simpl in H; congruence].
Qed.

Lemma append_assoc (x y z : string) : (x ++ y) ++ z = x ++ y ++ z.
Proof. induction x as [|a x IH]; simpl; [reflexivity | now rewrite IH]. Qed.

Lemma headAmong_some (characters : list string) (s character : string) :
  headAmong characters s = Some character ->
  In character characters /\ exists tail, s = character ++ tail.
Proof.
  unfold headAmong. intros Hfind. apply find_some in Hfind.
  destruct Hfind as [Hin Hprefix]. split; [exact Hin | now apply prefix_split].
Qed.

Lemma headAmong_none (characters : list string) (s : string) :
  headAmong characters s = None ->
  forall character tail, In character characters -> s <> character ++ tail.
Proof.
  unfold headAmong. intros Hfind character tail Hin Heq.
  pose proof (find_none _ _ Hfind character Hin) as Hprefix. cbv beta in Hprefix.
  assert (Hyes : String.prefix character s = true) by (apply prefix_split; now exists tail).
  congruence.
Qed.

Lemma headAmong_existsb (characters : list string) (s : string) :
  existsb (fun character => String.prefix character s) characters
  = match headAmong characters s with Some _ => true | None => false end.
Proof.
  unfold headAmong. induction characters as [|c cs IH]; [reflexivity|].
  cbn [existsb find]. destruct (String.prefix c s); [reflexivity | exact IH].
Qed.

Lemma endsWith_split (s ending : string) :
  endsWith s ending = true <-> exists before, s = before ++ ending.
Proof.
  induction s as [|c s IH]; cbn [endsWith].
  - rewrite Bool.orb_false_r, String.eqb_eq. split.
    + intros <-. now exists EmptyString.
    + intros [[|d before] H]; [exact H | discriminate].
  - rewrite Bool.orb_true_iff, String.eqb_eq, IH. split.
    + intros [<-|[before ->]]; [now exists EmptyString | now exists (String c before)].
    + intros [[|d before] H]; cbn [String.append] in H; [left; exact H|].
      right. injection H as _ ->. now exists before.
Qed.

Lemma endsWithWhiteSpace_iff (s : string) :
  endsWithWhiteSpace s = true
  <-> exists before space, In space whiteSpaceCharacters /\ s = before ++ space.
Proof.
  unfold endsWithWhiteSpace. rewrite existsb_exists. split.
  - intros (space & Hin & Hends). apply endsWith_split in Hends.
    destruct Hends as [before ->]. eauto.
  - intros (before & space & Hin & ->). exists space.
    split; [assumption | apply endsWith_split; eauto].
Qed.

(** Two ways to cut the same text. *)
Lemma append_eq_append (x y : string) :
  forall u v : string,
    x ++ y = u ++ v ->
    (exists m, u = x ++ m /\ y = m ++ v)
    \/ (exists c m, x = u ++ String c m /\ v = String c m ++ y).
Proof.
  induction x as [|a x IH]; intros u v H.
  - left. exists u. split; [reflexivity | exact H].
  - destruct u as [|b u]; cbn [String.append] in H.
    + right. exists a, x. split; [reflexivity | now symmetry].
    + injection H as -> H.
      destruct (IH u v H) as [(m & -> & ->)|(c & m & -> & ->)].
      * left. exists m. split; reflexivity.
      * right. exists c, m. split; reflexivity.
Qed.

Lemma allContinuation_append (x y : string) :
  allContinuation (x ++ y) = allContinuation x && allContinuation y.
Proof.
  induction x as [|a x IH]; [reflexivity|].
  cbn [String.append allContinuation]. now rewrite IH, Bool.andb_assoc.
Qed.

(** Each white-space character is the encoding of one character, and none
    is the beginning of another. *)
Lemma whiteSpace_shape (space : string) :
  In space whiteSpaceCharacters -> isCharacter space = true.
Proof.
  assert (Hall : forallb isCharacter whiteSpaceCharacters = true)
    by (vm_compute; reflexivity).
  rewrite forallb_forall in Hall. apply Hall.
Qed.

Lemma whiteSpace_prefix_free (space space' tail : string) :
  In space whiteSpaceCharacters -> In space' whiteSpaceCharacters ->
  space' = space ++ tail -> tail = EmptyString.
Proof.
  assert (Hall : forallb
                   (fun w => forallb
                               (fun w' => negb (String.prefix w w') || (w =? w')%string)
                               whiteSpaceCharacters)
                   whiteSpaceCharacters = true)
    by (vm_compute; reflexivity).
  rewrite forallb_forall in Hall.
  intros Hin Hin' Heq. specialize (Hall space Hin).
  rewrite forallb_forall in Hall. specialize (Hall space' Hin').
  assert (Hprefix : String.prefix space space' = true)
    by (apply prefix_split; now exists tail).
  rewrite Hprefix in Hall. cbn [negb orb] in Hall. apply String.eqb_eq in Hall.
  subst space'. clear - Heq. revert Heq.
  induction space as [|a space IH]; cbn [String.append]; intros H.
  - now symmetry.
  - injection H as H. now apply IH.
Qed.

Lemma endsLoop_skip (covered rest : string) (afterSpace : bool) :
  endsLoop afterSpace (String.length covered) (covered ++ rest)
  = endsLoop afterSpace 0 rest.
Proof.
  induction covered as [|c covered IH]; [reflexivity|].
  cbn [String.length String.append endsLoop]. exact IH.
Qed.

(** Read from left to right, a text ends after white space exactly when
    it ends with a white-space character. *)
Lemma endsLoop_endsWith (n : nat) :
  forall (s : string) (afterSpace : bool),
    (String.length s <= n)%nat ->
    endsLoop afterSpace 0 s
    = if (s =? "")%string then afterSpace else endsWithWhiteSpace s.
Proof.
  induction n as [|n IH]; intros s afterSpace Hlen.
  - destruct s; [reflexivity | simpl in Hlen; lia].
  - destruct s as [|c rest]; [reflexivity|].
    cbn [endsLoop String.eqb]. cbn [String.length] in Hlen.
    destruct (headAmong whiteSpaceCharacters (String c rest)) as [space|] eqn:Hhead.
    + apply headAmong_some in Hhead. destruct Hhead as [Hin [tail Heq]].
      pose proof (whiteSpace_shape space Hin) as Hshape.
      destruct space as [|c' covered]; [discriminate|].
      cbn [String.append] in Heq. injection Heq as <- ->.
      cbn [String.length Nat.sub]. rewrite Nat.sub_0_r, endsLoop_skip.
      assert (Htail : (String.length tail <= n)%nat).
      { clear - Hlen. revert Hlen. induction covered as [|a covered IHc]; simpl; intros H;
          [lia | apply IHc; lia]. }
      rewrite (IH tail true Htail).
      destruct tail as [|d tail].
      * symmetry. apply endsWithWhiteSpace_iff.
        exists EmptyString, (String c covered). split; [exact Hin|].
        cbn [String.append]. f_equal. clear. induction covered; simpl; congruence.
      * cbn [String.eqb]. apply eq_true_iff_eq.
        change (String c (covered ++ String d tail))
          with (String c covered ++ String d tail).
        rewrite !endsWithWhiteSpace_iff. split.
        -- intros (before & space' & Hin' & ->).
           exists (String c covered ++ before), space'.
           split; [exact Hin' | now rewrite append_assoc].
        -- intros (before & space' & Hin' & Heq).
           destruct (append_eq_append _ _ _ _ Heq)
             as [(m & -> & Hm)|(e & m & Hspace & Hspace')].
           ++ now exists m, space'.
           ++ exfalso.
              pose proof (whiteSpace_shape space' Hin') as Hshape'.
              rewrite Hspace' in Hshape'. cbn [String.append isCharacter] in Hshape'.
              apply andb_prop in Hshape'. destruct Hshape' as [Hopens _].
              destruct before as [|b before]; cbn [String.append] in Hspace.
              ** assert (Hnil : String d tail = EmptyString).
                 { apply (whiteSpace_prefix_free (String c covered) space' _ Hin Hin').
                   now rewrite Hspace', <- Hspace. }
                 discriminate Hnil.
              ** injection Hspace as _ Hcovered. rewrite Hcovered in Hshape.
                 cbn [isCharacter] in Hshape. apply andb_prop in Hshape.
                 destruct Hshape as [_ Hcont].
                 rewrite allContinuation_append in Hcont.
                 apply andb_prop in Hcont. destruct Hcont as [_ Hcont].
                 cbn [allContinuation] in Hcont. apply andb_prop in Hcont.
                 destruct Hcont as [He _]. rewrite He in Hopens. discriminate Hopens.
    + pose proof (headAmong_none _ _ Hhead) as Hno.
      assert (Hwhole : forall space, In space whiteSpaceCharacters ->
                                     String c rest <> space).
      { intros space Hin Heq. apply (Hno space EmptyString Hin).
        rewrite Heq. clear. induction space; simpl; congruence. }
      rewrite (IH rest false ltac:(lia)).
      destruct rest as [|d rest].
      * cbn [String.eqb]. destruct (endsWithWhiteSpace (String c "")) eqn:Hends;
          [|reflexivity].
        exfalso. apply endsWithWhiteSpace_iff in Hends.
        destruct Hends as (before & space & Hin & Heq).
        destruct before as [|b before]; cbn [String.append] in Heq.
        -- now apply (Hwhole space Hin).
        -- injection Heq as _ Heq. pose proof (whiteSpace_shape space Hin) as Hshape.
           destruct before, space; discriminate.
      * cbn [String.eqb]. apply eq_true_iff_eq. rewrite !endsWithWhiteSpace_iff. split.
        -- intros (before & space & Hin & ->). now exists (String c before), space.
        -- intros (before & space & Hin & Heq).
           destruct before as [|b before]; cbn [String.append] in Heq.
           ++ exfalso. now apply (Hwhole space Hin).
           ++ injection Heq as _ ->. now exists before, space.
Qed.

(** The pieces of [split] against the words, in the two states of the
    loops. *)
Lemma splitLoop_words (s : string) :
  forall (piece : string) (skip : nat),
    (List.length (splitLoop piece false skip s)
     = wordsLoop true skip s + 1 + (if endsLoop false skip s then 1 else 0))%nat
    /\ (List.length (splitLoop piece true skip s)
        = wordsLoop false skip s + (if endsLoop true skip s then 1 else 0))%nat.
Proof.
  induction s as [|c s IH]; intros piece skip.
  - simpl. split; lia.
  - cbn [splitLoop wordsLoop endsLoop]. destruct skip as [|skip]; [|apply IH].
    destruct (headAmong whiteSpaceCharacters (String c s)) as [space|].
    + destruct (IH piece (String.length space - 1)%nat) as [_ H2].
      destruct (IH EmptyString (String.length space - 1)%nat) as [_ H2'].
      cbn [List.length]. split; lia.
    + destruct (IH (piece ++ String c EmptyString) 0%nat) as [H1 _]. split; lia.
Qed.

(** [split(/\s+/).length] is the number of pieces. *)
Lemma wordCount_pieces (s : string) : wordCount s = piecesIn s.
Proof.
  unfold wordCount, splitWhiteSpace, piecesIn, wordsIn.
  destruct (splitLoop_words s EmptyString 0) as [Hpieces _]. rewrite Hpieces.
  rewrite (endsLoop_endsWith (String.length s) s false (Nat.le_refl _)).
  destruct s as [|c s]; [reflexivity|].
  unfold startsWithWhiteSpace. rewrite headAmong_existsb.
  cbn [wordsLoop String.eqb orb].
  destruct (headAmong whiteSpaceCharacters (String c s)) as [space|];
    destruct (endsWithWhiteSpace (String c s)); lia.
Qed.

Lemma wordCount_positive (s : string) : 1 <= wordCount s.
Proof.
  unfold wordCount, splitWhiteSpace.
  destruct (splitLoop_words s EmptyString 0) as [Hpieces _]. lia.
Qed.

Lemma wordsIn_le_wordCount (s : string) : Z.of_nat (wordsIn s) <= wordCount s.
Proof.
  rewrite wordCount_pieces. unfold piecesIn.
  destruct ((s =? "")%string || startsWithWhiteSpace s), (endsWithWhiteSpace s); lia.
Qed.

(** Lower case.  A text outside ASCII is found at the head of a text
    whatever ASCII text follows. *)
Lemma prefix_before_ascii (lit : string) :
  forall u x : string,
    lit <> EmptyString ->
    hasNoAscii lit = true ->
    (forall c x', x = String c x' -> isAscii c = true) ->
    String.prefix lit (u ++ x) = String.prefix lit u.
Proof.
  induction lit as [|l lit IH]; intros u x Hne Hlit Hx; [contradiction|].
  cbn [hasNoAscii] in Hlit. apply andb_prop in Hlit. destruct Hlit as [Hl Hlit].
  destruct u as [|a u]; cbn [String.append].
  - destruct x as [|c x]; [reflexivity|]. cbn [String.prefix].
    destruct (ascii_dec l c) as [->|]; [|reflexivity].
    rewrite (Hx c x eq_refl) in Hl. discriminate Hl.
  - cbn [String.prefix]. destruct (ascii_dec l a); [|reflexivity].
    destruct lit as [|l' lit].
    + destruct u, x; reflexivity.
    + apply IH; [discriminate | exact Hlit | exact Hx].
Qed.

Lemma prefix_at_ascii (lit : string) (c : ascii) (s : string) :
  lit <> EmptyString -> hasNoAscii lit = true -> isAscii c = true ->
  String.prefix lit (String c s) = false.
Proof.
  intros Hne Hlit Hc. destruct lit as [|l lit]; [contradiction|].
  cbn [hasNoAscii] in Hlit. apply andb_prop in Hlit. destruct Hlit as [Hl _].
  cbn [String.prefix]. destruct (ascii_dec l c) as [->|]; [|reflexivity].
  rewrite Hc in Hl. discriminate Hl.
Qed.

Lemma lowerLoop_append (before : string) :
  forall (skip : nat) (x : string),
    (skip <= String.length before)%nat ->
    (forall c x', x = String c x' -> isAscii c = true) ->
    lowerLoop skip (before ++ x) = lowerLoop skip before ++ lowerLoop 0 x.
Proof.
  induction before as [|c before IH]; intros skip x Hskip Hx.
  - assert (skip = 0%nat) by (simpl in Hskip; lia). subst skip.
    destruct x; reflexivity.
  - cbn [String.length] in Hskip.
    change (String c before ++ x) with (String c (before ++ x)).
    cbn [lowerLoop]. destruct skip as [|skip]; [|apply IH; [lia | exact Hx]].
    change (String c (before ++ x)) with (String c before ++ x).
    rewrite (prefix_before_ascii kelvinSign (String c before) x)
      by first [discriminate | reflexivity | exact Hx].
    rewrite (prefix_before_ascii dottedCapitalI (String c before) x)
      by first [discriminate | reflexivity | exact Hx].
    destruct (String.prefix kelvinSign (String c before)) eqn:Hk.
    + apply prefix_split in Hk. destruct Hk as [tail Htail].
      unfold kelvinSign in Htail. cbn [String.append] in Htail.
      injection Htail as _ ->.
      rewrite (IH 2%nat x); [reflexivity | simpl; lia | exact Hx].
    + destruct (String.prefix dottedCapitalI (String c before)) eqn:Hd.
      * apply prefix_split in Hd. destruct Hd as [tail Htail].
        unfold dottedCapitalI in Htail. cbn [String.append] in Htail.
        injection Htail as _ ->.
        rewrite (IH 1%nat x); [reflexivity | simpl; lia | exact Hx].
      * cbn [String.append]. f_equal. apply IH; [lia | exact Hx].
Qed.

Lemma lowerLoop_ascii (occurrence : string) :
  forall rest : string,
    isAsciiText occurrence = true ->
    lowerLoop 0 (occurrence ++ rest) = lowerLetters occurrence ++ lowerLoop 0 rest.
Proof.
  induction occurrence as [|c occurrence IH]; intros rest Hascii; [reflexivity|].
  cbn [isAsciiText] in Hascii. apply andb_prop in Hascii. destruct Hascii as [Hc Ho].
  cbn [String.append lowerLoop lowerLetters].
  rewrite (prefix_at_ascii kelvinSign c) by first [discriminate | reflexivity | exact Hc].
  rewrite (prefix_at_ascii dottedCapitalI c) by first [discriminate | reflexivity | exact Hc].
  f_equal. now apply IH.
Qed.

(** The lower case of a text around an ASCII phrase. *)
Lemma toLowerCase_occurrence (before occurrence after : string) :
  occurrence <> EmptyString ->
  isAsciiText occurrence = true ->
  toLowerCase (before ++ occurrence ++ after)
  = toLowerCase before ++ lowerLetters occurrence ++ toLowerCase after.
Proof.
  intros Hne Hascii. unfold toLowerCase.
  rewrite lowerLoop_append; [|lia|].
  - now rewrite lowerLoop_ascii.
  - intros c x' Heq. destruct occurrence as [|o occurrence]; [contradiction|].
    cbn [String.append] in Heq. injection Heq as <- _.
    cbn [isAsciiText] in Hascii. apply andb_prop in Hascii. now destruct Hascii.
Qed.

Lemma isAsciiText_lowerLetters (s : string) :
  isAsciiText (lowerLetters s) = isAsciiText s.
Proof.
  induction s as [|c s IH]; [reflexivity|]. cbn [lowerLetters isAsciiText].
  rewrite IH. f_equal.
  destruct c as [[] [] [] [] [] [] [] []]; reflexivity.
Qed.

Lemma includes_occurrence (before marker after : string) :
  includes (before ++ marker ++ after) marker = true.
Proof.
  assert (Hhere : forall text, String.prefix marker text = true ->
                               includes text marker = true).
  { intros text Hp. destruct text; cbn [includes]; now rewrite Hp. }
  induction before as [|c before IH].
  - apply Hhere, prefix_split. now exists after.
  - cbn [String.append includes].
    destruct (String.prefix marker (String c (before ++ marker ++ after)));
      [reflexivity | exact IH].
Qed.

(** A marker written in any letter case is found in the lower-cased
    text. *)
Lemma includes_in_any_case (marker before occurrence after : string) :
  isMarker marker = true ->
  lowerLetters occurrence = marker ->
  includes (toLowerCase (before ++ occurrence ++ after)) marker = true.
Proof.
  intros Hmarker Hspells. unfold isMarker in Hmarker.
  apply andb_prop in Hmarker. destruct Hmarker as [Hmarker _].
  apply andb_prop in Hmarker. destruct Hmarker as [Hne Hascii].
  rewrite toLowerCase_occurrence.
  - rewrite Hspells. apply includes_occurrence.
  - intros ->. subst marker. discriminate Hne.
  - now rewrite <- isAsciiText_lowerLetters, Hspells.
Qed.

Lemma someIncluded_in_any_case (markers : list string)
      (marker before occurrence after : string) :
  forallb isMarker markers = true ->
  In marker markers ->
  lowerLetters occurrence = marker ->
  someIncluded markers (toLowerCase (before ++ occurrence ++ after)) = true.
Proof.
  intros Hmarkers Hin Hspells. rewrite forallb_forall in Hmarkers.
  unfold someIncluded. apply existsb_exists. exists marker.
  split; [exact Hin|]. apply includes_in_any_case; auto.
Qed.

(** The length of a text in code units, against the codes of its
    characters. *)
Lemma length_append (x y : string) :
  Text.length (x ++ y) = (Text.length x + Text.length y)%nat.
Proof. induction x as [|a x IH]; simpl; [reflexivity | rewrite IH; lia]. Qed.

Lemma codeUnitsAt_byte (n : N) :
  (n < 256)%N ->
  codeUnitsAt (ascii_of_N n)
  = if (n <? 128)%N then 1%nat
    else if (n <? 192)%N then 0%nat
    else if (n <? 240)%N then 1%nat
    else 2%nat.
Proof. intros Hn. unfold codeUnitsAt. now rewrite N_ascii_embedding. Qed.

Lemma length_utf8 (code : N) :
  (code < 1114112)%N ->
  Text.length (utf8 code) = if (code <? 65536)%N then 1%nat else 2%nat.
Proof.
  intros Hcode. unfold utf8.
  pose proof (N.mod_lt code 64 ltac:(discriminate)) as Hm0.
  pose proof (N.mod_lt (code / 64) 64 ltac:(discriminate)) as Hm1.
  pose proof (N.mod_lt (code / 4096) 64 ltac:(discriminate)) as Hm2.
  assert (Hcontinues : forall low : N,
             (low < 64)%N -> Text.length (byte (128 + low)) = 0%nat).
  { intros low Hlow. cbn [byte Text.length]. rewrite codeUnitsAt_byte by lia.
    replace (128 + low <? 128)%N with false by (symmetry; apply N.ltb_ge; lia).
    replace (128 + low <? 192)%N with true by (symmetry; apply N.ltb_lt; lia).
    reflexivity. }
  assert (Hleads : forall lead units : N,
             (192 <= lead < 248)%N ->
             units = (if (lead <? 240)%N then 1 else 2)%N ->
             Text.length (byte lead) = N.to_nat units).
  { intros lead units Hlead ->. cbn [byte Text.length]. rewrite codeUnitsAt_byte by lia.
    replace (lead <? 128)%N with false by (symmetry; apply N.ltb_ge; lia).
    replace (lead <? 192)%N with false by (symmetry; apply N.ltb_ge; lia).
    destruct (lead <? 240)%N; reflexivity. }
  destruct (N.ltb_spec code 128) as [H1|H1].
  - replace (code <? 65536)%N with true by (symmetry; apply N.ltb_lt; lia).
    cbn [byte Text.length]. rewrite codeUnitsAt_byte by lia.
    replace (code <? 128)%N with true by (symmetry; apply N.ltb_lt; lia).
    reflexivity.
  - destruct (N.ltb_spec code 2048) as [H2|H2].
    + replace (code <? 65536)%N with true by (symmetry; apply N.ltb_lt; lia).
      assert (Hhigh : (code / 64 < 32)%N) by (apply N.Div0.div_lt_upper_bound; lia).
      rewrite length_append, (Hcontinues _ Hm0).
      generalize dependent (code / 64)%N. intros high _ Hhigh.
      rewrite (Hleads _ 1%N); [reflexivity | lia |].
      replace (192 + high <? 240)%N with true by (symmetry; apply N.ltb_lt; lia).
      reflexivity.
    + destruct (N.ltb_spec code 65536) as [H3|H3].
      * assert (Hhigh : (code / 4096 < 16)%N) by (apply N.Div0.div_lt_upper_bound; lia).
        rewrite !length_append, (Hcontinues _ Hm0), (Hcontinues _ Hm1).
        generalize dependent (code / 4096)%N. intros high _ Hhigh.
        rewrite (Hleads _ 1%N); [reflexivity | lia |].
        replace (224 + high <? 240)%N with true by (symmetry; apply N.ltb_lt; lia).
        reflexivity.
      * assert (Hhigh : (code / 262144 < 5)%N) by (apply N.Div0.div_lt_upper_bound; lia).
        rewrite !length_append, (Hcontinues _ Hm0), (Hcontinues _ Hm1), (Hcontinues _ Hm2).
        generalize dependent (code / 262144)%N. intros high Hhigh.
        rewrite (Hleads _ 2%N); [reflexivity | lia |].
        replace (240 + high <? 240)%N with false by (symmetry; apply N.ltb_ge; lia).
        reflexivity.
Qed.

Lemma length_encode (codes : list N) :
  Forall (fun code => (code < 1114112)%N) codes ->
  Text.length (encode codes) = codeUnitsOf codes.
Proof.
  induction 1 as [|code codes Hcode _ IH]; [reflexivity|].
  cbn [encode codeUnitsOf]. now rewrite length_append, length_utf8, IH.
Qed.

Lemma countMatchesLoop_nonneg (lit : string) (s : string) :
  forall skip, 0 <= countMatchesLoop lit skip s.
Proof.
  induction s as [|c s IH]; intros skip; cbn [countMatchesLoop]; [lia|].
  destruct skip; [|apply IH].
  destruct (String.prefix lit (String c s)).
  - specialize (IH (String.length lit - 1)%nat). lia.
  - apply IH.
Qed.

(** The characters covered by a match are skipped. *)
Lemma countMatchesLoop_skip (lit covered rest : string) :
  countMatchesLoop lit (String.length covered) (covered ++ rest)
  = countMatchesLoop lit 0 rest.
Proof.
  induction covered as [|c covered IH]; simpl; [reflexivity | exact IH].
Qed.

(** The first match, when there is one. *)
Lemma countMatches_first (c : ascii) (lit' : string) (s : string) :
  1 <= countMatches (String c lit') s ->
  exists before rest,
    s = before ++ String c lit' ++ rest
    /\ countMatches (String c lit') s = 1 + countMatches (String c lit') rest.
Proof.
  unfold countMatches. induction s as [|d s IH]; intros Hcount.
  - simpl in Hcount. lia.
  - cbn [countMatchesLoop] in *.
    destruct (String.prefix (String c lit') (String d s)) eqn:Hp.
    + apply prefix_split in Hp. destruct Hp as [rest Hrest].
      exists EmptyString, rest. split; [exact Hrest|].
      simpl in Hrest. injection Hrest as -> ->.
      cbn [String.length Nat.sub]. rewrite Nat.sub_0_r.
      now rewrite countMatchesLoop_skip.
    + destruct (IH Hcount) as (before & rest & -> & Heq).
      exists (String d before), rest. split; [reflexivity | exact Heq].
Qed.

(** No match of "and" straddles the start of an occurrence of "and". *)
Lemma countMatches_and_occurrence (before : string) :
  forall (skip : nat) (rest : string),
    (skip <= String.length before)%nat ->
    1 + countMatches "and" rest
    <= countMatchesLoop "and" skip (before ++ "and" ++ rest).
Proof.
  unfold countMatches.
  induction before as [|c before IH]; intros skip rest Hskip.
  - simpl in Hskip. assert (skip = O) by lia. subst skip.
    change ("" ++ "and" ++ rest) with (String "a" ("nd" ++ rest)).
    cbn [countMatchesLoop].
    replace (String.prefix "and" (String "a" ("nd" ++ rest))) with true
      by (symmetry; apply prefix_split; now exists rest).
    pose proof (countMatchesLoop_skip "and" "nd" rest) as Hcovered.
    cbn [String.length Nat.sub] in *. rewrite Hcovered. lia.
  - change (String c before ++ "and" ++ rest)
      with (String c (before ++ "and" ++ rest)).
    cbn [countMatchesLoop]. destruct skip as [|skip].
    + destruct (String.prefix "and" (String c (before ++ "and" ++ rest))) eqn:Hp.
      * cbn [String.length Nat.sub].
        destruct before as [|c1 [|c2 before]].
        -- exfalso. apply prefix_split in Hp. destruct Hp as [tail Hp].
           cbn in Hp. congruence.
        -- exfalso. apply prefix_split in Hp. destruct Hp as [tail Hp].
           cbn in Hp. congruence.
        -- specialize (IH 2%nat rest ltac:(simpl; lia)).
           pose proof (countMatchesLoop_nonneg "and" rest 0). lia.
      * apply IH. lia.
    + apply IH. simpl in Hskip. lia.
Qed.

(** [/and/g] finds two matches exactly in the texts that hold two
    occurrences of "and", one after the other. *)
Lemma countMatches_and_twice (text : string) :
  2 <= countMatches "and" text
  <-> exists a b c, text = a ++ "and" ++ b ++ "and" ++ c.
Proof.
  split.
  - intros Hcount.
    destruct (countMatches_first "a" "nd" text ltac:(lia)) as (a & rest & -> & Heq).
    destruct (countMatches_first "a" "nd" rest ltac:(lia)) as (b & c & -> & _).
    now exists a, b, c.
  - intros (a & b & c & ->).
    pose proof (countMatches_and_occurrence a 0 (b ++ "and" ++ c) ltac:(lia)) as H1.
    pose proof (countMatches_and_occurrence b 0 c ltac:(lia)) as H2.
    pose proof (countMatchesLoop_nonneg "and" c 0).
    unfold countMatches in *. lia.
Qed.

End TextFacts.

(** ** Regular expressions *)

Module RegExpFacts.
Import RegExp.

Ltac each_ascii a :=
  destruct a as [[] [] [] [] [] [] [] []].

Lemma upper_lower (a : ascii) :
  Text.upperChar (Text.lowerChar a) = Text.upperChar a.
Proof. each_ascii a; reflexivity. Qed.

Lemma sameChar_lower (a b : ascii) :
  sameChar true a (Text.lowerChar b) = sameChar true a b.
Proof. unfold sameChar. now rewrite upper_lower. Qed.

(** Under [i], a literal is stripped from a phrase that spells it in any
    letter case. *)
Lemma stripLit_app (lit : string) :
  forall phrase rest : string,
    lowerLetters phrase = lowerLetters lit ->
    stripLit true lit (phrase ++ rest) = Some rest.
Proof.
  induction lit as [|a lit IH]; intros phrase rest Hlow.
  - destruct phrase; [reflexivity | discriminate].
  - destruct phrase as [|b phrase]; [discriminate|].
    cbn [lowerLetters] in Hlow. injection Hlow as Hb Hrest.
    cbn [String.append stripLit].
    replace (sameChar true a b) with true.
    + now apply IH.
    + unfold sameChar. rewrite <- (upper_lower a), <- (upper_lower b), Hb.
      symmetry. apply Ascii.eqb_refl.
Qed.

Lemma substring_prefix (x y : string) :
  String.substring 0 (String.length x) (x ++ y) = x.
Proof.
  induction x as [|a x IH]; simpl.
  - now destruct y.
  - now rewrite IH.
Qed.

Lemma length_app (x y : string) :
  String.length (x ++ y) = (String.length x + String.length y)%nat.
Proof. induction x as [|a x IH]; simpl; [reflexivity | now rewrite IH]. Qed.

Lemma consumed_app (x y : string) : consumed (x ++ y) y = x.
Proof.
  unfold consumed. rewrite length_app.
  replace (String.length x + String.length y - String.length y)%nat
    with (String.length x) by lia.
  apply substring_prefix.
Qed.

(** A successful lazy star has called its continuation. *)
Lemma lazyStar_some {R} (c : CharClass) (s : string) (k : string -> option R) (r : R) :
  lazyStar c s k = Some r -> exists rest, k rest = Some r.
Proof.
  induction s as [|a s IH]; cbn [lazyStar].
  - destruct (k EmptyString) eqn:Hk; [|discriminate].
    intros H. injection H as <-. eauto.
  - destruct (k (String a s)) eqn:Hk.
    + intros H. injection H as <-. eauto.
    + destruct (inClass c (String a s)); [exact IH | discriminate].
Qed.

(** Inside a role followed by what ends a clause, [.] matches and the
    clause does not end. *)
Lemma role_head (a : ascii) (s ending : string) :
  isRoleText (String a s) = true ->
  endsRole ending = true ->
  inClass AnyChar (String a (s ++ ending)) = true
  /\ endsRole (String a (s ++ ending)) = false.
Proof.
  intros Hrole Hend. cbn [isRoleText] in Hrole.
  apply andb_prop in Hrole. destruct Hrole as [Hrole _].
  apply andb_prop in Hrole. destruct Hrole as [Hrole Hcomma].
  apply andb_prop in Hrole. destruct Hrole as [Hline Hstop].
  unfold Text.startsLineTerminator in Hline.
  destruct (Text.headAmong Text.lineTerminators (String a s)) as [t|] eqn:Hnone;
    [discriminate|].
  pose proof (TextFacts.headAmong_none _ _ Hnone) as Hno.
  assert (Hfeed : Ascii.eqb a (ascii_of_nat 10) = false).
  { destruct (Ascii.eqb a (ascii_of_nat 10)) eqn:E; [|reflexivity].
    apply Ascii.eqb_eq in E. subst a. exfalso.
    apply (Hno LF s); [cbn; tauto | reflexivity]. }
  split.
  - unfold inClass, Text.startsLineTerminator. cbv beta iota.
    destruct (Text.headAmong Text.lineTerminators (String a (s ++ ending))) as [t|] eqn:Hsome;
      [|reflexivity].
    exfalso. apply TextFacts.headAmong_some in Hsome.
    destruct Hsome as [Hin [tail Heq]]. cbn [Text.lineTerminators In] in Hin.
    destruct Hin as [<-|[<-|[<-|[<-|[]]]]]; cbn [String.append] in Heq.
    + injection Heq as -> _. apply (Hno LF s); [cbn; tauto | reflexivity].
    + injection Heq as -> _.
      apply (Hno (String (ascii_of_nat 13) EmptyString) s); [cbn; tauto | reflexivity].
    + injection Heq as -> Heq.
      destruct s as [|b [|c s]]; cbn [String.append] in Heq.
      * subst ending. discriminate Hend.
      * injection Heq as -> ->. discriminate Hend.
      * injection Heq as -> -> _.
        eapply (Hno _ s); [cbn; right; right; left; reflexivity | reflexivity].
    + injection Heq as -> Heq.
      destruct s as [|b [|c s]]; cbn [String.append] in Heq.
      * subst ending. discriminate Hend.
      * injection Heq as -> ->. discriminate Hend.
      * injection Heq as -> -> _.
        eapply (Hno _ s); [cbn; right; right; right; left; reflexivity | reflexivity].
  - cbn [endsRole]. apply negb_true_iff in Hstop, Hcomma.
    now rewrite Hstop, Hcomma, Hfeed.
Qed.

(** The lazy star runs over a role, on which its continuation fails, up
    to what ends the clause. *)
Lemma lazyStar_until {R} (s ending : string) (k : string -> option R) (r : R) :
  isRoleText s = true ->
  endsRole ending = true ->
  (forall t, endsRole t = false -> k t = None) ->
  k ending = Some r ->
  lazyStar AnyChar (s ++ ending) k = Some r.
Proof.
  intros Hs Hend Hfail Hk. induction s as [|a s IH].
  - destruct ending; cbn [String.append lazyStar]; now rewrite Hk.
  - destruct (role_head a s ending Hs Hend) as [Hclass Hgoes].
    cbn [String.append lazyStar]. rewrite (Hfail _ Hgoes), Hclass.
    apply IH. cbn [isRoleText] in Hs.
    apply andb_prop in Hs. now destruct Hs.
Qed.

Lemma exec_step (ignoreCase : bool) (p : Pattern) (a : ascii) (s : string) :
  exec ignoreCase p (String a s)
  = match matchHere ignoreCase p (String a s) with
    | Some caps => Some caps
    | None => exec ignoreCase p s
    end.
Proof. reflexivity. Qed.

(** [match] returns the captures of a match at some start. *)
Lemma exec_sound (ignoreCase : bool) (p : Pattern) (s : string) (caps : Captures) :
  exec ignoreCase p s = Some caps ->
  exists before s', s = before ++ s' /\ matchHere ignoreCase p s' = Some caps.
Proof.
  induction s as [|a s IH].
  - simpl. destruct (matchHere ignoreCase p EmptyString) eqn:Hm; [|discriminate].
    intros H. injection H as <-. now exists EmptyString, EmptyString.
  - rewrite exec_step. destruct (matchHere ignoreCase p (String a s)) eqn:Hm.
    + intros H. injection H as <-. now exists EmptyString, (String a s).
    + intros H. destruct (IH H) as (before & s' & -> & Hs').
      now exists (String a before), s'.
Qed.

(** [match] finds a match whenever the pattern matches at some start. *)
Lemma exec_complete (ignoreCase : bool) (p : Pattern) (before s' : string)
      (caps : Captures) :
  matchHere ignoreCase p s' = Some caps ->
  exists caps', exec ignoreCase p (before ++ s') = Some caps'.
Proof.
  intros Hm. induction before as [|a before IH].
  - simpl. destruct s'; simpl; rewrite Hm; eauto.
  - cbn [String.append]. rewrite exec_step.
    destruct (matchHere ignoreCase p (String a (before ++ s'))); eauto.
Qed.

End RegExpFacts.

(** ** The role patterns *)

Module RoleFacts.
Import RegExp RegExpFacts PromptEngineeringScorer.

Lemma run_Seq ic p q s caps k :
  run ic (Seq p q) s caps k = run ic p s caps (fun rest caps' => run ic q rest caps' k).
Proof. reflexivity. Qed.

Lemma run_Lit ic lit s caps k :
  run ic (Lit lit) s caps k
  = match stripLit ic lit s with Some rest => k rest caps | None => None end.
Proof. reflexivity. Qed.

Lemma run_Alt ic p q s caps k :
  run ic (Alt p q) s caps k
  = match run ic p s caps k with Some r => Some r | None => run ic q s caps k end.
Proof. reflexivity. Qed.

Lemma run_Group ic n p s caps k :
  run ic (Group n p) s caps k
  = run ic p s caps (fun rest caps' => k rest ((n, consumed s rest) :: caps')).
Proof. reflexivity. Qed.

Lemma matchHere_led (lit s : string) :
  matchHere true (Seq (Lit lit) roleClause) s
  = match stripLit true lit s with
    | Some rest => matchHere true roleClause rest
    | None => None
    end.
Proof. reflexivity. Qed.

Lemma roleEnd_run (rest : string) (caps : Captures) :
  run true roleEnd rest caps (fun _ c => Some c)
  = if endsRole rest then Some caps else None.
Proof.
  destruct rest as [|a rest]; [reflexivity|].
  each_ascii a; reflexivity.
Qed.


(** What follows the article in a role clause. *)
Lemma afterArticle_captures (rest : string) (caps1 caps : Captures) :
  run true (Seq (Lit " ") (Seq (Group 2 (PlusLazy AnyChar)) roleEnd)) rest caps1
      (fun _ c => Some c) = Some caps ->
  exists role, caps = (2%nat, role) :: caps1.
Proof.
  rewrite run_Seq, run_Lit.
  destruct (stripLit true " " rest) as [rest0|]; [|discriminate].
  rewrite run_Seq, run_Group. cbn [run].
  destruct rest0 as [|a r]; [discriminate|].
  destruct (inClass AnyChar (String a r)); [|discriminate].
  intros H. apply lazyStar_some in H. destruct H as [rest' H].
  rewrite roleEnd_run in H. destruct (endsRole rest'); [|discriminate].
  injection H as <-. eauto.
Qed.

Lemma afterArticle_on_role (role ending : string) (caps1 : Captures) :
  role <> EmptyString ->
  isRoleText role = true ->
  endsRole ending = true ->
  run true (Seq (Lit " ") (Seq (Group 2 (PlusLazy AnyChar)) roleEnd))
      (" " ++ role ++ ending) caps1 (fun _ c => Some c)
  = Some ((2%nat, role) :: caps1).
Proof.
  intros Hne Htext Hend.
  rewrite run_Seq, run_Lit.
  change (stripLit true " " (" " ++ role ++ ending)) with (Some (role ++ ending)).
  cbv beta iota. rewrite run_Seq, run_Group. cbn [run].
  destruct role as [|a r]; [contradiction|].
  destruct (role_head a r ending Htext Hend) as [Hclass _].
  cbn [String.append]. rewrite Hclass.
  cbn [isRoleText] in Htext. apply andb_prop in Htext. destruct Htext as [_ Hr].
  apply lazyStar_until; [exact Hr | exact Hend | |].
  - intros t Ht. now rewrite roleEnd_run, Ht.
  - rewrite roleEnd_run, Hend.
    change (String a (r ++ ending)) with (String a r ++ ending).
    now rewrite consumed_app.
Qed.

Lemma afterArticle_needs_space (c : ascii) (rest : string) (caps1 : Captures)
      (k : string -> Captures -> option Captures) :
  sameChar true " " c = false ->
  run true (Seq (Lit " ") (Seq (Group 2 (PlusLazy AnyChar)) roleEnd))
      (String c rest) caps1 k = None.
Proof.
  intros Hc. rewrite run_Seq, run_Lit. cbn [stripLit]. now rewrite Hc.
Qed.

(** A match of the role clause records the article and the role. *)
Lemma roleClause_captures (s : string) (caps : Captures) :
  matchHere true roleClause s = Some caps ->
  exists article role, caps = [(2%nat, role); (1%nat, article)].
Proof.
  unfold matchHere, roleClause.
  rewrite run_Seq, run_Group, run_Alt, !run_Lit.
  destruct (stripLit true "a" s) as [r1|].
  - match goal with
    | |- context [match ?first with Some r => Some r | None => _ end] =>
        destruct first as [c1|] eqn:Hfirst
    end.
    + intros H. injection H as <-.
      apply afterArticle_captures in Hfirst. destruct Hfirst as [role ->]. eauto.
    + destruct (stripLit true "an" s) as [r2|]; [|discriminate].
      intros H. apply afterArticle_captures in H. destruct H as [role ->]. eauto.
  - destruct (stripLit true "an" s) as [r2|]; [|discriminate].
    intros H. apply afterArticle_captures in H. destruct H as [role ->]. eauto.
Qed.

Lemma roleClause_on_phrase (article role ending : string) :
  lowerLetters article = "a" \/ lowerLetters article = "an" ->
  role <> EmptyString ->
  isRoleText role = true ->
  endsRole ending = true ->
  matchHere true roleClause (article ++ " " ++ role ++ ending)
  = Some [(2%nat, role); (1%nat, article)].
Proof.
  intros Harticle Hne Htext Hend.
  unfold matchHere, roleClause.
  rewrite run_Seq, run_Group, run_Alt, !run_Lit.
  destruct Harticle as [Ha|Han].
  - rewrite (stripLit_app "a" article _ Ha).
    rewrite afterArticle_on_role by assumption.
    now rewrite consumed_app.
  - destruct article as [|c1 [|c2 [|c3 article]]]; try discriminate.
    cbn [lowerLetters] in Han. injection Han as H1 H2.
    assert (Hfirst : stripLit true "a" (String c1 (String c2 "") ++ " " ++ role ++ ending)
                     = Some (String c2 (" " ++ role ++ ending))).
    { cbn [String.append stripLit].
      rewrite <- sameChar_lower, H1. reflexivity. }
    rewrite Hfirst. cbv beta iota.
    rewrite afterArticle_needs_space
      by (rewrite <- sameChar_lower, H2; reflexivity).
    rewrite (stripLit_app "an" (String c1 (String c2 "")) (" " ++ role ++ ending))
      by (cbn [lowerLetters]; now rewrite H1, H2).
    rewrite afterArticle_on_role by assumption.
    now rewrite consumed_app.
Qed.


Lemma exec_here (p : Pattern) (s : string) (caps : Captures) :
  matchHere true p s = Some caps -> exec true p s = Some caps.
Proof. intros H. destruct s; simpl; now rewrite H. Qed.

(** A text that starts with "act as " holds "as " four characters later. *)
Lemma stripLit_act_as (s rest : string) :
  stripLit true "act as " s = Some rest ->
  exists lead s4, s = lead ++ s4 /\ stripLit true "as " s4 = Some rest.
Proof.
  destruct s as [|c1 [|c2 [|c3 [|c4 s4]]]]; cbn [stripLit];
    repeat match goal with
           | |- context [if ?c then _ else _] => destruct c
           end;
    try discriminate.
  intros H. exists (String c1 (String c2 (String c3 (String c4 ""))))%string, s4.
  split; [reflexivity | exact H].
Qed.

(** The points of a role, by themselves. *)
Lemma rolePoints_adds (role : string) (score : Z) :
  rolePoints role score = score + rolePoints role 0.
Proof.
  unfold rolePoints. cbv zeta.
  destruct (negb (role =? "")%string && (Z.of_nat (Text.length role) >? 5)); [|lia].
  rewrite !addIf_indicator. lia.
Qed.

Lemma rolePoints_ge (role : string) (score : Z) : score <= rolePoints role score.
Proof.
  unfold rolePoints. cbv zeta.
  destruct (negb (role =? "")%string && (Z.of_nat (Text.length role) >? 5)); [|lia].
  rewrite !addIf_indicator.
  repeat match goal with
         | |- context [if ?c then _ else _] => destruct c
         end; lia.
Qed.

Lemma rolePoints_long (role : string) (score : Z) :
  (5 < Text.length role)%nat ->
  score + 3 <= rolePoints role score
  /\ ((15 < Text.length role)%nat -> score + 5 <= rolePoints role score).
Proof.
  intros Hlong. unfold rolePoints. cbv zeta.
  assert (Hne : (role =? "")%string = false) by (destruct role; [simpl in Hlong; lia | reflexivity]).
  assert (H5 : (Z.of_nat (Text.length role) >? 5) = true)
    by (rewrite Z.gtb_ltb; apply Z.ltb_lt; lia).
  rewrite Hne, H5. cbn [negb andb]. rewrite !addIf_indicator.
  split.
  - repeat match goal with
           | |- context [if ?c then _ else _] => destruct c
           end; lia.
  - intros H15.
    assert (H15' : (Z.of_nat (Text.length role) >? 15) = true)
      by (rewrite Z.gtb_ltb; apply Z.ltb_lt; lia).
    rewrite H15'.
    repeat match goal with
           | |- context [if ?c then _ else _] => destruct c
           end; lia.
Qed.

End RoleFacts.

(** ** The analyzers: shape and range of a breakdown *)

Module AnalyzerFacts.

Ltac min_range := apply Z.min_glb; [lia | apply maxOver_nonneg].

(** Every [score += points] taken or not. *)
Ltac addIf_cases :=
  rewrite ?addIf_indicator;
  repeat match goal with
         | |- context [if ?c then _ else _] => destruct c
         end;
  lia.

Lemma promptEngineering_shape (conversation : list Message) :
  exists specificity structure context roleDefinition : Z,
    Result.breakdown (PromptEngineeringScorer.analyze conversation)
    = [("specificity", specificity); ("structure", structure);
       ("context", context); ("roleDefinition", roleDefinition)]
    /\ 0 <= specificity <= 6 /\ 0 <= structure <= 6
    /\ 0 <= context <= 6 /\ 0 <= roleDefinition <= 7
    /\ Result.score (PromptEngineeringScorer.analyze conversation)
       = specificity + structure + context + roleDefinition.
Proof.
  unfold PromptEngineeringScorer.analyze.
  destruct (userMessagesOf conversation) as [|m rest].
  - exists 0, 0, 0, 0. cbn. repeat split; lia.
  - do 4 eexists. cbn [Result.breakdown Result.score]. split; [reflexivity|].
    unfold PromptEngineeringScorer.assessSpecificity,
      PromptEngineeringScorer.assessStructure,
      PromptEngineeringScorer.assessContext,
      PromptEngineeringScorer.assessRoleDefinition.
    repeat split; try apply Z.le_min_l; min_range.
Qed.

Lemma sequencingLoop_nonneg (later : list Message) :
  forall previous score,
    0 <= score -> 0 <= ProblemSolvingScorer.sequencingLoop previous later score.
Proof.
  induction later as [|current later IH]; intros previous score Hs; simpl; [assumption|].
  apply IH. unfold ProblemSolvingScorer.sequencingStep. cbv zeta.
  addIf_cases.
Qed.

Lemma assessSequencing_range (conversation : list Message) :
  0 <= ProblemSolvingScorer.assessSequencing conversation <= 8.
Proof.
  unfold ProblemSolvingScorer.assessSequencing. cbv zeta.
  destruct (userMessagesOf conversation) as [|first [|second later]]; [lia | lia |].
  split; [|apply Z.le_min_l].
  apply Z.min_glb; [lia|].
  pose proof (sequencingLoop_nonneg (second :: later) first 0 ltac:(lia)).
  addIf_cases.
Qed.

Lemma assessGoalOrientation_range (conversation : list Message) :
  0 <= ProblemSolvingScorer.assessGoalOrientation conversation <= 9.
Proof.
  unfold ProblemSolvingScorer.assessGoalOrientation. cbv zeta.
  destruct (userMessagesOf conversation) as [|first later]; [lia|].
  split; [|apply Z.le_min_l].
  apply Z.min_glb; [lia|].
  addIf_cases.
Qed.

Lemma problemSolving_shape (conversation : list Message) :
  exists decomposition sequencing goalOrientation : Z,
    Result.breakdown (ProblemSolvingScorer.analyze conversation)
    = [("decomposition", decomposition); ("sequencing", sequencing);
       ("goalOrientation", goalOrientation)]
    /\ 0 <= decomposition <= 8 /\ 0 <= sequencing <= 8 /\ 0 <= goalOrientation <= 9
    /\ Result.score (ProblemSolvingScorer.analyze conversation)
       = decomposition + sequencing + goalOrientation.
Proof.
  unfold ProblemSolvingScorer.analyze.
  destruct (userMessagesOf conversation) as [|m rest].
  - exists 0, 0, 0. cbn. repeat split; lia.
  - do 3 eexists. cbn [Result.breakdown Result.score]. split; [reflexivity|].
    pose proof (assessSequencing_range conversation).
    pose proof (assessGoalOrientation_range conversation).
    unfold ProblemSolvingScorer.assessDecomposition.
    repeat split; try apply Z.le_min_l; try min_range; lia.
Qed.

Lemma criticalThinking_shape (conversation : list Message) :
  exists verification biasDetection qualityAssessment : Z,
    Result.breakdown (CriticalThinkingScorer.analyze conversation)
    = [("verification", verification); ("biasDetection", biasDetection);
       ("qualityAssessment", qualityAssessment)]
    /\ 0 <= verification <= 8 /\ 0 <= biasDetection <= 8 /\ 0 <= qualityAssessment <= 9
    /\ Result.score (CriticalThinkingScorer.analyze conversation)
       = verification + biasDetection + qualityAssessment.
Proof.
  unfold CriticalThinkingScorer.analyze.
  destruct (userMessagesOf conversation) as [|m rest].
  - exists 0, 0, 0. cbn. repeat split; lia.
  - do 3 eexists. cbn [Result.breakdown Result.score]. split; [reflexivity|].
    unfold CriticalThinkingScorer.assessVerification,
      CriticalThinkingScorer.assessBiasDetection,
      CriticalThinkingScorer.assessQualityAssessment.
    repeat split; try apply Z.le_min_l; min_range.
Qed.

End AnalyzerFacts.

(** ** The report *)

Module Report.
Import ScoringEngine Outcome EngineFacts.

(** C1. For every conversation that the input validation accepts, the
    report carries the four dimension scores in [dimensionScores] and its
    [overallScore] is their exact sum: promptEngineering +
    iterativeRefinement + problemSolving + criticalThinking. *)
Theorem overallScore_is_sum_of_dimensionScores
        (iterativeRefinementScorer : Scorer) (now : string) (conversation : Value)
        (report : AnalysisReport) :
  analyzeConversation (new iterativeRefinementScorer) now conversation = Return report ->
  exists promptEngineering iterativeRefinement problemSolving criticalThinking : Z,
    dimensionScores report
    = [("promptEngineering", promptEngineering);
       ("iterativeRefinement", iterativeRefinement);
       ("problemSolving", problemSolving);
       ("criticalThinking", criticalThinking)]
    /\ overallScore report
       = promptEngineering + iterativeRefinement + problemSolving + criticalThinking.
Proof.
  intros Hrun.
  destruct (analyzeConversation_inv _ _ _ _ Hrun) as [messages Hvalid].
  rewrite (analyzeConversation_validated _ _ _ _ Hvalid) in Hrun.
  cbv zeta in Hrun. rewrite tally_new in Hrun.
  injection Hrun as <-. cbn [dimensionScores overallScore scores].
  do 4 eexists. split; [reflexivity|].
  unfold sumValues, values. cbn [map snd fold_left]. lia.
Qed.

Lemma overallScore_is_sum_of_dimensionScores_witness :
  exists report,
    analyzeConversation (new quietRefinementScorer) timestamp noviceConversation
    = Return report
    /\ exists a b c d : Z,
        dimensionScores report
        = [("promptEngineering", a); ("iterativeRefinement", b);
           ("problemSolving", c); ("criticalThinking", d)]
        /\ overallScore report = a + b + c + d.
Proof.
  eexists. split.
  - vm_compute. reflexivity.
  - apply (overallScore_is_sum_of_dimensionScores quietRefinementScorer timestamp
             noviceConversation).
    vm_compute. reflexivity.
Defined.

(** C2. [getProficiencyLevel] is the five-tier ladder with inclusive lower
    bounds (up to 40 Novice, 41 to 60 Intermediate, 61 to 75 Proficient,
    76 to 85 Advanced, 86 and above Expert), it is monotonic
    non-decreasing in its integer input, and it takes the documented
    values at the eight boundary scores. *)
Theorem getProficiencyLevel_ladder :
  (forall score : Z,
      (score <= 40 -> getProficiencyLevel score = "Novice")
      /\ (41 <= score <= 60 -> getProficiencyLevel score = "Intermediate")
      /\ (61 <= score <= 75 -> getProficiencyLevel score = "Proficient")
      /\ (76 <= score <= 85 -> getProficiencyLevel score = "Advanced")
      /\ (86 <= score -> getProficiencyLevel score = "Expert"))
  /\ (forall low high : Z,
         low <= high ->
         (tierRank (getProficiencyLevel low) <= tierRank (getProficiencyLevel high))%nat)
  /\ getProficiencyLevel 40 = "Novice"
  /\ getProficiencyLevel 41 = "Intermediate"
  /\ getProficiencyLevel 60 = "Intermediate"
  /\ getProficiencyLevel 61 = "Proficient"
  /\ getProficiencyLevel 75 = "Proficient"
  /\ getProficiencyLevel 76 = "Advanced"
  /\ getProficiencyLevel 85 = "Advanced"
  /\ getProficiencyLevel 86 = "Expert".
Proof.
  assert (Hladder : forall score : Z,
      (score <= 40 -> getProficiencyLevel score = "Novice")
      /\ (41 <= score <= 60 -> getProficiencyLevel score = "Intermediate")
      /\ (61 <= score <= 75 -> getProficiencyLevel score = "Proficient")
      /\ (76 <= score <= 85 -> getProficiencyLevel score = "Advanced")
      /\ (86 <= score -> getProficiencyLevel score = "Expert")).
  { intros score. unfold getProficiencyLevel.
    destruct (Z.geb_spec score 86), (Z.geb_spec score 76),
      (Z.geb_spec score 61), (Z.geb_spec score 41);
      repeat split; intros; first [reflexivity | lia]. }
  split; [exact Hladder|]. split; [|repeat split; reflexivity].
  intros low high Hle.
  destruct (Hladder low) as (Ln & Li & Lp & La & Le).
  destruct (Hladder high) as (Hn & Hi & Hp & Ha & He).
  assert (Clow : low <= 40 \/ 41 <= low <= 60 \/ 61 <= low <= 75
                 \/ 76 <= low <= 85 \/ 86 <= low) by lia.
  assert (Chigh : high <= 40 \/ 41 <= high <= 60 \/ 61 <= high <= 75
                  \/ 76 <= high <= 85 \/ 86 <= high) by lia.
  destruct Clow as [C|[C|[C|[C|C]]]];
    [rewrite (Ln C)|rewrite (Li C)|rewrite (Lp C)|rewrite (La C)|rewrite (Le C)];
    (destruct Chigh as [D|[D|[D|[D|D]]]];
     [rewrite (Hn D)|rewrite (Hi D)|rewrite (Hp D)|rewrite (Ha D)|rewrite (He D)]);
    first [lia | (cbv; repeat constructor)].
Qed.

Lemma getProficiencyLevel_ladder_witness :
  getProficiencyLevel 30 = "Novice"
  /\ getProficiencyLevel 50 = "Intermediate"
  /\ getProficiencyLevel 70 = "Proficient"
  /\ getProficiencyLevel 80 = "Advanced"
  /\ getProficiencyLevel 95 = "Expert"
  /\ (tierRank (getProficiencyLevel 60) <= tierRank (getProficiencyLevel 61))%nat.
Proof.
  destruct getProficiencyLevel_ladder as [Hladder [Hmono _]].
  destruct (Hladder 30) as (H30 & _).
  destruct (Hladder 50) as (_ & H50 & _).
  destruct (Hladder 70) as (_ & _ & H70 & _).
  destruct (Hladder 80) as (_ & _ & _ & H80 & _).
  destruct (Hladder 95) as (_ & _ & _ & _ & H95).
  split; [apply H30; lia|].
  split; [apply H50; lia|].
  split; [apply H70; lia|].
  split; [apply H80; lia|].
  split; [apply H95; lia|].
  apply Hmono. lia.
Defined.

(** C3. On a structurally valid conversation without any message of role
    'user', every analyzer takes its empty-user path (score 0, an all-zero
    breakdown, one explanatory feedback line), and the engine returns a
    report, without raising, whose [overallScore] is 0 and whose
    [proficiencyLevel] is "Novice".  The iterative-refinement analyzer is
    the one modelled from the specification, whatever its marker lists and
    feedback texts. *)
Theorem no_user_message_scores_zero
        (precisionOf errorCorrectionOf progressiveImprovementOf : list Message -> Z)
        (noUserMessages : string)
        (generateFeedback : list (string * Z) -> list string)
        (now : string) (conversation : Value) (messages : list Message) :
  validate conversation = Return messages ->
  userMessagesOf messages = [] ->
  let refinement :=
    IterativeRefinementScorer.analyze precisionOf errorCorrectionOf
      progressiveImprovementOf noUserMessages generateFeedback in
  PromptEngineeringScorer.analyze messages
  = {| Result.score := 0;
       Result.breakdown := [("specificity", 0); ("structure", 0); ("context", 0);
                            ("roleDefinition", 0)];
       Result.feedback := ["No user prompts found in conversation"] |}
  /\ refinement messages
     = {| Result.score := 0;
          Result.breakdown := [("precision", 0); ("errorCorrection", 0);
                               ("progressiveImprovement", 0)];
          Result.feedback := [noUserMessages] |}
  /\ ProblemSolvingScorer.analyze messages
     = {| Result.score := 0;
          Result.breakdown := [("decomposition", 0); ("sequencing", 0);
                               ("goalOrientation", 0)];
          Result.feedback := ["No user messages found in conversation"] |}
  /\ CriticalThinkingScorer.analyze messages
     = {| Result.score := 0;
          Result.breakdown := [("verification", 0); ("biasDetection", 0);
                               ("qualityAssessment", 0)];
          Result.feedback := ["No user messages found in conversation"] |}
  /\ exists report,
      analyzeConversation (new (total refinement)) now conversation = Return report
      /\ overallScore report = 0
      /\ proficiencyLevel report = "Novice"
      /\ dimensionScores report
         = [("promptEngineering", 0); ("iterativeRefinement", 0);
            ("problemSolving", 0); ("criticalThinking", 0)].
Proof.
  intros Hvalid Hnone refinement.
  assert (Hpe : PromptEngineeringScorer.analyze messages
                = {| Result.score := 0;
                     Result.breakdown := [("specificity", 0); ("structure", 0);
                                          ("context", 0); ("roleDefinition", 0)];
                     Result.feedback := ["No user prompts found in conversation"] |})
    by (unfold PromptEngineeringScorer.analyze; now rewrite Hnone).
  assert (Hir : refinement messages
                = {| Result.score := 0;
                     Result.breakdown := [("precision", 0); ("errorCorrection", 0);
                                          ("progressiveImprovement", 0)];
                     Result.feedback := [noUserMessages] |})
    by (unfold refinement, IterativeRefinementScorer.analyze; now rewrite Hnone).
  assert (Hps : ProblemSolvingScorer.analyze messages
                = {| Result.score := 0;
                     Result.breakdown := [("decomposition", 0); ("sequencing", 0);
                                          ("goalOrientation", 0)];
                     Result.feedback := ["No user messages found in conversation"] |})
    by (unfold ProblemSolvingScorer.analyze; now rewrite Hnone).
  assert (Hct : CriticalThinkingScorer.analyze messages
                = {| Result.score := 0;
                     Result.breakdown := [("verification", 0); ("biasDetection", 0);
                                          ("qualityAssessment", 0)];
                     Result.feedback := ["No user messages found in conversation"] |})
    by (unfold CriticalThinkingScorer.analyze; now rewrite Hnone).
  repeat (split; [assumption|]).
  rewrite (analyzeConversation_validated _ _ _ _ Hvalid). cbv zeta.
  rewrite tally_new. unfold total. cbn [scoreOf breakdownOf feedbackOf].
  rewrite Hpe, Hir, Hps, Hct. cbn [Result.score Result.breakdown Result.feedback].
  eexists. split; [reflexivity|]. cbn [overallScore proficiencyLevel dimensionScores scores].
  repeat split.
Qed.

Lemma no_user_message_scores_zero_witness :
  validate assistantOnly
  = Return [{| role := Str "assistant"; content := "Hello! How can I help you?" |}]
  /\ exists report,
      analyzeConversation (new quietRefinementScorer) timestamp assistantOnly
      = Return report
      /\ overallScore report = 0
      /\ proficiencyLevel report = "Novice".
Proof.
  split; [reflexivity|].
  destruct (no_user_message_scores_zero (fun _ => 0) (fun _ => 0) (fun _ => 0)
              "No user messages found in conversation"
              (fun _ => ["Refine the answers you get with precise follow-up requests"])
              timestamp assistantOnly
              [{| role := Str "assistant"; content := "Hello! How can I help you?" |}]
              eq_refl eq_refl)
    as (_ & _ & _ & _ & report & Hrun & Hscore & Hlevel & _).
  exists report. repeat split; assumption.
Defined.

(** C4. In the report on any structurally valid conversation, every
    sub-criterion of the prompt-engineering, problem-solving and
    critical-thinking breakdowns lies between 0 and its documented cap
    (6, 6, 6, 7; 8, 8, 9; 8, 8, 9), whatever the input contains; and the
    dimension score is the plain sum of the breakdown, with no further
    clamp. *)
Theorem sub_criteria_within_caps
        (iterativeRefinementScorer : Scorer) (now : string) (conversation : Value)
        (report : AnalysisReport) :
  analyzeConversation (new iterativeRefinementScorer) now conversation = Return report ->
  forall (dimension : string) (caps : list (string * Z)) (criterion : string) (cap : Z),
    In (dimension, caps) documentedCaps ->
    In (criterion, cap) caps ->
    exists (subScores : list (string * Z)) (value : Z),
      lookup dimension (detailedBreakdown report) = Some subScores
      /\ lookup criterion subScores = Some value
      /\ 0 <= value <= cap
      /\ lookup dimension (dimensionScores report) = Some (sumValues subScores).
Proof.
  intros Hrun dimension caps criterion cap Hdim Hcrit.
  destruct (analyzeConversation_inv _ _ _ _ Hrun) as [messages Hvalid].
  rewrite (analyzeConversation_validated _ _ _ _ Hvalid) in Hrun.
  cbv zeta in Hrun. rewrite tally_new in Hrun.
  injection Hrun as <-. cbn [detailedBreakdown dimensionScores breakdown scores].
  destruct (AnalyzerFacts.promptEngineering_shape messages)
    as (p1 & p2 & p3 & p4 & -> & ? & ? & ? & ? & ->).
  destruct (AnalyzerFacts.problemSolving_shape messages)
    as (s1 & s2 & s3 & -> & ? & ? & ? & ->).
  destruct (AnalyzerFacts.criticalThinking_shape messages)
    as (c1 & c2 & c3 & -> & ? & ? & ? & ->).
  unfold documentedCaps in Hdim. cbn [In] in Hdim.
  destruct Hdim as [Hdim|[Hdim|[Hdim|[]]]]; injection Hdim as <- <-;
    cbn [In] in Hcrit;
    repeat (destruct Hcrit as [Hcrit|Hcrit]; [injection Hcrit as <- <-|]);
    try contradiction;
    (do 2 eexists; split; [reflexivity|]; split; [reflexivity|];
     split; [lia|]; cbn; f_equal; lia).
Qed.

Lemma sub_criteria_within_caps_witness :
  exists report,
    analyzeConversation (new quietRefinementScorer) timestamp noviceConversation
    = Return report
    /\ exists subScores value,
        lookup "problemSolving" (detailedBreakdown report) = Some subScores
        /\ lookup "sequencing" subScores = Some value
        /\ 0 <= value <= 8
        /\ lookup "problemSolving" (dimensionScores report) = Some (sumValues subScores).
Proof.
  eexists. split.
  - vm_compute. reflexivity.
  - apply (sub_criteria_within_caps quietRefinementScorer timestamp noviceConversation
             _ ltac:(vm_compute; reflexivity) "problemSolving"
             [("decomposition", 8); ("sequencing", 8); ("goalOrientation", 9)]
             "sequencing" 8).
    + simpl. tauto.
    + simpl. tauto.
Defined.

(** C5, as amended.  An input that is not an array, such as the string
    "not an array", is rejected with the error "Conversation must be an
    array of messages", which names "must be an array".  An array whose
    first defective element, at index [i], is neither [null] nor
    [undefined] and has no [role], no [content] or a [content] that is not
    a string is rejected with an error whose message carries [i].  When
    the first defective element is [null] or [undefined], the engine
    raises the TypeError of the language, which carries no index.  No
    report is returned in any of these cases, and the outcome does not
    depend on the scorers of the engine: the validation comes before any
    of them runs. *)
Theorem invalid_input_is_rejected (this : t) (now : string) :
  (forall conversation : Value,
      isArray conversation = false ->
      analyzeConversation this now conversation
      = Throw (Error "Conversation must be an array of messages"))
  /\ analyzeConversation this now (Str "not an array")
     = Throw (Error "Conversation must be an array of messages")
  /\ Text.includes "Conversation must be an array of messages" "must be an array" = true
  /\ (forall (before : list Value) (validBefore : list Message)
             (bad : Value) (after : list Value),
         validateFrom 0 before = Return validBefore ->
         bad <> Null -> bad <> Undefined ->
         (ownProperty "role" bad = None
          \/ ownProperty "content" bad = None
          \/ exists c, ownProperty "content" bad = Some c /\ forall text, c <> Str text) ->
         let index := indexToString (length before) in
         let outcome :=
           analyzeConversation this now (Arr (before ++ bad :: after)) in
         outcome
         = Throw (Error ("Message at index " ++ index ++ " must have role and content properties"))
         \/ outcome
            = Throw (Error ("Message content at index " ++ index ++ " must be a string")))
  /\ (forall (before : list Value) (validBefore : list Message)
             (bad : Value) (after : list Value),
         validateFrom 0 before = Return validBefore ->
         bad = Null \/ bad = Undefined ->
         analyzeConversation this now (Arr (before ++ bad :: after)) = Throw TypeError).
Proof.
  split; [|split; [|split; [|split]]].
  - intros conversation Hna. apply analyzeConversation_rejected.
    now apply validate_not_array.
  - apply analyzeConversation_rejected. reflexivity.
  - reflexivity.
  - intros before validBefore bad after Hbefore Hnull Hundef Hdefect index outcome.
    assert (Hbad : validateMessage (0 + length before) bad
                   = Throw (Error (missingProperties (length before)))
                   \/ validateMessage (0 + length before) bad
                      = Throw (Error (contentNotString (length before)))).
    { cbn [Nat.add].
      destruct bad as [| |b|n|text|elements|properties];
        try contradiction; try (now left).
      unfold validateMessage, getProp. cbn [ownProperty] in Hdefect.
      destruct (lookup "role" properties) as [r|] eqn:Hr; simpl; [|now left].
      destruct (truthy r); simpl; [|now left].
      destruct (lookup "content" properties) as [c|] eqn:Hc; simpl; [|now left].
      destruct (truthy c); simpl; [|now left].
      destruct Hdefect as [H|[H|(c' & H & Hns)]]; try discriminate.
      injection H as <-.
      destruct c; try (now right). exfalso. now apply (Hns s). }
    subst outcome index.
    destruct Hbad as [Hbad|Hbad]; [left|right];
      apply analyzeConversation_rejected; rewrite validate_array;
      apply (validateFrom_stops _ _ _ _ _ _ Hbefore Hbad).
  - intros before validBefore bad after Hbefore Hnullish.
    apply analyzeConversation_rejected. rewrite validate_array.
    apply (validateFrom_stops _ _ _ _ _ _ Hbefore).
    destruct Hnullish as [->| ->]; reflexivity.
Qed.

(** C5, counterexample.  The one element of the array [[null]] has neither
    [role] nor [content]; the engine raises the TypeError of the language
    on it, and not one of the two errors that carry the index 0.  So an
    element without role or content does not always get an error that
    identifies its index. *)
Lemma null_element_names_no_index :
  (let outcome :=
     analyzeConversation (new quietRefinementScorer) timestamp (Arr [Null]) in
   ownProperty "role" Null = None
   /\ ownProperty "content" Null = None
   /\ outcome = Throw TypeError
   /\ outcome
      <> Throw (Error "Message at index 0 must have role and content properties")
   /\ outcome <> Throw (Error "Message content at index 0 must be a string"))
  /\ ~ (forall bad : Value,
           ownProperty "role" bad = None \/ ownProperty "content" bad = None ->
           let outcome :=
             analyzeConversation (new quietRefinementScorer) timestamp (Arr [bad]) in
           outcome
           = Throw (Error "Message at index 0 must have role and content properties")
           \/ outcome = Throw (Error "Message content at index 0 must be a string")).
Proof.
  split.
  - cbv zeta. repeat split; try reflexivity; discriminate.
  - intros Hall. destruct (Hall Null (or_introl eq_refl)) as [H|H]; discriminate H.
Qed.

Lemma invalid_input_is_rejected_witness :
  analyzeConversation (new quietRefinementScorer) timestamp
    (Arr [messageObject "user" "Hello there";
          Obj [("role", Str "user"); ("content", Num 12345)];
          Obj [("content", Str "This message has no role")]])
  = Throw (Error "Message content at index 1 must be a string").
Proof.
  destruct (invalid_input_is_rejected (new quietRefinementScorer) timestamp)
    as (_ & _ & _ & Helement & _).
  destruct (Helement [messageObject "user" "Hello there"]
              [{| role := Str "user"; content := "Hello there" |}]
              (Obj [("role", Str "user"); ("content", Num 12345)])
              [Obj [("content", Str "This message has no role")]]
              eq_refl ltac:(discriminate) ltac:(discriminate)
              (or_intror (or_intror
                 (ex_intro _ (Num 12345)
                    (conj eq_refl (fun text (H : Num 12345 = Str text) =>
                                     eq_ind (Num 12345)
                                            (fun v => match v with Num _ => True | _ => False end)
                                            I _ H))))))
    as [Hout|Hout].
  - discriminate Hout.
  - exact Hout.
Defined.

(** C6. On a structurally valid conversation the engine always returns a
    report, whatever its scorers do.  A dimension whose scorer throws is
    recorded with score 0 and an empty breakdown, and the line "Scoring
    issue in <dimension>" is in the feedback; a dimension whose scorer
    returns keeps its own score, breakdown and feedback lines. *)
Theorem failing_dimension_is_isolated
        (dims : list (string * Scorer)) (now : string) (conversation : Value)
        (messages : list Message) :
  validate conversation = Return messages ->
  NoDup (map fst dims) ->
  exists report,
    analyzeConversation {| dimensions := dims |} now conversation = Return report
    /\ forall (name : string) (scorer : Scorer),
        In (name, scorer) dims ->
        match scorer messages with
        | Throw _ =>
            lookup name (dimensionScores report) = Some 0
            /\ lookup name (detailedBreakdown report) = Some []
            /\ In ("Scoring issue in " ++ name) (feedback report)
        | Return result =>
            lookup name (dimensionScores report) = Some (Result.score result)
            /\ lookup name (detailedBreakdown report) = Some (Result.breakdown result)
            /\ forall line, In line (Result.feedback result) -> In line (feedback report)
        end.
Proof.
  intros Hvalid Hnd.
  rewrite (analyzeConversation_validated _ _ _ _ Hvalid). cbv zeta.
  eexists. split; [reflexivity|].
  cbn [dimensions dimensionScores detailedBreakdown feedback].
  intros name scorer Hin.
  destruct (tally_fold messages dims {| scores := []; breakdown := []; allFeedback := [] |} Hnd)
    as (Heach & _ & _).
  destruct (Heach name scorer Hin) as (Hs & Hb & Hf).
  rewrite Hs, Hb.
  destruct (scorer messages) as [result|e]; cbn [scoreOf breakdownOf feedbackOf] in *.
  - repeat split. intros line Hline. apply In_unique. now apply Hf.
  - repeat split. apply In_unique, Hf. now left.
Qed.

Lemma failing_dimension_is_isolated_witness :
  exists report,
    analyzeConversation (new failingScorer) timestamp noviceConversation = Return report
    /\ lookup "iterativeRefinement" (dimensionScores report) = Some 0
    /\ lookup "iterativeRefinement" (detailedBreakdown report) = Some []
    /\ In "Scoring issue in iterativeRefinement" (feedback report)
    /\ lookup "criticalThinking" (dimensionScores report) = Some 3.
Proof.
  assert (Hnd : NoDup (map fst (dimensions (new failingScorer)))).
  { cbn. repeat constructor; cbn; intuition discriminate. }
  destruct (failing_dimension_is_isolated (dimensions (new failingScorer)) timestamp
              noviceConversation
              [{| role := Str "user"; content := "help me with marketing" |};
               {| role := Str "assistant";
                  content := "Sure, I can help with marketing. What specifically do you need?" |};
               {| role := Str "user"; content := "make it better" |}]
              eq_refl Hnd)
    as (report & Hrun & Heach).
  exists report. split; [exact Hrun|].
  pose proof (Heach "iterativeRefinement" failingScorer ltac:(cbn; tauto)) as Hir.
  pose proof (Heach "criticalThinking" (total CriticalThinkingScorer.analyze)
                ltac:(cbn; tauto)) as Hct.
  cbn [failingScorer] in Hir. destruct Hir as (H1 & H2 & H3).
  destruct Hct as (H4 & _).
  repeat split; assumption.
Defined.

(** C9. The presence check is on truthiness: a message whose [content] is
    the empty string, or whose [role] is the empty string, is rejected
    with "Message at index <i> must have role and content properties".
    Hence some conversations whose every [content] is a string are
    structurally invalid for the engine. *)
Theorem empty_string_fields_are_rejected (this : t) (now : string) :
  (forall (before : list Value) (validBefore : list Message)
          (properties : list (string * Value)) (after : list Value),
      validateFrom 0 before = Return validBefore ->
      (lookup "content" properties = Some (Str "")
       \/ lookup "role" properties = Some (Str "")) ->
      analyzeConversation this now (Arr (before ++ Obj properties :: after))
      = Throw (Error ("Message at index " ++ indexToString (length before)
                      ++ " must have role and content properties")))
  /\ exists elements : list Value,
      Forall (fun element => exists r text, element = messageObject r text) elements
      /\ analyzeConversation this now (Arr elements)
         = Throw (Error "Message at index 1 must have role and content properties").
Proof.
  assert (Hgeneral :
    forall (before : list Value) (validBefore : list Message)
           (properties : list (string * Value)) (after : list Value),
      validateFrom 0 before = Return validBefore ->
      (lookup "content" properties = Some (Str "")
       \/ lookup "role" properties = Some (Str "")) ->
      analyzeConversation this now (Arr (before ++ Obj properties :: after))
      = Throw (Error (missingProperties (length before)))).
  { intros before validBefore properties after Hbefore Hempty.
    apply analyzeConversation_rejected. rewrite validate_array.
    apply (validateFrom_stops _ _ _ _ _ _ Hbefore). cbn [Nat.add].
    apply validateMessage_missing.
    destruct Hempty as [Hc|Hr].
    - right. right. right. exists (Str ""). now split.
    - right. left. exists (Str ""). now split. }
  split; [exact Hgeneral|].
  exists [messageObject "user" "Hello there"; messageObject "user" ""].
  split.
  - repeat constructor; do 2 eexists; reflexivity.
  - apply (Hgeneral [messageObject "user" "Hello there"]
             [{| role := Str "user"; content := "Hello there" |}]
             [("role", Str "user"); ("content", Str "")] [] eq_refl).
    left. reflexivity.
Qed.

Lemma empty_string_fields_are_rejected_witness :
  analyzeConversation (new quietRefinementScorer) timestamp
    (Arr [messageObject "assistant" "Hello! How can I help you?"; messageObject "" "Hi"])
  = Throw (Error "Message at index 1 must have role and content properties").
Proof.
  destruct (empty_string_fields_are_rejected (new quietRefinementScorer) timestamp)
    as (Hgeneral & _).
  exact (Hgeneral [messageObject "assistant" "Hello! How can I help you?"]
           [{| role := Str "assistant"; content := "Hello! How can I help you?" |}]
           [("role", Str ""); ("content", Str "Hi")] [] eq_refl
           (or_intror eq_refl)).
Defined.

End Report.

(** ** Sub-criteria *)

Module SubCriteria.

Lemma specificityOf_pieces (prompt : Message) :
  PromptEngineeringScorer.specificityOf prompt = specificityByPieces (content prompt).
Proof.
  unfold PromptEngineeringScorer.specificityOf, specificityByPieces. cbv zeta.
  rewrite TextFacts.wordCount_pieces, !addIf_indicator.
  destruct (Text.someIncluded PromptEngineeringScorer.vagueMarkers _); simpl; lia.
Qed.

Lemma decompositionOf_occurrences (msg : Message) :
  ProblemSolvingScorer.decompositionOf msg = decompositionByOccurrences (content msg).
Proof.
  unfold ProblemSolvingScorer.decompositionOf, decompositionByOccurrences. cbv zeta.
  set (text := Text.toLowerCase (content msg)).
  rewrite !addIf_indicator.
  assert (Hand : (Text.countMatches "and" text >=? 2)
                 = (2 <=? Text.countMatches "and" text))
    by (rewrite Z.geb_leb; reflexivity).
  assert (Hsub : Text.someIncluded ["subtask"; "component"; "part"] text
                 = Text.includes text "subtask" || Text.includes text "component"
                   || Text.includes text "part")
    by (unfold Text.someIncluded; cbn [existsb];
        now rewrite Bool.orb_false_r, Bool.orb_assoc).
  rewrite Hand, Hsub. lia.
Qed.

(** C7, as amended.  The specificity sub-score of the prompt-engineering
    breakdown is the maximum, over the user messages, of: 2 when the
    message is cut by white space into more than 50 pieces, plus 1 when
    into more than 100, plus 2 for a specific-language marker in the
    lower-cased message, plus 1 for no vague-language marker in it; capped
    at 6.  The pieces are the words of the message (its maximal runs of
    characters other than white space), one more when the message is
    empty or starts with white space, and one more when it ends with white
    space.  A marker written in any letter case is in the lower-cased
    message.  A single user message of exactly 101 words that contains
    "specific" and no vague marker scores 6.  White space is what [\s]
    matches, the no-break space included. *)
Theorem specificity_is_capped_maximum :
  (forall conversation : list Message,
      lookup "specificity" (Result.breakdown (PromptEngineeringScorer.analyze conversation))
      = Some (Z.min 6 (listMax (map (fun prompt => specificityByPieces (content prompt))
                                    (userMessagesOf conversation)))))
  /\ (forall marker before occurrence after : string,
         lowerLetters occurrence = marker ->
         (In marker PromptEngineeringScorer.specificMarkers ->
          Text.someIncluded PromptEngineeringScorer.specificMarkers
            (Text.toLowerCase (before ++ occurrence ++ after)) = true)
         /\ (In marker PromptEngineeringScorer.vagueMarkers ->
             Text.someIncluded PromptEngineeringScorer.vagueMarkers
               (Text.toLowerCase (before ++ occurrence ++ after)) = true))
  /\ (forall before occurrence after : string,
         let text := before ++ occurrence ++ after in
         wordsIn text = 101%nat \/ piecesIn text = 101 ->
         lowerLetters occurrence = "specific" ->
         Text.someIncluded PromptEngineeringScorer.vagueMarkers (Text.toLowerCase text)
         = false ->
         lookup "specificity"
           (Result.breakdown (PromptEngineeringScorer.analyze [userMessage text]))
         = Some 6)
  /\ (PromptEngineeringScorer.specificityOf (userMessage "Be SPECIFIC about the colours") = 3
      /\ PromptEngineeringScorer.specificityOf (userMessage "help me with this") = 0
      /\ wordsIn (wordsWith noBreakSpace 50 "alpha" ++ "omega") = 51%nat
      /\ PromptEngineeringScorer.specificityOf
           (userMessage (wordsWith noBreakSpace 50 "alpha" ++ "omega")) = 3).
Proof.
  assert (Hgeneral : forall conversation : list Message,
      lookup "specificity" (Result.breakdown (PromptEngineeringScorer.analyze conversation))
      = Some (Z.min 6 (listMax (map (fun prompt => specificityByPieces (content prompt))
                                    (userMessagesOf conversation))))).
  { intros conversation. unfold PromptEngineeringScorer.analyze.
    destruct (userMessagesOf conversation) as [|m rest] eqn:Husers.
    - reflexivity.
    - cbn [Result.breakdown lookup String.eqb Ascii.eqb Bool.eqb].
      unfold PromptEngineeringScorer.assessSpecificity.
      rewrite maxOver_listMax. do 3 f_equal.
      apply map_ext. intros prompt. apply specificityOf_pieces. }
  assert (Hspecific : forall marker before occurrence after : string,
             lowerLetters occurrence = marker ->
             In marker PromptEngineeringScorer.specificMarkers ->
             Text.someIncluded PromptEngineeringScorer.specificMarkers
               (Text.toLowerCase (before ++ occurrence ++ after)) = true).
  { intros marker before occurrence after Hspells Hin.
    now apply (TextFacts.someIncluded_in_any_case _ marker). }
  split; [exact Hgeneral|]. split; [|split].
  - intros marker before occurrence after Hspells. split.
    + now apply Hspecific.
    + intros Hin. now apply (TextFacts.someIncluded_in_any_case _ marker).
  - intros before occurrence after text Hwords Hspells Hvague.
    unfold text in *. clear text.
    assert (Hcount : 101 <= piecesIn (before ++ occurrence ++ after)).
    { destruct Hwords as [Hw|Hw]; [|lia].
      pose proof (TextFacts.wordsIn_le_wordCount (before ++ occurrence ++ after)) as Hle.
      rewrite TextFacts.wordCount_pieces in Hle. lia. }
    rewrite Hgeneral. cbn [userMessagesOf filter hasRole userMessage role String.eqb
                            Ascii.eqb Bool.eqb map content].
    unfold specificityByPieces, listMax. cbn [fold_right].
    rewrite Hvague.
    rewrite (Hspecific "specific" before occurrence after Hspells) by (cbn; tauto).
    assert (H50 : (piecesIn (before ++ occurrence ++ after) >? 50) = true)
      by (rewrite Z.gtb_ltb; apply Z.ltb_lt; lia).
    assert (H100 : (piecesIn (before ++ occurrence ++ after) >? 100) = true)
      by (rewrite Z.gtb_ltb; apply Z.ltb_lt; lia).
    rewrite H50, H100. reflexivity.
  - repeat split; vm_compute; reflexivity.
Qed.

(** C7, counterexample.  Fifty words, each followed by a space: the
    message has 50 words, so the rule on the number of words gives 1 (no
    vague marker); [split] cuts it into 51 pieces, the last one empty,
    and the code gives 3. *)
Lemma specificity_is_not_by_number_of_words :
  (let text := wordsWith " " 50 "alpha" in
   wordsIn text = 50%nat
   /\ lookup "specificity"
        (Result.breakdown (PromptEngineeringScorer.analyze [userMessage text]))
      = Some 3
   /\ Z.min 6 (listMax [specificityByWords text]) = 1)
  /\ ~ (forall conversation : list Message,
           lookup "specificity"
             (Result.breakdown (PromptEngineeringScorer.analyze conversation))
           = Some (Z.min 6 (listMax (map (fun prompt => specificityByWords (content prompt))
                                         (userMessagesOf conversation))))).
Proof.
  split.
  - cbv zeta. repeat split; vm_compute; reflexivity.
  - intros Hall. specialize (Hall [userMessage (wordsWith " " 50 "alpha")]).
    vm_compute in Hall. discriminate Hall.
Qed.

Lemma specificity_is_capped_maximum_witness :
  wordsIn hundredAndOneWords = 101%nat
  /\ lookup "specificity"
       (Result.breakdown (PromptEngineeringScorer.analyze [userMessage hundredAndOneWords]))
     = Some 6.
Proof.
  split; [vm_compute; reflexivity|].
  destruct specificity_is_capped_maximum as (_ & _ & Hscenario & _).
  apply (Hscenario (wordsWith " " 100 "alpha") "specific" EmptyString).
  - left. vm_compute. reflexivity.
  - reflexivity.
  - vm_compute. reflexivity.
Defined.

(** C8, as amended.  The decomposition sub-score of the problem-solving
    breakdown is the maximum over the user messages, capped at 8, of: 3
    for a step-language marker, plus 2 when [/and/g] finds at least two
    matches in the lower-cased message, plus 2 when it holds both "1." and
    "2.", plus 1 for sub-task vocabulary.  [/and/g] finds two matches
    exactly when the lower-cased message holds the letters "and" twice,
    one occurrence after the other, wherever they stand: as the
    conjunction or inside a word.  A marker, and the letters "and",
    written in any letter case are in the lower-cased message. *)
Theorem decomposition_is_capped_maximum :
  (forall conversation : list Message,
      lookup "decomposition" (Result.breakdown (ProblemSolvingScorer.analyze conversation))
      = Some (Z.min 8 (listMax (map (fun msg => decompositionByOccurrences (content msg))
                                    (userMessagesOf conversation)))))
  /\ (forall text : string,
         (2 <=? Text.countMatches "and" text) = true
         <-> exists a b c, text = a ++ "and" ++ b ++ "and" ++ c)
  /\ (forall a first b second c : string,
         lowerLetters first = "and" ->
         lowerLetters second = "and" ->
         (2 <=? Text.countMatches "and"
                  (Text.toLowerCase (a ++ first ++ b ++ second ++ c))) = true)
  /\ (forall marker before occurrence after : string,
         lowerLetters occurrence = marker ->
         (In marker ProblemSolvingScorer.stepMarkers ->
          Text.someIncluded ProblemSolvingScorer.stepMarkers
            (Text.toLowerCase (before ++ occurrence ++ after)) = true)
         /\ (In marker ["subtask"; "component"; "part"] ->
             Text.someIncluded ["subtask"; "component"; "part"]
               (Text.toLowerCase (before ++ occurrence ++ after)) = true))
  /\ (ProblemSolvingScorer.decompositionOf (userMessage "First gather the data") = 3
      /\ ProblemSolvingScorer.decompositionOf (userMessage "Salt AND pepper AND oil") = 2
      /\ ProblemSolvingScorer.decompositionOf (userMessage "salt or pepper") = 0
      /\ ProblemSolvingScorer.decompositionOf
           (userMessage ("Brea" ++ Text.kelvinSign ++ " down the task")) = 3).
Proof.
  split; [|split; [|split; [|split]]].
  - intros conversation. unfold ProblemSolvingScorer.analyze.
    destruct (userMessagesOf conversation) as [|m rest] eqn:Husers.
    + reflexivity.
    + cbn [Result.breakdown lookup String.eqb Ascii.eqb Bool.eqb].
      unfold ProblemSolvingScorer.assessDecomposition.
      rewrite maxOver_listMax. do 3 f_equal.
      apply map_ext. intros msg. apply decompositionOf_occurrences.
  - intros text. rewrite Z.leb_le. apply TextFacts.countMatches_and_twice.
  - intros a first b second c Hfirst Hsecond. apply Z.leb_le.
    apply TextFacts.countMatches_and_twice.
    assert (Hletters : forall occurrence,
               lowerLetters occurrence = "and" ->
               occurrence <> EmptyString /\ isAsciiText occurrence = true).
    { intros occurrence Hspells. split.
      - intros ->. discriminate Hspells.
      - now rewrite <- TextFacts.isAsciiText_lowerLetters, Hspells. }
    destruct (Hletters first Hfirst) as [Hne1 Hascii1].
    destruct (Hletters second Hsecond) as [Hne2 Hascii2].
    rewrite (TextFacts.toLowerCase_occurrence a first _ Hne1 Hascii1).
    rewrite (TextFacts.toLowerCase_occurrence b second _ Hne2 Hascii2).
    rewrite Hfirst, Hsecond. now do 3 eexists.
  - intros marker before occurrence after Hspells.
    split; intros Hin; now apply (TextFacts.someIncluded_in_any_case _ marker).
  - repeat split; vm_compute; reflexivity.
Qed.

(** C8, counterexample.  "Sandy expands the brand" holds no conjunction
    "and", so the rule on the conjunctions gives 0; the letters "and"
    stand in three of its words, and the code gives 2. *)
Lemma decomposition_is_not_by_conjunctions :
  (let text := "Sandy expands the brand" in
   conjunctionsIn text = 0%nat
   /\ Text.countMatches "and" (Text.toLowerCase text) = 3
   /\ lookup "decomposition"
        (Result.breakdown (ProblemSolvingScorer.analyze [userMessage text]))
      = Some 2
   /\ Z.min 8 (listMax [decompositionByConjunctions text]) = 0)
  /\ ~ (forall conversation : list Message,
           lookup "decomposition"
             (Result.breakdown (ProblemSolvingScorer.analyze conversation))
           = Some (Z.min 8 (listMax (map (fun msg => decompositionByConjunctions (content msg))
                                         (userMessagesOf conversation))))).
Proof.
  split.
  - cbv zeta. repeat split; vm_compute; reflexivity.
  - intros Hall. specialize (Hall [userMessage "Sandy expands the brand"]).
    vm_compute in Hall. discriminate Hall.
Qed.

Lemma decomposition_is_capped_maximum_witness :
  (2 <=? Text.countMatches "and"
           "first research the market and the rivals and then report: 1. price 2. reach")
  = true
  /\ lookup "decomposition"
       (Result.breakdown
          (ProblemSolvingScorer.analyze
             [userMessage "First research the market and the rivals and then report: 1. price 2. reach";
              userMessage "Which part matters most?"]))
     = Some 7.
Proof.
  destruct decomposition_is_capped_maximum as (Hgeneral & Htwice & _).
  split.
  - apply Htwice.
    exists "first research the market ", " the rivals ", " then report: 1. price 2. reach".
    reflexivity.
  - rewrite Hgeneral. vm_compute. reflexivity.
Defined.

End SubCriteria.

(** ** Role definition *)

Module RoleDefinition.
Import RegExp RegExpFacts PromptEngineeringScorer RoleFacts.

Lemma rolePatternStep_adds (text : string) (score : Z) (pattern : Pattern) :
  rolePatternStep text score pattern = score + pointsOf (capturedRole pattern text).
Proof.
  unfold rolePatternStep, pointsOf.
  destruct (capturedRole pattern text) as [role|]; [apply rolePoints_adds | lia].
Qed.

Lemma roleDefinitionOf_sum (text : string) :
  roleDefinitionOf (userMessage text)
  = pointsOf (capturedRole actAsPattern text)
    + pointsOf (capturedRole youArePattern text)
    + pointsOf (capturedRole asPattern text).
Proof.
  unfold roleDefinitionOf, rolePatterns. cbn [fold_left userMessage content].
  rewrite !rolePatternStep_adds. lia.
Qed.

Lemma pointsOf_nonneg (captured : option string) : 0 <= pointsOf captured.
Proof. destruct captured as [role|]; [apply rolePoints_ge | cbn; lia]. Qed.

(** C10, as amended.  Every message that the "act as (a|an)" pattern
    matches is matched by the bare "as (a|an)" pattern too, and the score
    of a message before the cap is the sum of the points of the roles
    that the three patterns capture.  When the first and the bare pattern
    capture the same role and this role is longer than 5 characters
    (UTF-16 code units, as [length] counts them), its points are counted
    twice: the score before the cap is at least 6, and the sub-score
    reaches the cap of 7 when the role is also longer than 15 characters.
    The two capture the same role when the message starts with "act as a "
    or "act as an ", in any letter case, followed by a non-empty role
    without full stop, comma or line terminator (line feed, carriage
    return, U+2028, U+2029), itself followed by the end of the text, a
    full stop, a comma or a line feed.  Otherwise the two patterns can
    capture different texts: a role longer than 5 characters that the
    first pattern captures is then only sure to count once, for at least 3
    points, and in some message it brings 3 points and no more.  A role of
    5 characters, one of them outside ASCII, earns nothing, and neither
    does a role that a carriage return or a line separator follows. *)
Theorem act_as_phrase_counts_twice :
  (forall text role : string,
      capturedRole actAsPattern text = Some role ->
      exists role', capturedRole asPattern text = Some role')
  /\ (forall text : string,
         roleDefinitionOf (userMessage text)
         = pointsOf (capturedRole actAsPattern text)
           + pointsOf (capturedRole youArePattern text)
           + pointsOf (capturedRole asPattern text))
  /\ (forall text role : string,
         capturedRole actAsPattern text = Some role ->
         capturedRole asPattern text = Some role ->
         (5 < Text.length role)%nat ->
         6 <= roleDefinitionOf (userMessage text)
         /\ ((15 < Text.length role)%nat ->
             assessRoleDefinition [userMessage text] = 7))
  /\ (forall phrase article role ending : string,
         lowerLetters phrase = "act as " ->
         lowerLetters article = "a" \/ lowerLetters article = "an" ->
         role <> EmptyString ->
         isRoleText role = true ->
         endsRole ending = true ->
         let text := phrase ++ article ++ " " ++ role ++ ending in
         capturedRole actAsPattern text = Some role
         /\ capturedRole asPattern text = Some role)
  /\ (forall text role : string,
         capturedRole actAsPattern text = Some role ->
         (5 < Text.length role)%nat ->
         3 <= roleDefinitionOf (userMessage text))
  /\ (exists text role other : string,
         capturedRole actAsPattern text = Some role
         /\ (5 < Text.length role)%nat
         /\ capturedRole asPattern text = Some other
         /\ other <> role
         /\ roleDefinitionOf (userMessage text) = 3)
  /\ (roleDefinitionOf (userMessage ("Act as a chef" ++ Text.utf8 8230)) = 0
      /\ roleDefinitionOf (userMessage ("Act as a cheffe" ++ Text.utf8 8230)) = 6
      /\ roleDefinitionOf
           (userMessage ("Act as a senior software architect"
                         ++ String (ascii_of_nat 13) LF ++ "Design it")) = 0
      /\ roleDefinitionOf
           (userMessage ("Act as a senior software architect"
                         ++ Text.utf8 8232 ++ "Design it")) = 0).
Proof.
  split; [|split; [|split; [|split; [|split; [|split]]]]].
  - intros text role Hact. unfold capturedRole in *.
    destruct (exec true actAsPattern text) as [caps|] eqn:Hexec; [|discriminate].
    apply exec_sound in Hexec. destruct Hexec as (before & s' & -> & Hhere).
    unfold actAsPattern in Hhere. rewrite matchHere_led in Hhere.
    destruct (stripLit true "act as " s') as [rest|] eqn:Hstrip; [|discriminate].
    apply stripLit_act_as in Hstrip. destruct Hstrip as (lead & s4 & -> & Has).
    assert (Has_here : matchHere true asPattern s4 = Some caps)
      by (unfold asPattern; rewrite matchHere_led, Has; exact Hhere).
    destruct (exec_complete true asPattern (before ++ lead) s4 caps Has_here)
      as [caps' Hexec'].
    rewrite TextFacts.append_assoc in Hexec'. rewrite Hexec'.
    apply exec_sound in Hexec'. destruct Hexec' as (b' & s'' & _ & Hhere').
    unfold asPattern in Hhere'. rewrite matchHere_led in Hhere'.
    destruct (stripLit true "as " s'') as [rest''|]; [|discriminate].
    apply roleClause_captures in Hhere'. destruct Hhere' as (article & role' & ->).
    now exists role'.
  - exact roleDefinitionOf_sum.
  - intros text role Hact Has Hlong.
    assert (Hscore : roleDefinitionOf (userMessage text)
                     = rolePoints role 0 + pointsOf (capturedRole youArePattern text)
                       + rolePoints role 0)
      by (rewrite roleDefinitionOf_sum, Hact, Has; reflexivity).
    pose proof (pointsOf_nonneg (capturedRole youArePattern text)) as Hmid.
    destruct (rolePoints_long role 0 Hlong) as [H3 H5].
    split; [lia|].
    intros H15. specialize (H5 H15).
    unfold assessRoleDefinition, maxOver. cbn [fold_left].
    rewrite Hscore. lia.
  - intros phrase article role ending Hphrase Harticle Hne Htext Hend text.
    assert (Hclause : matchHere true roleClause (article ++ " " ++ role ++ ending)
                      = Some [(2%nat, role); (1%nat, article)])
      by now apply roleClause_on_phrase.
    subst text. generalize dependent (article ++ " " ++ role ++ ending).
    intros tail Hclause.
    split.
    + unfold capturedRole.
      rewrite (exec_here actAsPattern (phrase ++ tail) [(2%nat, role); (1%nat, article)]);
        [reflexivity|].
      unfold actAsPattern. rewrite matchHere_led.
      now rewrite (stripLit_app "act as " phrase _ Hphrase).
    + unfold capturedRole.
      destruct phrase as [|c1 [|c2 [|c3 [|c4 [|c5 [|c6 [|c7 [|c8 phrase]]]]]]]];
        try discriminate.
      cbn [lowerLetters] in Hphrase.
      injection Hphrase as H1 H2 H3 H4 H5 H6 H7.
      match goal with
      | |- context [exec true asPattern ?t] =>
          assert (Hexec : exec true asPattern t = Some [(2%nat, role); (1%nat, article)])
      end.
      { unfold asPattern. cbn [String.append].
        rewrite exec_step, matchHere_led. cbn [stripLit].
        rewrite <- (sameChar_lower "a" c1), H1.
        rewrite <- (sameChar_lower "s" c2), H2.
        change (sameChar true "a" "a") with true.
        change (sameChar true "s" "c") with false. cbv iota.
        rewrite exec_step, matchHere_led. cbn [stripLit].
        rewrite <- (sameChar_lower "a" c2), H2.
        change (sameChar true "a" "c") with false. cbv iota.
        rewrite exec_step, matchHere_led. cbn [stripLit].
        rewrite <- (sameChar_lower "a" c3), H3.
        change (sameChar true "a" "t") with false. cbv iota.
        rewrite exec_step, matchHere_led. cbn [stripLit].
        rewrite <- (sameChar_lower "a" c4), H4.
        change (sameChar true "a" " ") with false. cbv iota.
        apply exec_here. rewrite matchHere_led.
        change (String c5 (String c6 (String c7 tail)))
          with (String c5 (String c6 (String c7 "")) ++ tail).
        rewrite (stripLit_app "as " (String c5 (String c6 (String c7 ""))))
          by (cbn [lowerLetters]; now rewrite H5, H6, H7).
        exact Hclause. }
      now rewrite Hexec.
  - intros text role Hact Hlong. rewrite roleDefinitionOf_sum, Hact.
    pose proof (pointsOf_nonneg (capturedRole youArePattern text)).
    pose proof (pointsOf_nonneg (capturedRole asPattern text)).
    destruct (rolePoints_long role 0 Hlong) as [H3 _].
    cbn [pointsOf]. lia.
  - exists "as a cat, act as a teacher", "teacher", "cat".
    split; [reflexivity|]. split; [vm_compute; lia|].
    split; [reflexivity|]. split; [discriminate | reflexivity].
  - repeat split; vm_compute; reflexivity.
Qed.

(** C10, counterexample.  The message "as a cat, act as a teacher" holds
    the phrase with the role "teacher", of 7 characters; the bare pattern
    matches further to the left and captures "cat", which earns nothing:
    the score before the cap is 3.  So a captured role longer than 5
    characters does not always bring 6 points. *)
Lemma act_as_phrase_not_always_twice :
  (let text := "as a cat, act as a teacher" in
   capturedRole actAsPattern text = Some "teacher"
   /\ (5 < Text.length "teacher")%nat
   /\ capturedRole asPattern text = Some "cat"
   /\ roleDefinitionOf (userMessage text) = 3)
  /\ ~ (forall text role : string,
           capturedRole actAsPattern text = Some role ->
           (5 < Text.length role)%nat ->
           6 <= roleDefinitionOf (userMessage text)).
Proof.
  split.
  - cbv zeta. split; [reflexivity|]. split; [vm_compute; lia|]. split; reflexivity.
  - intros Hall.
    specialize (Hall "as a cat, act as a teacher" "teacher" eq_refl ltac:(vm_compute; lia)).
    vm_compute in Hall. apply Hall. reflexivity.
Qed.

Lemma act_as_phrase_counts_twice_witness :
  PromptEngineeringScorer.capturedRole PromptEngineeringScorer.actAsPattern expertOpening
  = Some expertRole
  /\ PromptEngineeringScorer.capturedRole PromptEngineeringScorer.asPattern expertOpening
     = Some expertRole
  /\ 6 <= PromptEngineeringScorer.roleDefinitionOf (userMessage expertOpening)
  /\ PromptEngineeringScorer.assessRoleDefinition [userMessage expertOpening] = 7.
Proof.
  destruct act_as_phrase_counts_twice as (_ & _ & Htwice & Hphrase & _).
  destruct (Hphrase "Act as " "a" expertRole
              ("." ++ LF ++ LF ++ "I need to design a scalable microservices architecture.")
              eq_refl (or_introl eq_refl)
              ltac:(discriminate) ltac:(vm_compute; reflexivity) eq_refl)
    as [Hact Has].
  change ("Act as " ++ "a" ++ " " ++ expertRole
          ++ "." ++ LF ++ LF ++ "I need to design a scalable microservices architecture.")
    with expertOpening in Hact, Has.
  destruct (Htwice expertOpening expertRole Hact Has ltac:(vm_compute; lia))
    as [Hsix Hcap].
  split; [exact Hact|]. split; [exact Has|]. split; [exact Hsix|].
  apply Hcap. vm_compute. lia.
Defined.

End RoleDefinition.

(** * Further properties of the code *)


(** ** Word counts and conversation statistics *)


Module StatsFacts.
Import ScoringEngine.

(** X1. [split(/\s+/).length] is the number of words of the text (its
    maximal runs of characters other than white space), plus one when the
    text is empty or starts with white space, plus one when it ends with
    white space; it is never 0.  White space is what [\s] matches: each
    of its 25 characters separates two words, the no-break space and the
    line separator among them; the zero-width space, the next-line
    control and the Mongolian vowel separator do not. *)
Theorem wordCount_counts_words_and_margins (s : string) :
  Text.wordCount s
  = Z.of_nat (wordsIn s)
    + (if (s =? "")%string || startsWithWhiteSpace s then 1 else 0)
    + (if endsWithWhiteSpace s then 1 else 0)
  /\ 1 <= Text.wordCount s
  /\ (Text.wordCount ("alpha" ++ noBreakSpace ++ "beta") = 2
      /\ Text.wordCount ("alpha" ++ Text.utf8 8232 ++ LF ++ "beta" ++ Text.utf8 12288) = 3
      /\ Text.wordCount
           (encode
              (flat_map (fun code => [97; code])
                 [9; 10; 11; 12; 13; 32; 160; 5760; 8192; 8193; 8194; 8195; 8196;
                  8197; 8198; 8199; 8200; 8201; 8202; 8232; 8233; 8239; 8287;
                  12288; 65279]
               ++ [97])%N%list) = 26
      /\ Text.wordCount (encode [97; 8203; 98; 133; 99; 6158; 100]%N) = 1).
Proof.
  split; [|split].
  - rewrite TextFacts.wordCount_pieces. reflexivity.
  - apply TextFacts.wordCount_positive.
  - repeat split; vm_compute; reflexivity.
Qed.

End StatsFacts.

Module Stats.
Import ScoringEngine.




Lemma roles_partition (conversation : list Message) :
  (length (filter (hasRole "user") conversation)
   + length (filter (hasRole "assistant") conversation)
   + length (filter isOtherRole conversation)
   = length conversation)%nat.
Proof.
  induction conversation as [|m conversation IH]; [reflexivity|].
  cbn [filter]. unfold isOtherRole at 1.
  destruct (hasRole "user" m) eqn:Hu, (hasRole "assistant" m) eqn:Ha;
    cbn [negb andb length]; try lia.
  exfalso. unfold hasRole in Hu, Ha. destruct (role m); try discriminate.
  apply String.eqb_eq in Hu, Ha. congruence.
Qed.

(** X2. [getConversationStats] counts every message once: [totalMessages]
    is the length of the conversation, and the user's messages, the
    assistant's and those of any other role add up to it. *)
Theorem stats_count_every_message_once (conversation : list Message) :
  let stats := getConversationStats conversation in
  totalMessages stats = Z.of_nat (length conversation)
  /\ userMessages stats + assistantMessages stats
     + Z.of_nat (length (filter isOtherRole conversation))
     = totalMessages stats
  /\ 0 <= userMessages stats
  /\ 0 <= assistantMessages stats
  /\ userMessages stats + assistantMessages stats <= totalMessages stats.
Proof.
  cbv zeta. unfold getConversationStats. cbn [totalMessages userMessages assistantMessages].
  unfold userMessagesOf. pose proof (roles_partition conversation). lia.
Qed.








End Stats.

(** ** Feedback *)


Module FeedbackFacts.
Import ScoringEngine Outcome EngineFacts.

Lemma uniqueFrom_ext (lines : list string) :
  forall seen seen' : list string,
    (forall x, In x seen <-> In x seen') ->
    uniqueFrom seen lines = uniqueFrom seen' lines.
Proof.
  induction lines as [|l lines IH]; intros seen seen' Hext; [reflexivity|].
  cbn [uniqueFrom].
  assert (Hsame : existsb (String.eqb l) seen = existsb (String.eqb l) seen').
  { apply eq_true_iff_eq. rewrite !existsb_exists.
    split; intros (x & Hx & Hlx); exists x; split; try assumption; now apply Hext. }
  rewrite Hsame. destruct (existsb (String.eqb l) seen').
  - now apply IH.
  - f_equal. apply IH. intros x. simpl. rewrite Hext. tauto.
Qed.

Lemma uniqueFrom_filter (x : string) (lines : list string) :
  forall seen : list string,
    uniqueFrom (x :: seen) lines
    = uniqueFrom seen (filter (fun y => negb (String.eqb y x)) lines).
Proof.
  induction lines as [|l lines IH]; intros seen; [reflexivity|].
  cbn [uniqueFrom filter existsb].
  destruct (String.eqb l x) eqn:Hlx; cbn [negb orb].
  - apply IH.
  - cbn [uniqueFrom]. destruct (existsb (String.eqb l) seen).
    + apply IH.
    + f_equal. rewrite <- IH. apply uniqueFrom_ext.
      intros y. simpl. tauto.
Qed.

Lemma NoDup_uniqueFrom (lines : list string) :
  forall seen : list string, NoDup (uniqueFrom seen lines).
Proof.
  induction lines as [|l lines IH]; intros seen; cbn [uniqueFrom]; [constructor|].
  destruct (existsb (String.eqb l) seen); [apply IH|].
  constructor; [|apply IH].
  rewrite In_uniqueFrom. simpl. tauto.
Qed.

Lemma uniqueFrom_NoDup (lines : list string) :
  forall seen : list string,
    NoDup lines -> (forall x, In x lines -> ~ In x seen) ->
    uniqueFrom seen lines = lines.
Proof.
  induction lines as [|l lines IH]; intros seen Hnd Hfresh; [reflexivity|].
  inversion Hnd as [|? ? Hnot Hnd']; subst. cbn [uniqueFrom].
  assert (Hl : existsb (String.eqb l) seen = false).
  { destruct (existsb (String.eqb l) seen) eqn:E; [|reflexivity].
    apply existsb_exists in E. destruct E as (x & Hx & Hlx).
    apply String.eqb_eq in Hlx. subst x. exfalso. apply (Hfresh l); simpl; auto. }
  rewrite Hl. f_equal. apply IH; [assumption|].
  intros x Hx [<-|Hseen]; [contradiction|]. apply (Hfresh x); simpl; auto.
Qed.

(** The lines the loop has appended, dimension after dimension. *)
Lemma allFeedback_fold (messages : list Message) (dims : list (string * Scorer)) :
  forall tally : Tally,
    allFeedback (fold_left (scoreDimension messages) dims tally)
    = (allFeedback tally
       ++ flat_map (fun entry => feedbackOf (fst entry) (snd entry messages)) dims)%list.
Proof.
  induction dims as [|[name scorer] dims IH]; intros tally.
  - simpl. now rewrite app_nil_r.
  - cbn [fold_left flat_map fst snd]. rewrite IH, scoreDimension_eq.
    cbn [allFeedback]. now rewrite app_assoc.
Qed.

Lemma orPraise_nonempty (feedback : list string) (praise : string) :
  orPraise feedback praise <> [].
Proof. destruct feedback; discriminate. Qed.

Lemma promptEngineering_feedback_nonempty (conversation : list Message) :
  Result.feedback (PromptEngineeringScorer.analyze conversation) <> [].
Proof.
  unfold PromptEngineeringScorer.analyze.
  destruct (userMessagesOf conversation); cbn [Result.feedback]; [discriminate|].
  apply orPraise_nonempty.
Qed.

End FeedbackFacts.

Module Feedback.
Import ScoringEngine Outcome EngineFacts FeedbackFacts.

(** X5. [[...new Set(allFeedback)]] has no duplicate, holds the same lines
    as [allFeedback], leaves a list without duplicates as it is, and keeps
    each line at its first occurrence. *)
Theorem unique_keeps_first_occurrences (lines : list string) :
  NoDup (unique lines)
  /\ (forall line, In line (unique lines) <-> In line lines)
  /\ (NoDup lines -> unique lines = lines)
  /\ (forall first rest,
         lines = first :: rest ->
         unique lines
         = first :: unique (filter (fun line => negb (String.eqb line first)) rest)).
Proof.
  split; [apply NoDup_uniqueFrom|]. split; [intros line; apply In_unique|].
  split.
  - intros Hnd. apply uniqueFrom_NoDup; [assumption | intros x _ []].
  - intros first rest ->. unfold unique. cbn [uniqueFrom existsb].
    f_equal. apply uniqueFrom_filter.
Qed.

Lemma unique_keeps_first_occurrences_witness :
  unique ["No user prompts found in conversation";
          "No user messages found in conversation";
          "No user messages found in conversation"]
  = ["No user prompts found in conversation";
     "No user messages found in conversation"].
Proof.
  destruct (unique_keeps_first_occurrences
              ["No user prompts found in conversation";
               "No user messages found in conversation";
               "No user messages found in conversation"])
    as (_ & _ & _ & Hfirst).
  rewrite (Hfirst _ _ eq_refl). reflexivity.
Defined.

(** X6. The feedback of a report has no duplicate line, and its lines are
    exactly those the loop recorded: the feedback of each scorer that
    returned, and "Scoring issue in <name>" for each one that threw. *)
Theorem report_feedback_collects_every_dimension
        (this : t) (now : string) (conversation : Value) (report : AnalysisReport) :
  analyzeConversation this now conversation = Return report ->
  exists messages : list Message,
    validate conversation = Return messages
    /\ NoDup (feedback report)
    /\ forall line : string,
        In line (feedback report)
        <-> exists name scorer,
            In (name, scorer) (dimensions this)
            /\ In line (feedbackOf name (scorer messages)).
Proof.
  intros Hrun.
  destruct (analyzeConversation_inv _ _ _ _ Hrun) as [messages Hvalid].
  exists messages. split; [exact Hvalid|].
  rewrite (analyzeConversation_validated _ _ _ _ Hvalid) in Hrun.
  cbv zeta in Hrun. injection Hrun as <-. cbn [feedback].
  split; [apply NoDup_uniqueFrom|].
  intros line. rewrite In_unique, allFeedback_fold. cbn [allFeedback app].
  rewrite in_flat_map. split.
  - intros ([name scorer] & Hin & Hline). now exists name, scorer.
  - intros (name & scorer & Hin & Hline). now exists (name, scorer).
Qed.

Lemma report_feedback_collects_every_dimension_witness :
  exists messages : list Message,
    validate assistantOnly = Return messages
    /\ exists report,
        analyzeConversation (new failingScorer) timestamp assistantOnly = Return report
        /\ NoDup (feedback report)
        /\ In "Scoring issue in iterativeRefinement" (feedback report).
Proof.
  destruct (report_feedback_collects_every_dimension (new failingScorer) timestamp
              assistantOnly _ eq_refl)
    as (messages & Hvalid & Hnodup & Hlines).
  exists messages. split; [exact Hvalid|].
  eexists. split; [reflexivity|]. split; [exact Hnodup|].
  apply Hlines. exists "iterativeRefinement", failingScorer.
  split; [cbn; tauto | now left].
Defined.


End Feedback.

Module Advice.
Import ScoringEngine Outcome EngineFacts FeedbackFacts.

(** Every comparison [scores.key < 3] of a [generateFeedback], taken or
    not. *)
Ltac advice_cases :=
  unfold belowThree, below, pushIf, orPraise;
  cbn [lookup String.eqb Ascii.eqb Bool.eqb filter snd Result.feedback Result.breakdown];
  repeat match goal with
         | |- context [?v <? 3] =>
             let H := fresh "Hlt" in
             destruct (Z.ltb_spec v 3) as [H|H]
         end;
  cbn [app length Nat.max In].

(** X7. With a user message in the conversation, each analyzer of the
    sources gives one line of advice per sub-criterion below 3, and its
    line of praise, alone, exactly when no sub-criterion is below 3. *)
Theorem advice_for_each_weak_criterion (conversation : list Message) :
  userMessagesOf conversation <> [] ->
  let prompt := PromptEngineeringScorer.analyze conversation in
  let solving := ProblemSolvingScorer.analyze conversation in
  let thinking := CriticalThinkingScorer.analyze conversation in
  (length (Result.feedback prompt)
   = Nat.max 1 (length (belowThree (Result.breakdown prompt)))
   /\ (In "Your prompt engineering skills are strong! Keep up the good work."
          (Result.feedback prompt)
       <-> belowThree (Result.breakdown prompt) = []))
  /\ (length (Result.feedback solving)
      = Nat.max 1 (length (belowThree (Result.breakdown solving)))
      /\ (In "Your problem-solving approach is strategic and effective! You break down tasks well and maintain clear goals."
             (Result.feedback solving)
          <-> belowThree (Result.breakdown solving) = []))
  /\ (length (Result.feedback thinking)
      = Nat.max 1 (length (belowThree (Result.breakdown thinking)))
      /\ (In "Your critical thinking skills are excellent! You effectively evaluate and validate AI responses."
             (Result.feedback thinking)
          <-> belowThree (Result.breakdown thinking) = [])).
Proof.
  intros Husers. cbv zeta.
  unfold PromptEngineeringScorer.analyze, ProblemSolvingScorer.analyze,
    CriticalThinkingScorer.analyze.
  destruct (userMessagesOf conversation) as [|m rest] eqn:Hu; [contradiction|].
  cbn [Result.feedback Result.breakdown].
  generalize (PromptEngineeringScorer.assessSpecificity (m :: rest))
             (PromptEngineeringScorer.assessStructure (m :: rest))
             (PromptEngineeringScorer.assessContext (m :: rest))
             (PromptEngineeringScorer.assessRoleDefinition (m :: rest))
             (ProblemSolvingScorer.assessDecomposition (m :: rest))
             (ProblemSolvingScorer.assessSequencing conversation)
             (ProblemSolvingScorer.assessGoalOrientation conversation)
             (CriticalThinkingScorer.assessVerification (m :: rest))
             (CriticalThinkingScorer.assessBiasDetection (m :: rest))
             (CriticalThinkingScorer.assessQualityAssessment (m :: rest)).
  intros p1 p2 p3 p4 s1 s2 s3 c1 c2 c3.
  split; [|split].
  - unfold PromptEngineeringScorer.generateFeedback. cbv zeta. advice_cases;
      (split; [reflexivity|]); split; intros H; try reflexivity; try discriminate;
      try (repeat (destruct H as [H|H]; [discriminate|])); try contradiction; auto.
  - unfold ProblemSolvingScorer.generateFeedback. cbv zeta. advice_cases;
      (split; [reflexivity|]); split; intros H; try reflexivity; try discriminate;
      try (repeat (destruct H as [H|H]; [discriminate|])); try contradiction; auto.
  - unfold CriticalThinkingScorer.generateFeedback. cbv zeta. advice_cases;
      (split; [reflexivity|]); split; intros H; try reflexivity; try discriminate;
      try (repeat (destruct H as [H|H]; [discriminate|])); try contradiction; auto.
Qed.

Lemma advice_for_each_weak_criterion_witness :
  length (Result.feedback (PromptEngineeringScorer.analyze noviceMessages)) = 4%nat
  /\ length (belowThree (Result.breakdown (PromptEngineeringScorer.analyze noviceMessages)))
     = 4%nat.
Proof.
  destruct (advice_for_each_weak_criterion noviceMessages ltac:(discriminate))
    as ((Hprompt & _) & _).
  assert (Hweak : length (belowThree (Result.breakdown
                                        (PromptEngineeringScorer.analyze noviceMessages)))
                  = 4%nat) by (vm_compute; reflexivity).
  split; [|exact Hweak].
  rewrite Hprompt, Hweak. reflexivity.
Defined.


(** X8. Every report of the engine carries at least one line of feedback,
    and every line of the three analyzers of the sources is in it. *)
Theorem every_report_has_feedback
        (iterativeRefinementScorer : Scorer) (now : string) (conversation : Value)
        (report : AnalysisReport) :
  analyzeConversation (new iterativeRefinementScorer) now conversation = Return report ->
  feedback report <> []
  /\ exists messages : list Message,
      validate conversation = Return messages
      /\ forall line,
          In line (Result.feedback (PromptEngineeringScorer.analyze messages))
          \/ In line (Result.feedback (ProblemSolvingScorer.analyze messages))
          \/ In line (Result.feedback (CriticalThinkingScorer.analyze messages)) ->
          In line (feedback report).
Proof.
  intros Hrun.
  destruct (analyzeConversation_inv _ _ _ _ Hrun) as [messages Hvalid].
  rewrite (analyzeConversation_validated _ _ _ _ Hvalid) in Hrun.
  cbv zeta in Hrun. rewrite tally_new in Hrun. injection Hrun as <-.
  cbn [feedback allFeedback].
  assert (Hall : forall line,
             In line (Result.feedback (PromptEngineeringScorer.analyze messages))
             \/ In line (Result.feedback (ProblemSolvingScorer.analyze messages))
             \/ In line (Result.feedback (CriticalThinkingScorer.analyze messages)) ->
             In line
               (unique
                  (Result.feedback (PromptEngineeringScorer.analyze messages)
                   ++ feedbackOf "iterativeRefinement" (iterativeRefinementScorer messages)
                   ++ Result.feedback (ProblemSolvingScorer.analyze messages)
                   ++ Result.feedback (CriticalThinkingScorer.analyze messages))%list)).
  { intros line Hline. apply In_unique. rewrite !in_app_iff. tauto. }
  split.
  - pose proof (promptEngineering_feedback_nonempty messages) as Hne.
    destruct (Result.feedback (PromptEngineeringScorer.analyze messages)) as [|l ls] eqn:Hpe;
      [contradiction|].
    intros Hempty. specialize (Hall l (or_introl (or_introl eq_refl))).
    rewrite Hempty in Hall. contradiction.
  - exists messages. split; [exact Hvalid | exact Hall].
Qed.

Lemma every_report_has_feedback_witness :
  exists report,
    analyzeConversation (new failingScorer) timestamp noviceConversation = Return report
    /\ feedback report <> [].
Proof.
  eexists. split; [reflexivity|].
  apply (every_report_has_feedback failingScorer timestamp noviceConversation _ eq_refl).
Defined.


End Advice.

(** ** Ranges and order *)


Module ScoreFacts.

Lemma listMax_upper (l : list Z) (bound : Z) :
  0 <= bound -> (forall x, In x l -> x <= bound) -> listMax l <= bound.
Proof.
  intros Hb. induction l as [|x l IH]; intros Hall; unfold listMax in *; simpl; [lia|].
  pose proof (Hall x (or_introl eq_refl)).
  specialize (IH (fun y Hy => Hall y (or_intror Hy))). lia.
Qed.

Lemma listMax_ge (l : list Z) (x : Z) : In x l -> x <= listMax l.
Proof.
  induction l as [|y l IH]; intros Hin; [contradiction|].
  unfold listMax in *. simpl. destruct Hin as [->|Hin]; [lia|].
  specialize (IH Hin). lia.
Qed.

Lemma listMax_incl (l l' : list Z) : incl l l' -> listMax l <= listMax l'.
Proof.
  intros Hincl. apply listMax_upper; [apply listMax_nonneg|].
  intros x Hx. apply listMax_ge. now apply Hincl.
Qed.

Lemma listMax_same_elements (l l' : list Z) :
  (forall x, In x l <-> In x l') -> listMax l = listMax l'.
Proof.
  intros Hsame.
  assert (listMax l <= listMax l') by (apply listMax_incl; intros x; apply Hsame).
  assert (listMax l' <= listMax l) by (apply listMax_incl; intros x; apply Hsame).
  lia.
Qed.

Lemma maxOver_same_elements (f : Message -> Z) (l l' : list Message) :
  (forall m, In m l <-> In m l') -> maxOver f l = maxOver f l'.
Proof.
  intros Hsame. rewrite !maxOver_listMax. apply listMax_same_elements.
  intros x. rewrite !in_map_iff.
  split; intros (m & Hm & Hin); exists m; split; try assumption; now apply Hsame.
Qed.

Lemma maxOver_incl (f : Message -> Z) (l l' : list Message) :
  incl l l' -> maxOver f l <= maxOver f l'.
Proof.
  intros Hincl. rewrite !maxOver_listMax. apply listMax_incl.
  intros x. rewrite !in_map_iff. intros (m & Hm & Hin). exists m. auto.
Qed.


Lemma criticalThinking_per_message (m : Message) :
  CriticalThinkingScorer.verificationOf m <= 7
  /\ CriticalThinkingScorer.biasDetectionOf m <= 7
  /\ CriticalThinkingScorer.qualityAssessmentOf m <= 8.
Proof.
  unfold CriticalThinkingScorer.verificationOf, CriticalThinkingScorer.biasDetectionOf,
    CriticalThinkingScorer.qualityAssessmentOf.
  cbv zeta. repeat split; AnalyzerFacts.addIf_cases.
Qed.

Lemma caps_bound (conversation : list Message) :
  0 <= Result.score (CriticalThinkingScorer.analyze conversation) <= 22.
Proof.
  unfold CriticalThinkingScorer.analyze.
  destruct (userMessagesOf conversation) as [|m rest]; cbn [Result.score]; [lia|].
  unfold sumValues, values. cbn [map snd fold_left].
  unfold CriticalThinkingScorer.assessVerification, CriticalThinkingScorer.assessBiasDetection,
    CriticalThinkingScorer.assessQualityAssessment.
  pose proof (maxOver_upper CriticalThinkingScorer.verificationOf 7 (m :: rest) ltac:(lia)
                (fun x => proj1 (criticalThinking_per_message x))).
  pose proof (maxOver_upper CriticalThinkingScorer.biasDetectionOf 7 (m :: rest) ltac:(lia)
                (fun x => proj1 (proj2 (criticalThinking_per_message x)))).
  pose proof (maxOver_upper CriticalThinkingScorer.qualityAssessmentOf 8 (m :: rest) ltac:(lia)
                (fun x => proj2 (proj2 (criticalThinking_per_message x)))).
  pose proof (maxOver_nonneg CriticalThinkingScorer.verificationOf (m :: rest)).
  pose proof (maxOver_nonneg CriticalThinkingScorer.biasDetectionOf (m :: rest)).
  pose proof (maxOver_nonneg CriticalThinkingScorer.qualityAssessmentOf (m :: rest)).
  lia.
Qed.

End ScoreFacts.

Module Scores.
Import ScoringEngine Outcome EngineFacts ScoreFacts.

Ltac per_message_bound :=
  let m := fresh "m" in
  intros m; cbv zeta; AnalyzerFacts.addIf_cases.

(** X9. The points of one message cannot exceed the cap of specificity,
    structure, context and decomposition, so [Math.min] leaves these four
    unchanged; verification, bias detection and quality assessment stay
    below their caps (at most 7, 7 and 8), and the critical-thinking score
    is at most 22. *)
Theorem caps_that_never_bind (messages : list Message) :
  PromptEngineeringScorer.assessSpecificity messages
  = maxOver PromptEngineeringScorer.specificityOf messages
  /\ PromptEngineeringScorer.assessStructure messages
     = maxOver PromptEngineeringScorer.structureOf messages
  /\ PromptEngineeringScorer.assessContext messages
     = maxOver PromptEngineeringScorer.contextOf messages
  /\ ProblemSolvingScorer.assessDecomposition messages
     = maxOver ProblemSolvingScorer.decompositionOf messages
  /\ CriticalThinkingScorer.assessVerification messages <= 7
  /\ CriticalThinkingScorer.assessBiasDetection messages <= 7
  /\ CriticalThinkingScorer.assessQualityAssessment messages <= 8
  /\ Result.score (CriticalThinkingScorer.analyze messages) <= 22.
Proof.
  assert (H1 : maxOver PromptEngineeringScorer.specificityOf messages <= 6)
    by (apply maxOver_upper; [lia|];
        unfold PromptEngineeringScorer.specificityOf; per_message_bound).
  assert (H2 : maxOver PromptEngineeringScorer.structureOf messages <= 6)
    by (apply maxOver_upper; [lia|];
        unfold PromptEngineeringScorer.structureOf; per_message_bound).
  assert (H3 : maxOver PromptEngineeringScorer.contextOf messages <= 6)
    by (apply maxOver_upper; [lia|];
        unfold PromptEngineeringScorer.contextOf; per_message_bound).
  assert (H4 : maxOver ProblemSolvingScorer.decompositionOf messages <= 8)
    by (apply maxOver_upper; [lia|];
        unfold ProblemSolvingScorer.decompositionOf; per_message_bound).
  assert (H5 : forall l, maxOver CriticalThinkingScorer.verificationOf l <= 7)
    by (intros l; apply maxOver_upper; [lia|];
        unfold CriticalThinkingScorer.verificationOf; per_message_bound).
  assert (H6 : forall l, maxOver CriticalThinkingScorer.biasDetectionOf l <= 7)
    by (intros l; apply maxOver_upper; [lia|];
        unfold CriticalThinkingScorer.biasDetectionOf; per_message_bound).
  assert (H7 : forall l, maxOver CriticalThinkingScorer.qualityAssessmentOf l <= 8)
    by (intros l; apply maxOver_upper; [lia|];
        unfold CriticalThinkingScorer.qualityAssessmentOf; per_message_bound).
  unfold PromptEngineeringScorer.assessSpecificity, PromptEngineeringScorer.assessStructure,
    PromptEngineeringScorer.assessContext, ProblemSolvingScorer.assessDecomposition,
    CriticalThinkingScorer.assessVerification, CriticalThinkingScorer.assessBiasDetection,
    CriticalThinkingScorer.assessQualityAssessment.
  pose proof (H5 messages). pose proof (H6 messages). pose proof (H7 messages).
  repeat (split; [lia|]).
  unfold CriticalThinkingScorer.analyze.
  destruct (userMessagesOf messages) as [|m rest]; cbn [Result.score]; [lia|].
  unfold sumValues, values. cbn [map snd fold_left].
  unfold CriticalThinkingScorer.assessVerification, CriticalThinkingScorer.assessBiasDetection,
    CriticalThinkingScorer.assessQualityAssessment.
  pose proof (H5 (m :: rest)). pose proof (H6 (m :: rest)). pose proof (H7 (m :: rest)).
  lia.
Qed.


(** X10. The overall score exceeds what the iterative-refinement scorer
    gave by at most 72.  When that scorer throws, the level is at most
    "Proficient"; when it gives between 0 and 25, the overall score lies
    between 0 and 97. *)
Theorem overall_score_range
        (iterativeRefinementScorer : Scorer) (now : string) (conversation : Value)
        (report : AnalysisReport) :
  analyzeConversation (new iterativeRefinementScorer) now conversation = Return report ->
  exists messages : list Message,
    validate conversation = Return messages
    /\ scoreOf (iterativeRefinementScorer messages) <= overallScore report
       <= 72 + scoreOf (iterativeRefinementScorer messages)
    /\ ((exists e, iterativeRefinementScorer messages = Throw e) ->
        overallScore report <= 72
        /\ (tierRank (proficiencyLevel report) <= 2)%nat)
    /\ (0 <= scoreOf (iterativeRefinementScorer messages) <= 25 ->
        0 <= overallScore report <= 97).
Proof.
  intros Hrun.
  destruct (analyzeConversation_inv _ _ _ _ Hrun) as [messages Hvalid].
  exists messages. split; [exact Hvalid|].
  rewrite (analyzeConversation_validated _ _ _ _ Hvalid) in Hrun.
  cbv zeta in Hrun. rewrite tally_new in Hrun. injection Hrun as <-.
  cbn [overallScore proficiencyLevel scores].
  destruct (AnalyzerFacts.promptEngineering_shape messages)
    as (p1 & p2 & p3 & p4 & _ & ? & ? & ? & ? & ->).
  destruct (AnalyzerFacts.problemSolving_shape messages)
    as (s1 & s2 & s3 & _ & ? & ? & ? & ->).
  pose proof (caps_bound messages) as Hct.
  pose proof (AnalyzerFacts.criticalThinking_shape messages)
    as (c1 & c2 & c3 & _ & ? & ? & ? & Hsum).
  unfold sumValues, values. cbn [map snd fold_left].
  set (ir := scoreOf (iterativeRefinementScorer messages)).
  set (ct := Result.score (CriticalThinkingScorer.analyze messages)) in *.
  assert (Hrange : ir <= 0 + (p1 + p2 + p3 + p4) + ir + (s1 + s2 + s3) + ct <= 72 + ir) by lia.
  split; [exact Hrange|]. split.
  - intros [e He]. assert (Hir : ir = 0) by (unfold ir; now rewrite He).
    split; [lia|].
    unfold getProficiencyLevel.
    destruct (Z.geb_spec (0 + (p1 + p2 + p3 + p4) + ir + (s1 + s2 + s3) + ct) 86); [lia|].
    destruct (Z.geb_spec (0 + (p1 + p2 + p3 + p4) + ir + (s1 + s2 + s3) + ct) 76); [lia|].
    destruct (Z.geb_spec (0 + (p1 + p2 + p3 + p4) + ir + (s1 + s2 + s3) + ct) 61);
      [cbv; lia|].
    destruct (Z.geb_spec (0 + (p1 + p2 + p3 + p4) + ir + (s1 + s2 + s3) + ct) 41);
      cbv; lia.
  - intros Hir. lia.
Qed.

Lemma overall_score_range_witness :
  exists report,
    analyzeConversation (new failingScorer) timestamp noviceConversation = Return report
    /\ overallScore report <= 72
    /\ (tierRank (proficiencyLevel report) <= 2)%nat.
Proof.
  eexists. split; [reflexivity|].
  destruct (overall_score_range failingScorer timestamp noviceConversation _ eq_refl)
    as (messages & _ & _ & Hthrows & _).
  apply Hthrows. exists TypeError. reflexivity.
Defined.


End Scores.

Module OrderFacts.
Import ScoreFacts.

Lemma maxOver_permutation (f : Message -> Z) (l l' : list Message) :
  Permutation l l' -> maxOver f l = maxOver f l'.
Proof.
  intros Hp. apply maxOver_same_elements. intros m.
  split; apply Permutation_in; [assumption | now apply Permutation_sym].
Qed.

Lemma userMessagesOf_app (conversation extra : list Message) :
  userMessagesOf (conversation ++ extra)
  = (userMessagesOf conversation ++ userMessagesOf extra)%list.
Proof. unfold userMessagesOf. apply filter_app. Qed.

Lemma userMessagesOf_permutation (conversation conversation' : list Message) :
  Permutation conversation conversation' ->
  Permutation (userMessagesOf conversation) (userMessagesOf conversation').
Proof.
  unfold userMessagesOf. intros Hp. induction Hp; cbn [filter].
  - constructor.
  - destruct (hasRole "user" x); [now constructor | assumption].
  - destruct (hasRole "user" x), (hasRole "user" y);
      try apply Permutation_refl; try constructor; apply Permutation_refl.
  - eapply Permutation_trans; eassumption.
Qed.

End OrderFacts.

Module Order.
Import ScoreFacts OrderFacts.

(** X11. The prompt-engineering and critical-thinking results, and the
    decomposition sub-score, depend on the user messages only, and not on
    their order: two conversations whose user messages are the same up to
    a permutation get the same results. *)
Theorem user_messages_decide_prompt_and_thinking (conversation conversation' : list Message) :
  Permutation (userMessagesOf conversation) (userMessagesOf conversation') ->
  PromptEngineeringScorer.analyze conversation = PromptEngineeringScorer.analyze conversation'
  /\ CriticalThinkingScorer.analyze conversation = CriticalThinkingScorer.analyze conversation'
  /\ lookup "decomposition" (Result.breakdown (ProblemSolvingScorer.analyze conversation))
     = lookup "decomposition" (Result.breakdown (ProblemSolvingScorer.analyze conversation')).
Proof.
  intros Hp.
  unfold PromptEngineeringScorer.analyze, CriticalThinkingScorer.analyze,
    ProblemSolvingScorer.analyze.
  destruct (userMessagesOf conversation) as [|m rest] eqn:Hu,
           (userMessagesOf conversation') as [|m' rest'] eqn:Hu'.
  - repeat split.
  - apply Permutation_nil in Hp. discriminate.
  - apply Permutation_sym, Permutation_nil in Hp. discriminate.
  - unfold PromptEngineeringScorer.assessSpecificity, PromptEngineeringScorer.assessStructure,
      PromptEngineeringScorer.assessContext, PromptEngineeringScorer.assessRoleDefinition,
      CriticalThinkingScorer.assessVerification, CriticalThinkingScorer.assessBiasDetection,
      CriticalThinkingScorer.assessQualityAssessment,
      ProblemSolvingScorer.assessDecomposition.
    rewrite !(maxOver_permutation _ _ _ Hp). repeat split.
Qed.

Lemma user_messages_decide_prompt_and_thinking_witness :
  PromptEngineeringScorer.analyze noviceMessages
  = PromptEngineeringScorer.analyze
      [userMessage "make it better"; userMessage "help me with marketing"]
  /\ CriticalThinkingScorer.analyze noviceMessages
     = CriticalThinkingScorer.analyze
         [userMessage "make it better"; userMessage "help me with marketing"].
Proof.
  destruct (user_messages_decide_prompt_and_thinking noviceMessages
              [userMessage "make it better"; userMessage "help me with marketing"]
              (perm_swap _ _ []))
    as (Hprompt & Hthinking & _).
  split; assumption.
Defined.


(** X12. Adding messages at the end of a conversation lowers neither a
    sub-score nor the score of prompt engineering and of critical
    thinking. *)
Theorem more_messages_never_lower_prompt_and_thinking (conversation extra : list Message) :
  let atLeast (before after : DimensionResult) : Prop :=
    Forall2 (fun old new => fst old = fst new /\ snd old <= snd new)
            (Result.breakdown before) (Result.breakdown after)
    /\ Result.score before <= Result.score after in
  atLeast (PromptEngineeringScorer.analyze conversation)
          (PromptEngineeringScorer.analyze (conversation ++ extra))
  /\ atLeast (CriticalThinkingScorer.analyze conversation)
             (CriticalThinkingScorer.analyze (conversation ++ extra)).
Proof.
  cbv zeta.
  unfold PromptEngineeringScorer.analyze, CriticalThinkingScorer.analyze.
  rewrite userMessagesOf_app.
  destruct (userMessagesOf conversation) as [|m rest] eqn:Hu.
  - cbn [app].
    destruct (userMessagesOf extra) as [|m' rest'] eqn:Hx;
      cbn [Result.breakdown Result.score].
    + repeat split; repeat constructor; cbn; lia.
    + unfold PromptEngineeringScorer.assessSpecificity,
        PromptEngineeringScorer.assessStructure, PromptEngineeringScorer.assessContext,
        PromptEngineeringScorer.assessRoleDefinition,
        CriticalThinkingScorer.assessVerification,
        CriticalThinkingScorer.assessBiasDetection,
        CriticalThinkingScorer.assessQualityAssessment.
      unfold sumValues, values. cbn [map snd fold_left].
      repeat match goal with
             | |- context [maxOver ?f ?l] =>
                 pose proof (maxOver_nonneg f l); generalize dependent (maxOver f l); intros
             end.
      repeat split; repeat constructor; cbn [fst snd]; try reflexivity; lia.
  - cbn [app Result.breakdown Result.score].
    unfold PromptEngineeringScorer.assessSpecificity,
      PromptEngineeringScorer.assessStructure, PromptEngineeringScorer.assessContext,
      PromptEngineeringScorer.assessRoleDefinition,
      CriticalThinkingScorer.assessVerification,
      CriticalThinkingScorer.assessBiasDetection,
      CriticalThinkingScorer.assessQualityAssessment.
    unfold sumValues, values. cbn [map snd fold_left].
    assert (Hincl : incl (m :: rest) (m :: (rest ++ userMessagesOf extra)%list)).
    { intros x [->|Hx]; [now left | right; apply in_or_app; now left]. }
    pose proof (maxOver_incl PromptEngineeringScorer.specificityOf _ _ Hincl).
    pose proof (maxOver_incl PromptEngineeringScorer.structureOf _ _ Hincl).
    pose proof (maxOver_incl PromptEngineeringScorer.contextOf _ _ Hincl).
    pose proof (maxOver_incl PromptEngineeringScorer.roleDefinitionOf _ _ Hincl).
    pose proof (maxOver_incl CriticalThinkingScorer.verificationOf _ _ Hincl).
    pose proof (maxOver_incl CriticalThinkingScorer.biasDetectionOf _ _ Hincl).
    pose proof (maxOver_incl CriticalThinkingScorer.qualityAssessmentOf _ _ Hincl).
    repeat split; repeat constructor; cbn [fst snd]; try reflexivity; lia.
Qed.

End Order.

(** ** Problem solving *)


Module SolvingFacts.
Import ProblemSolvingScorer.

Lemma sequencingLoop_even (later : list Message) :
  forall (previous : Message) (k : Z),
    0 <= k ->
    exists k', k <= k' /\ sequencingLoop previous later (2 * k) = 2 * k'.
Proof.
  induction later as [|current later IH]; intros previous k Hk.
  - exists k. simpl. lia.
  - cbn [sequencingLoop]. unfold sequencingStep. cbv zeta.
    rewrite !addIf_indicator.
    match goal with
    | |- context [sequencingLoop _ _ (2 * k + (if ?c1 then 2 else 0) + (if ?c2 then 2 else 0))] =>
        destruct c1, c2
    end.
    + destruct (IH current (k + 2) ltac:(lia)) as (k' & Hle & Heq).
      exists k'. replace (2 * k + 2 + 2) with (2 * (k + 2)) by lia. split; [lia|exact Heq].
    + destruct (IH current (k + 1) ltac:(lia)) as (k' & Hle & Heq).
      exists k'. replace (2 * k + 2 + 0) with (2 * (k + 1)) by lia. split; [lia|exact Heq].
    + destruct (IH current (k + 1) ltac:(lia)) as (k' & Hle & Heq).
      exists k'. replace (2 * k + 0 + 2) with (2 * (k + 1)) by lia. split; [lia|exact Heq].
    + destruct (IH current k ltac:(lia)) as (k' & Hle & Heq).
      exists k'. replace (2 * k + 0 + 0) with (2 * k) by lia. split; [lia|exact Heq].
Qed.

Lemma In_setAdd (keyword x : string) (topics : list string) :
  In x (setAdd keyword topics) <-> x = keyword \/ In x topics.
Proof.
  unfold setAdd. destruct (existsb (String.eqb keyword) topics) eqn:E.
  - apply existsb_exists in E. destruct E as (y & Hy & Hk).
    apply String.eqb_eq in Hk. subst y. split; [tauto|]. intros [->|H]; assumption.
  - rewrite in_app_iff. simpl. intuition auto.
Qed.

Lemma NoDup_setAdd (keyword : string) (topics : list string) :
  NoDup topics -> NoDup (setAdd keyword topics).
Proof.
  intros Hnd. unfold setAdd. destruct (existsb (String.eqb keyword) topics) eqn:E;
    [assumption|].
  apply NoDup_app; [assumption | repeat constructor; intros [] |].
  intros x Hx [Heq|[]]. subst x.
  assert (existsb (String.eqb keyword) topics = true) as Hc
    by (apply existsb_exists; exists keyword; split; [assumption | apply String.eqb_refl]).
  congruence.
Qed.

(** The inner [topicKeywords.forEach] on one message. *)
Lemma topics_of_message (text : string) (keywords : list string) :
  forall topics : list string,
    let topics' :=
      fold_left
        (fun topics keyword =>
           if Text.includes text keyword then setAdd keyword topics else topics)
        keywords topics in
    (NoDup topics -> NoDup topics')
    /\ forall x, In x topics' <-> In x topics \/ (In x keywords /\ Text.includes text x = true).
Proof.
  induction keywords as [|keyword keywords IH]; intros topics; cbn zeta.
  - simpl. split; [tauto|]. intros x. tauto.
  - cbn [fold_left].
    destruct (Text.includes text keyword) eqn:Hinc.
    + destruct (IH (setAdd keyword topics)) as [Hnd Hin]. cbn zeta in Hnd, Hin.
      split; [intros H; apply Hnd, NoDup_setAdd, H|].
      intros x. rewrite Hin, In_setAdd. simpl.
      split; [intros [[->|H]|[H1 H2]]; auto | intros [H|[[<-|H1] H2]]; auto].
    + destruct (IH topics) as [Hnd Hin]. cbn zeta in Hnd, Hin.
      split; [exact Hnd|].
      intros x. rewrite Hin. simpl.
      split; [intros [H|[H1 H2]]; auto | intros [H|[[<-|H1] H2]]; auto].
      congruence.
Qed.

Lemma topics_of_conversation (conversation : list Message) :
  forall topics : list string,
    let topics' :=
      fold_left
        (fun topics msg =>
           let text := Text.toLowerCase (content msg) in
           fold_left
             (fun topics keyword =>
                if Text.includes text keyword then setAdd keyword topics else topics)
             topicKeywords topics)
        conversation topics in
    (NoDup topics -> NoDup topics')
    /\ forall x,
        In x topics'
        <-> In x topics
            \/ (In x topicKeywords
                /\ exists msg, In msg conversation
                               /\ Text.includes (Text.toLowerCase (content msg)) x = true).
Proof.
  induction conversation as [|msg conversation IH]; intros topics; cbn zeta.
  - simpl. split; [tauto|]. intros x. split; [tauto|].
    intros [H|[_ (m & [] & _)]]. exact H.
  - cbn [fold_left]. cbv zeta.
    destruct (topics_of_message (Text.toLowerCase (content msg)) topicKeywords topics)
      as [Hnd1 Hin1]. cbn zeta in Hnd1, Hin1.
    match goal with
    | |- context [fold_left _ conversation ?t] => destruct (IH t) as [Hnd Hin]
    end.
    cbn zeta in Hnd, Hin.
    split; [intros H; apply Hnd, Hnd1, H|].
    intros x. rewrite Hin, Hin1. simpl. split.
    + intros [[H|[H1 H2]]|[H1 (m & Hm & H2)]]; auto.
      * right. split; [assumption|]. exists msg. auto.
      * right. split; [assumption|]. exists m. auto.
    + intros [H|[H1 (m & [<-|Hm] & H2)]]; auto.
      right. split; [assumption|]. exists m. auto.
Qed.

End SolvingFacts.

Module Solving.
Import ProblemSolvingScorer SolvingFacts.

(** X13. The sequencing sub-score is one of 0, 2, 4, 6 and 8.  It is 0
    with fewer than two user messages, whatever the topics; with two or
    more and at most three topics it is at least 2. *)
Theorem sequencing_steps_by_two (conversation : list Message) :
  (exists k : Z, 0 <= k <= 4 /\ assessSequencing conversation = 2 * k)
  /\ ((length (userMessagesOf conversation) < 2)%nat -> assessSequencing conversation = 0)
  /\ ((2 <= length (userMessagesOf conversation))%nat ->
      (length (extractMainTopics conversation) <= 3)%nat ->
      2 <= assessSequencing conversation).
Proof.
  unfold assessSequencing. cbv zeta.
  destruct (userMessagesOf conversation) as [|first [|second later]].
  - split; [exists 0; split; [lia|reflexivity]|]. split; [reflexivity|].
    intros H. simpl in H. lia.
  - split; [exists 0; split; [lia|reflexivity]|]. split; [reflexivity|].
    intros H. simpl in H. lia.
  - destruct (sequencingLoop_even (second :: later) first 0 ltac:(lia)) as (k & Hk & Heq).
    change (2 * 0) with 0 in Heq. rewrite Heq. rewrite addIf_indicator.
    split; [|split].
    + destruct (Z.of_nat (length (extractMainTopics conversation)) <=? 3).
      * destruct (Z.le_gt_cases 3 k).
        -- exists 4. split; [lia|]. lia.
        -- exists (k + 1). split; [lia|]. lia.
      * destruct (Z.le_gt_cases 4 k).
        -- exists 4. split; [lia|]. lia.
        -- exists k. split; [lia|]. lia.
    + intros H. simpl in H. lia.
    + intros _ Htopics.
      assert (Hle : (Z.of_nat (length (extractMainTopics conversation)) <=? 3) = true)
        by (apply Z.leb_le; lia).
      rewrite Hle. lia.
Qed.

Lemma sequencing_steps_by_two_witness :
  2 <= assessSequencing noviceMessages
  /\ assessSequencing [userMessage "help me with marketing"] = 0.
Proof.
  destruct (sequencing_steps_by_two noviceMessages) as (_ & _ & Htwo).
  destruct (sequencing_steps_by_two [userMessage "help me with marketing"])
    as (_ & Hone & _).
  split.
  - apply Htwo; vm_compute; lia.
  - apply Hone. vm_compute. lia.
Defined.


(** X14. [extractMainTopics] returns a list without duplicates, of at
    most 12 topics: exactly the keywords that some message of the
    conversation holds, in any letter case. *)
Theorem main_topics_are_a_set_of_keywords (conversation : list Message) :
  NoDup (extractMainTopics conversation)
  /\ (forall keyword,
         In keyword (extractMainTopics conversation)
         <-> In keyword topicKeywords
             /\ exists msg, In msg conversation
                            /\ Text.includes (Text.toLowerCase (content msg)) keyword = true)
  /\ (length (extractMainTopics conversation) <= 12)%nat.
Proof.
  unfold extractMainTopics.
  destruct (topics_of_conversation conversation []) as [Hnd Hin]. cbn zeta in Hnd, Hin.
  assert (Hnodup := Hnd (NoDup_nil _)).
  assert (Hmem : forall keyword,
             In keyword
               (fold_left
                  (fun topics msg =>
                     let text := Text.toLowerCase (content msg) in
                     fold_left
                       (fun topics keyword =>
                          if Text.includes text keyword then setAdd keyword topics else topics)
                       topicKeywords topics)
                  conversation [])
             <-> In keyword topicKeywords
                 /\ exists msg, In msg conversation
                                /\ Text.includes (Text.toLowerCase (content msg)) keyword = true).
  { intros keyword. rewrite Hin. simpl. tauto. }
  split; [exact Hnodup|]. split; [exact Hmem|].
  change 12%nat with (length topicKeywords).
  apply NoDup_incl_length; [exact Hnodup|].
  intros x Hx. now apply Hmem in Hx.
Qed.

Lemma main_topics_are_a_set_of_keywords_witness :
  In "plan"
     (extractMainTopics
        [userMessage "Help me PLAN a launch"; userMessage "plan it again"]).
Proof.
  destruct (main_topics_are_a_set_of_keywords
              [userMessage "Help me PLAN a launch"; userMessage "plan it again"])
    as (_ & Hmember & _).
  apply Hmember. split; [cbn; tauto|].
  exists (userMessage "Help me PLAN a launch"). split; [now left | reflexivity].
Defined.


End Solving.

Module Goal.
Import ProblemSolvingScorer.

(** X15. With a user message in the conversation, goal orientation is at
    least 2 when more than four fifths of the messages are free of
    off-topic markers, as when all of them are, and at most 7 otherwise:
    the 2 points of focus go with that share. *)
Theorem focus_is_worth_two_points (conversation : list Message) :
  userMessagesOf conversation <> [] ->
  let relevant := Z.of_nat (length (filter onTopic conversation)) in
  let total := Z.of_nat (length conversation) in
  (4 * total < 5 * relevant -> 2 <= assessGoalOrientation conversation)
  /\ (5 * relevant <= 4 * total -> assessGoalOrientation conversation <= 7)
  /\ (forallb onTopic conversation = true -> 2 <= assessGoalOrientation conversation).
Proof.
  intros Husers. cbv zeta. unfold assessGoalOrientation. cbv zeta.
  destruct (userMessagesOf conversation) as [|first later] eqn:Hu; [contradiction|].
  fold onTopic. unfold focusRatioAbove08.
  change (fun msg : Message =>
            negb (Text.someIncluded offTopicMarkers (Text.toLowerCase (content msg))))
    with onTopic.
  set (relevant := Z.of_nat (length (filter onTopic conversation))).
  set (total := Z.of_nat (length conversation)).
  assert (Hall : forallb onTopic conversation = true -> relevant = total).
  { intros Hall. unfold relevant, total. f_equal. f_equal.
    clear - Hall. induction conversation as [|m l IH]; [reflexivity|].
    cbn [forallb] in Hall. apply andb_prop in Hall. destruct Hall as [Hm Hl].
    cbn [filter]. rewrite Hm. f_equal. now apply IH. }
  assert (Hpos : 0 < total).
  { unfold total. destruct conversation; [discriminate|]. cbn [length]. lia. }
  rewrite !addIf_indicator.
  split; [|split].
  - intros Hfocus.
    assert (Hgt : (5 * relevant >? 4 * total) = true)
      by (rewrite Z.gtb_ltb; apply Z.ltb_lt; lia).
    rewrite Hgt.
    repeat match goal with
           | |- context [if ?c then _ else _] => destruct c
           end; lia.
  - intros Hdrift.
    assert (Hgt : (5 * relevant >? 4 * total) = false)
      by (rewrite Z.gtb_ltb; apply Z.ltb_ge; lia).
    rewrite Hgt.
    repeat match goal with
           | |- context [if ?c then _ else _] => destruct c
           end; lia.
  - intros Hon. specialize (Hall Hon).
    assert (Hgt : (5 * relevant >? 4 * total) = true)
      by (rewrite Z.gtb_ltb; apply Z.ltb_lt; lia).
    rewrite Hgt.
    repeat match goal with
           | |- context [if ?c then _ else _] => destruct c
           end; lia.
Qed.

Lemma focus_is_worth_two_points_witness :
  2 <= assessGoalOrientation noviceMessages.
Proof.
  destruct (focus_is_worth_two_points noviceMessages ltac:(discriminate))
    as (_ & _ & Hfocus).
  apply Hfocus. reflexivity.
Defined.


End Goal.

(** ** The two validations and the route *)


Module ValidationFacts.
Import ScoringEngine EngineFacts.

Lemma validateMessage_reads (index : nat) (element : Value) (message : Message) :
  validateMessage index element = Return message <-> readsAs element message.
Proof.
  unfold validateMessage, readsAs. split.
  - destruct (getProp "role" element) as [r|e]; cbn [bind]; [|discriminate].
    destruct (truthy r) eqn:Tr; cbn [negb]; [|discriminate].
    destruct (getProp "content" element) as [c|e]; cbn [bind]; [|discriminate].
    destruct (truthy c) eqn:Tc; cbn [negb]; [|discriminate].
    destruct c; try discriminate. intros H. injection H as <-. cbn [role content].
    repeat split; try assumption.
    intros ->. discriminate.
  - intros (Hr & Tr & Hc & Hne). rewrite Hr. cbn [bind]. rewrite Tr. cbn [negb].
    rewrite Hc. cbn [bind truthy].
    destruct (content message =? "")%string eqn:E;
      [apply String.eqb_eq in E; contradiction|].
    cbn [negb]. now destruct message.
Qed.

Lemma validateFrom_reads (elements : list Value) :
  forall (index : nat) (messages : list Message),
    validateFrom index elements = Return messages <-> Forall2 readsAs elements messages.
Proof.
  induction elements as [|element elements IH]; intros index messages.
  - simpl. split.
    + intros H. injection H as <-. constructor.
    + intros H. inversion H. reflexivity.
  - cbn [validateFrom]. split.
    + destruct (validateMessage index element) as [message|e] eqn:Hm; cbn [bind];
        [|discriminate].
      destruct (validateFrom (S index) elements) as [rest|e] eqn:Hrest; cbn [bind];
        [|discriminate].
      intros H. injection H as <-. constructor.
      * now apply (validateMessage_reads index).
      * now apply (IH (S index)).
    + intros H. inversion H as [|? message ? rest Hhead Htail]; subst.
      apply (validateMessage_reads index) in Hhead. rewrite Hhead. cbn [bind].
      apply (IH (S index)) in Htail. rewrite Htail. reflexivity.
Qed.

Lemma readsAs_toObject (message : Message) :
  truthy (role message) = true -> content message <> EmptyString ->
  readsAs (toObject message) message.
Proof. intros Tr Hne. unfold readsAs, toObject. cbn. auto. Qed.



End ValidationFacts.

Module Validation.
Import ScoringEngine EngineFacts ValidationFacts.

(** X16. The validation accepts an array exactly when each element has a
    truthy [role] and a non-empty string as [content], whatever the role
    is; the scorers then see one message per element, and an array built
    from such messages is read back as these messages. *)
Theorem validation_reads_every_message (elements : list Value) (messages : list Message) :
  (validate (Arr elements) = Return messages <-> Forall2 readsAs elements messages)
  /\ (validate (Arr elements) = Return messages -> length messages = length elements)
  /\ (Forall (fun message => truthy (role message) = true
                             /\ content message <> EmptyString) messages ->
      validate (Arr (map toObject messages)) = Return messages).
Proof.
  rewrite validate_array. split; [apply validateFrom_reads|]. split.
  - intros H. apply validateFrom_reads in H. symmetry. eapply Forall2_length; eassumption.
  - intros Hall. rewrite validate_array. apply validateFrom_reads.
    induction Hall as [|message rest [Tr Hne] _ IH]; constructor; [|exact IH].
    now apply readsAs_toObject.
Qed.

Lemma validation_reads_every_message_witness :
  validate (Arr (map toObject noviceMessages)) = Return noviceMessages.
Proof.
  destruct (validation_reads_every_message (map toObject noviceMessages) noviceMessages)
    as (_ & _ & Hback).
  apply Hback. repeat constructor; discriminate.
Defined.





End Validation.

Module ServerFacts.
Import ScoringEngine EngineFacts.

Section Routes.
Variable toText : Value -> string.

Lemma isValidRole_In (r : string) :
  existsb (String.eqb r) Server.validRoles = true <-> In r Server.validRoles.
Proof.
  rewrite existsb_exists. split.
  - intros (x & Hx & Heq). apply String.eqb_eq in Heq. now subst.
  - intros H. exists r. split; [assumption | apply String.eqb_refl].
Qed.

(** One turn of the loop of [validateConversation]: it goes on exactly on
    the elements that the route accepts. *)
Lemma route_step (i : nat) (element : Value) (rest : list Value) :
  (routeAccepts element ->
   Server.validateFrom toText i (element :: rest) = Server.validateFrom toText (S i) rest)
  /\ (Server.validateFrom toText i (element :: rest) = Return None ->
      routeAccepts element /\ Server.validateFrom toText (S i) rest = Return None).
Proof.
  split.
  - intros (r & text & Hr & Hin & Hc & Hlen). cbn [Server.validateFrom].
    rewrite Hr. cbn [bind].
    assert (Tr : truthy (Str r) = true).
    { cbn in Hin. destruct Hin as [<-|[<-|[<-|[]]]]; reflexivity. }
    rewrite Tr. cbn [negb Server.isValidRole].
    apply isValidRole_In in Hin. rewrite Hin. cbn [negb].
    rewrite Hc. cbn [bind truthy Server.notEmptyString].
    rewrite Bool.andb_negb_l.
    assert (Hle : (Z.of_nat (Text.length text) >? 10000) = false)
      by (rewrite Z.gtb_ltb; apply Z.ltb_ge; lia).
    now rewrite Hle.
  - cbn [Server.validateFrom].
    destruct (getProp "role" element) as [r|e] eqn:Hr; cbn [bind]; [|discriminate].
    destruct (truthy r) eqn:Tr; cbn [negb]; [|discriminate].
    destruct (Server.isValidRole r) eqn:Vr; cbn [negb]; [|discriminate].
    destruct (getProp "content" element) as [c|e] eqn:Hc; cbn [bind]; [|discriminate].
    destruct (negb (truthy c) && Server.notEmptyString c); [discriminate|].
    destruct c as [| |b|n|text|items|properties]; try discriminate.
    destruct (Z.of_nat (Text.length text) >? 10000) eqn:Hlen; [discriminate|].
    intros Hrest. split; [|exact Hrest].
    destruct r as [| |b|n|rname|items|properties]; try discriminate.
    exists rname, text. cbn [Server.isValidRole] in Vr. apply isValidRole_In in Vr.
    repeat split; try assumption.
    rewrite Z.gtb_ltb in Hlen. apply Z.ltb_ge in Hlen. exact Hlen.
Qed.

Lemma route_loop_accepts (elements : list Value) :
  forall i : nat,
    Server.validateFrom toText i elements = Return None <-> Forall routeAccepts elements.
Proof.
  induction elements as [|element elements IH]; intros i.
  - simpl. split; [constructor | reflexivity].
  - destruct (route_step i element elements) as [Hgo Hstop]. split.
    + intros H. destruct (Hstop H) as [Hacc Hrest].
      constructor; [assumption | now apply (IH (S i))].
    + intros H. inversion H as [|? ? Hacc Hrest]; subst.
      rewrite (Hgo Hacc). now apply IH.
Qed.

(** Every complaint of the route is a non-empty string. *)
Lemma route_loop_details (elements : list Value) :
  forall (i : nat) (details : string),
    Server.validateFrom toText i elements = Return (Some details) ->
    details <> EmptyString.
Proof.
  induction elements as [|element elements IH]; intros i details; [discriminate|].
  cbn [Server.validateFrom].
  destruct (getProp "role" element) as [r|e]; cbn [bind]; [|discriminate].
  destruct (negb (truthy r)); [intros H; injection H as <-; discriminate|].
  destruct (negb (Server.isValidRole r)); [intros H; injection H as <-; discriminate|].
  destruct (getProp "content" element) as [c|e]; cbn [bind]; [|discriminate].
  destruct (negb (truthy c) && Server.notEmptyString c);
    [intros H; injection H as <-; discriminate|].
  destruct c; try (intros H; injection H as <-; discriminate).
  destruct (Z.of_nat (Text.length s) >? 10000);
    [intros H; injection H as <-; discriminate|].
  apply IH.
Qed.

Lemma route_details (elements : list Value) (details : string) :
  Server.validateConversation toText elements = Return (Some details) ->
  details <> EmptyString.
Proof.
  unfold Server.validateConversation.
  destruct (length elements =? 0)%nat; [intros H; injection H as <-; discriminate|].
  apply route_loop_details.
Qed.

(** An element accepted by the route is read by the engine unless its
    content is empty. *)
Lemma routeAccepts_reads (element : Value) :
  routeAccepts element ->
  (hasEmptyContent element
   /\ forall index, validateMessage index element = Throw (Error (missingProperties index)))
  \/ (~ hasEmptyContent element /\ exists message, readsAs element message).
Proof.
  intros (r & text & Hr & Hin & Hc & Hlen).
  assert (Tr : truthy (Str r) = true).
  { cbn in Hin. destruct Hin as [<-|[<-|[<-|[]]]]; reflexivity. }
  destruct text as [|a text].
  - left. split; [exact Hc|]. intros index. unfold validateMessage.
    rewrite Hr. cbn [bind]. rewrite Tr. cbn [negb]. rewrite Hc. reflexivity.
  - right. split.
    + unfold hasEmptyContent. rewrite Hc. discriminate.
    + exists {| role := Str r; content := String a text |}.
      unfold readsAs. cbn [role content]. repeat split; try assumption. discriminate.
Qed.

End Routes.

End ServerFacts.

Module RouteProperties.
Import ScoringEngine EngineFacts ServerFacts.

Lemma reads_all (elements : list Value) :
  Forall (fun element => exists message, readsAs element message) elements ->
  exists messages, Forall2 readsAs elements messages.
Proof.
  induction 1 as [|element elements [message Hm] _ [messages IH]].
  - exists []. constructor.
  - exists (message :: messages). now constructor.
Qed.

Lemma accepted_and_nonempty_reads (elements : list Value) :
  Forall routeAccepts elements ->
  Forall (fun element => ~ hasEmptyContent element) elements ->
  Forall (fun element => exists message, readsAs element message) elements.
Proof.
  intros Hacc. induction Hacc as [|element elements Hel _ IH]; intros Hne; [constructor|].
  inversion Hne as [|? ? Hhead Hrest]; subst.
  constructor; [|now apply IH].
  destruct (routeAccepts_reads element Hel) as [[He _]|[_ Hm]];
    [contradiction | exact Hm].
Qed.

(** What the engine answers to a conversation that the route has let
    through with an empty content. *)
Lemma route_and_engine_facts (toText : Value -> string) (elements : list Value) :
  Server.validateConversation toText elements = Return None ->
  forall before bad after,
    elements = (before ++ bad :: after)%list ->
    Forall (fun element => ~ hasEmptyContent element) before ->
    hasEmptyContent bad ->
    validate (Arr elements)
    = Throw (Error (missingProperties (length before))).
Proof.
  intros Haccepted before bad after -> Hbefore Hempty.
  assert (Hall : Forall routeAccepts (before ++ bad :: after)).
  { unfold Server.validateConversation in Haccepted.
    destruct (length (before ++ bad :: after) =? 0)%nat; [discriminate|].
    now apply (route_loop_accepts toText _ 0). }
  apply Forall_app in Hall. destruct Hall as [Hacc_before Hacc_rest].
  inversion Hacc_rest as [|? ? Hacc_bad _]; subst.
  pose proof (accepted_and_nonempty_reads before Hacc_before Hbefore) as Hreads.
  destruct (reads_all before Hreads) as [validBefore Hvb].
  apply (ValidationFacts.validateFrom_reads before 0) in Hvb.
  rewrite validate_array.
  apply (validateFrom_stops _ _ _ _ _ _ Hvb). cbn [Nat.add].
  destruct (routeAccepts_reads bad Hacc_bad) as [[_ Hthrow]|[Hne _]];
    [apply Hthrow | contradiction].
Qed.

Lemma route_accepts_all (toText : Value -> string) (elements : list Value) :
  Server.validateConversation toText elements = Return None ->
  Forall routeAccepts elements.
Proof.
  unfold Server.validateConversation.
  destruct (length elements =? 0)%nat; [discriminate|].
  apply (route_loop_accepts toText _ 0).
Qed.

(** X18. [validateConversation] returns [null] exactly on the non-empty
    arrays whose elements have one of the roles user, assistant and
    system, and a string of at most 10,000 characters as content; the
    empty array gets "Conversation array cannot be empty".  The
    characters are UTF-16 code units, one for a character below U+10000
    and two above: 4,000 euro signs pass, 10,001 letters do not. *)
Theorem route_accepts_exactly (toText : Value -> string) (elements : list Value) :
  (Server.validateConversation toText elements = Return None
   <-> elements <> [] /\ Forall routeAccepts elements)
  /\ (elements = [] ->
      Server.validateConversation toText elements
      = Return (Some "Conversation array cannot be empty"))
  /\ (forall codes : list N,
         Forall (fun code => (code < 1114112)%N) codes ->
         Text.length (encode codes) = codeUnitsOf codes)
  /\ Server.validateConversation toText [messageObject "user" (encode (repeat 8364%N 4000))]
     = Return None
  /\ Server.validateConversation toText
       [messageObject "user" (encode (repeat 97%N (Z.to_nat 10001)))]
     = Return (Some "Message at index 0 content too long (10001 characters). Maximum is 10,000.").
Proof.
  unfold Server.validateConversation. split; [|split; [|split; [|split]]].
  - destruct elements as [|element elements].
    + cbn. split; [discriminate | intros [H _]; contradiction].
    + cbn [length Nat.eqb]. rewrite route_loop_accepts.
      split; [intros H; split; [discriminate | exact H] | tauto].
  - intros ->. reflexivity.
  - exact TextFacts.length_encode.
  - vm_compute. reflexivity.
  - vm_compute. reflexivity.
Qed.

Lemma route_accepts_exactly_witness :
  Server.validateConversation roleText emptyReply = Return None.
Proof.
  destruct (route_accepts_exactly roleText emptyReply) as ([_ Haccept] & _).
  apply Haccept. split; [discriminate|].
  repeat constructor.
  - exists "user", "Hello there". cbn. repeat split; auto. lia.
  - exists "user", "". cbn. repeat split; auto. lia.
Defined.


(** X19. A conversation that [validateConversation] lets through passes
    the validation of the engine exactly when no content is the empty
    string; otherwise the engine throws "Message at index <i> must have
    role and content properties" at the first empty content. *)
Theorem route_and_engine_differ_on_empty_content
        (toText : Value -> string) (elements : list Value) :
  Server.validateConversation toText elements = Return None ->
  ((exists messages, validate (Arr elements) = Return messages)
   <-> Forall (fun element => ~ hasEmptyContent element) elements)
  /\ (forall before bad after,
         elements = (before ++ bad :: after)%list ->
         Forall (fun element => ~ hasEmptyContent element) before ->
         hasEmptyContent bad ->
         validate (Arr elements)
         = Throw (Error ("Message at index " ++ indexToString (length before)
                         ++ " must have role and content properties"))).
Proof.
  intros Haccepted.
  pose proof (route_accepts_all toText elements Haccepted) as Hall.
  split.
  - split.
    + intros [messages Hvalid]. rewrite validate_array in Hvalid.
      apply ValidationFacts.validateFrom_reads in Hvalid.
      clear Hall Haccepted.
      induction Hvalid as [|element message elements messages Hreads _ IH];
        [constructor|].
      constructor; [|exact IH].
      destruct Hreads as (_ & _ & Hc & Hne). unfold hasEmptyContent. rewrite Hc.
      intros H. injection H as H. contradiction.
    + intros Hnonempty.
      pose proof (accepted_and_nonempty_reads elements Hall Hnonempty) as Hreads.
      destruct (reads_all elements Hreads) as [messages Hmessages].
      exists messages. rewrite validate_array.
      now apply ValidationFacts.validateFrom_reads.
  - intros before bad after Heq Hbefore Hempty.
    now apply (route_and_engine_facts toText elements Haccepted before bad after).
Qed.

Lemma route_and_engine_differ_on_empty_content_witness :
  validate (Arr emptyReply)
  = Throw (Error "Message at index 1 must have role and content properties").
Proof.
  destruct (route_and_engine_differ_on_empty_content roleText emptyReply eq_refl)
    as [_ Hfirst].
  apply (Hfirst [messageObject "user" "Hello there"] (messageObject "user" "") []
           eq_refl).
  - repeat constructor. discriminate.
  - reflexivity.
Defined.


(** X20. The route /analyze answers 200 only to an array that both
    validations accept; 400 to a conversation that is not an array and to
    one that [validateConversation] complains about, with this complaint
    as details; and 500 "Analysis failed" to a conversation that
    [validateConversation] lets through with an empty content. *)
Theorem post_analyze_answers
        (toText : Value -> string) (scoringEngine : ScoringEngine.t)
        (now : string) (elapsed : nat) (body : Value) :
  let response := Server.postAnalyze toText scoringEngine now elapsed body in
  (Server.status response = 200%nat ->
   exists elements messages,
     getProp "conversation" body = Return (Arr elements)
     /\ Server.validateConversation toText elements = Return None
     /\ validate (Arr elements) = Return messages)
  /\ (forall conversation,
         getProp "conversation" body = Return conversation ->
         isArray conversation = false ->
         response
         = Server.BadRequest "Conversation data is required and must be an array"
             ("Provide conversation as array of {role: " ++ Server.DQ ++ "user" ++ Server.DQ
              ++ "|" ++ Server.DQ ++ "assistant" ++ Server.DQ ++ ", content: "
              ++ Server.DQ ++ "string" ++ Server.DQ ++ "}"))
  /\ (forall elements details,
         getProp "conversation" body = Return (Arr elements) ->
         Server.validateConversation toText elements = Return (Some details) ->
         response = Server.BadRequest "Invalid conversation structure" details)
  /\ (forall elements before bad after,
         getProp "conversation" body = Return (Arr elements) ->
         Server.validateConversation toText elements = Return None ->
         elements = (before ++ bad :: after)%list ->
         Forall (fun element => ~ hasEmptyContent element) before ->
         hasEmptyContent bad ->
         response
         = Server.AnalysisFailed "Analysis failed"
             (Error ("Message at index " ++ indexToString (length before)
                     ++ " must have role and content properties"))
             (indexToString elapsed ++ "ms")).
Proof.
  cbv zeta. unfold Server.postAnalyze.
  destruct (getProp "conversation" body) as [conversation|e] eqn:Hconv; cbn [bind].
  2:{ split; [discriminate|]. repeat split; intros; discriminate. }
  assert (Huser : exists userId, getProp "userId" body = Return userId).
  { destruct body; try discriminate; cbn; try (eexists; reflexivity).
    destruct (lookup "userId" properties); eexists; reflexivity. }
  assert (Hmeta : exists metadata, getProp "metadata" body = Return metadata).
  { destruct body; try discriminate; cbn; try (eexists; reflexivity).
    destruct (lookup "metadata" properties); eexists; reflexivity. }
  destruct Huser as [userId ->]. destruct Hmeta as [metadata ->]. cbn [bind].
  destruct conversation as [| |b|n|text|elements|properties];
    try (cbn [truthy isArray negb orb];
         rewrite ?Bool.orb_true_r;
         split; [discriminate|];
         split; [intros c Hc _; reflexivity|];
         split; intros; discriminate).
  cbn [truthy isArray negb orb].
  destruct (Server.validateConversation toText elements) as [[details|]|e] eqn:Hroute;
    cbn [bind].
  - pose proof (route_details toText elements details Hroute) as Hne.
    assert (Hd : (details =? "")%string = false)
      by (destruct (details =? "")%string eqn:E;
          [apply String.eqb_eq in E; contradiction | reflexivity]).
    rewrite Hd. cbn [negb].
    split; [discriminate|]. split; [intros c Hc Harr; injection Hc as <-; discriminate|].
    split.
    + intros elements' details' Hc Hr. injection Hc as <-. rewrite Hroute in Hr.
      injection Hr as <-. reflexivity.
    + intros elements' before bad after Hc Hr. injection Hc as <-.
      rewrite Hroute in Hr. discriminate.
  - destruct (analyzeConversation scoringEngine now (Arr elements)) as [report|e] eqn:Hrun;
      cbn [bind].
    + split.
      * intros _. destruct (analyzeConversation_inv _ _ _ _ Hrun) as [messages Hvalid].
        exists elements, messages. auto.
      * split; [intros c Hc Harr; injection Hc as <-; discriminate|].
        split; [intros elements' details' Hc Hr; injection Hc as <-; rewrite Hroute in Hr;
                discriminate|].
        intros elements' before bad after Hc _ Heq Hbefore Hempty. injection Hc as <-.
        pose proof (route_and_engine_facts toText elements Hroute before bad after
                      Heq Hbefore Hempty) as Hthrow.
        unfold analyzeConversation in Hrun. rewrite Hthrow in Hrun. discriminate.
    + split; [discriminate|].
      split; [intros c Hc Harr; injection Hc as <-; discriminate|].
      split; [intros elements' details' Hc Hr; injection Hc as <-; rewrite Hroute in Hr;
              discriminate|].
      intros elements' before bad after Hc _ Heq Hbefore Hempty. injection Hc as <-.
      pose proof (route_and_engine_facts toText elements Hroute before bad after
                    Heq Hbefore Hempty) as Hthrow.
      unfold analyzeConversation in Hrun. rewrite Hthrow in Hrun. cbn [bind] in Hrun.
      injection Hrun as <-. reflexivity.
  - split; [discriminate|].
    split; [intros c Hc Harr; injection Hc as <-; discriminate|].
    split; intros; match goal with
                   | Hc : Return (Arr _) = Return (Arr _) |- _ => injection Hc as <-
                   end; rewrite Hroute in *; discriminate.
Qed.

Lemma post_analyze_answers_witness :
  Server.postAnalyze roleText (new quietRefinementScorer) timestamp 3
    (Obj [("conversation", Arr emptyReply)])
  = Server.AnalysisFailed "Analysis failed"
      (Error "Message at index 1 must have role and content properties") "3ms".
Proof.
  destruct (post_analyze_answers roleText (new quietRefinementScorer) timestamp 3
              (Obj [("conversation", Arr emptyReply)]))
    as (_ & _ & _ & Hempty).
  apply (Hempty emptyReply [messageObject "user" "Hello there"]
           (messageObject "user" "") [] eq_refl eq_refl eq_refl).
  - repeat constructor. discriminate.
  - reflexivity.
Defined.


End RouteProperties.

(** ** The earlier engine and the catalog *)


Module EarlierFacts.
Import Outcome.

Lemma earlier_fold_throw (messages : list Message) (dims : list (string * Scorer))
      (e : Exception) :
  fold_left (EarlierScoringEngine.scoreDimension messages) dims (Throw e) = Throw e.
Proof.
  induction dims as [|[name scorer] dims IH]; [reflexivity|].
  cbn [fold_left]. exact IH.
Qed.

(** While every scorer returns, the two loops record the same scores and
    breakdowns. *)
Lemma earlier_fold_agrees (messages : list Message) (dims : list (string * Scorer)) :
  forall (earlier : EarlierScoringEngine.Tally) (later : ScoringEngine.Tally),
    EarlierScoringEngine.scores earlier = ScoringEngine.scores later ->
    EarlierScoringEngine.breakdown earlier = ScoringEngine.breakdown later ->
    (forall name scorer, In (name, scorer) dims -> exists r, scorer messages = Return r) ->
    exists earlier',
      fold_left (EarlierScoringEngine.scoreDimension messages) dims (Return earlier)
      = Return earlier'
      /\ EarlierScoringEngine.scores earlier'
         = ScoringEngine.scores (fold_left (ScoringEngine.scoreDimension messages) dims later)
      /\ EarlierScoringEngine.breakdown earlier'
         = ScoringEngine.breakdown
             (fold_left (ScoringEngine.scoreDimension messages) dims later).
Proof.
  induction dims as [|[name scorer] dims IH]; intros earlier later Hs Hb Hall.
  - exists earlier. auto.
  - cbn [fold_left].
    destruct (Hall name scorer (or_introl eq_refl)) as [r Hr].
    assert (Hstep :
              EarlierScoringEngine.scoreDimension messages (Return earlier) (name, scorer)
              = Return
                  {| EarlierScoringEngine.scores :=
                       assign name (Result.score r) (EarlierScoringEngine.scores earlier);
                     EarlierScoringEngine.breakdown :=
                       assign name (Result.breakdown r)
                         (EarlierScoringEngine.breakdown earlier) |})
      by (unfold EarlierScoringEngine.scoreDimension; cbn [bind]; now rewrite Hr).
    rewrite Hstep, EngineFacts.scoreDimension_eq, Hr.
    apply IH.
    + cbn. now rewrite Hs.
    + cbn. now rewrite Hb.
    + intros n s Hin. apply (Hall n s). now right.
Qed.

Lemma earlier_fold_stops (messages : list Message) (before : list (string * Scorer)) :
  forall (name : string) (scorer : Scorer) (after : list (string * Scorer))
         (tally : EarlierScoringEngine.Tally) (e : Exception),
    (forall n s, In (n, s) before -> exists r, s messages = Return r) ->
    scorer messages = Throw e ->
    fold_left (EarlierScoringEngine.scoreDimension messages)
      (before ++ (name, scorer) :: after) (Return tally)
    = Throw e.
Proof.
  induction before as [|[n s] before IH]; intros name scorer after tally e Hall Hthrow.
  - cbn [app fold_left].
    assert (Hstep : EarlierScoringEngine.scoreDimension messages (Return tally) (name, scorer)
                    = Throw e)
      by (unfold EarlierScoringEngine.scoreDimension; cbn [bind]; now rewrite Hthrow).
    rewrite Hstep. apply earlier_fold_throw.
  - cbn [app fold_left]. destruct (Hall n s (or_introl eq_refl)) as [r Hr].
    assert (Hstep :
              EarlierScoringEngine.scoreDimension messages (Return tally) (n, s)
              = Return
                  {| EarlierScoringEngine.scores :=
                       assign n (Result.score r) (EarlierScoringEngine.scores tally);
                     EarlierScoringEngine.breakdown :=
                       assign n (Result.breakdown r)
                         (EarlierScoringEngine.breakdown tally) |})
      by (unfold EarlierScoringEngine.scoreDimension; cbn [bind]; now rewrite Hr).
    rewrite Hstep.
    apply IH; [|exact Hthrow]. intros n' s' Hin. apply (Hall n' s'). now right.
Qed.

End EarlierFacts.

Module Earlier.
Import EarlierFacts EngineFacts.

(** X21. On a validated conversation, while every scorer returns, the
    engine and its earlier version give the same overall score, level,
    dimension scores and breakdowns.  When a scorer throws, the earlier
    version throws what the first such scorer threw, and the engine still
    returns a report. *)
Theorem engines_agree_unless_a_scorer_throws
        (dims : list (string * Scorer)) (now : string) (conversation : Value)
        (messages : list Message) :
  ScoringEngine.validate conversation = Return messages ->
  ((forall name scorer, In (name, scorer) dims -> exists r, scorer messages = Return r) ->
   exists earlier later,
     EarlierScoringEngine.analyzeConversation
       {| EarlierScoringEngine.dimensions := dims |} now messages = Return earlier
     /\ ScoringEngine.analyzeConversation
          {| ScoringEngine.dimensions := dims |} now conversation = Return later
     /\ EarlierScoringEngine.overallScore earlier = ScoringEngine.overallScore later
     /\ EarlierScoringEngine.proficiencyLevel earlier = ScoringEngine.proficiencyLevel later
     /\ EarlierScoringEngine.dimensionScores earlier = ScoringEngine.dimensionScores later
     /\ EarlierScoringEngine.detailedBreakdown earlier
        = ScoringEngine.detailedBreakdown later)
  /\ (forall before name scorer after e,
         dims = (before ++ (name, scorer) :: after)%list ->
         (forall n s, In (n, s) before -> exists r, s messages = Return r) ->
         scorer messages = Throw e ->
         EarlierScoringEngine.analyzeConversation
           {| EarlierScoringEngine.dimensions := dims |} now messages = Throw e
         /\ exists later,
             ScoringEngine.analyzeConversation
               {| ScoringEngine.dimensions := dims |} now conversation = Return later).
Proof.
  intros Hvalid. split.
  - intros Hall.
    destruct (earlier_fold_agrees messages dims
                {| EarlierScoringEngine.scores := []; EarlierScoringEngine.breakdown := [] |}
                {| ScoringEngine.scores := []; ScoringEngine.breakdown := [];
                   ScoringEngine.allFeedback := [] |}
                eq_refl eq_refl Hall)
      as (tally & Hfold & Hs & Hb).
    unfold EarlierScoringEngine.analyzeConversation. cbn [EarlierScoringEngine.dimensions].
    rewrite Hfold. cbn [bind].
    rewrite (analyzeConversation_validated _ _ _ _ Hvalid). cbv zeta.
    cbn [ScoringEngine.dimensions].
    do 2 eexists. split; [reflexivity|]. split; [reflexivity|].
    cbn [EarlierScoringEngine.overallScore EarlierScoringEngine.proficiencyLevel
         EarlierScoringEngine.dimensionScores EarlierScoringEngine.detailedBreakdown
         ScoringEngine.overallScore ScoringEngine.proficiencyLevel
         ScoringEngine.dimensionScores ScoringEngine.detailedBreakdown].
    rewrite Hs, Hb. repeat split.
  - intros before name scorer after e -> Hall Hthrow. split.
    + unfold EarlierScoringEngine.analyzeConversation. cbn [EarlierScoringEngine.dimensions].
      now rewrite (earlier_fold_stops messages before name scorer after _ e Hall Hthrow).
    + rewrite (analyzeConversation_validated _ _ _ _ Hvalid). cbv zeta.
      eexists. reflexivity.
Qed.

Lemma engines_agree_unless_a_scorer_throws_witness :
  EarlierScoringEngine.analyzeConversation (EarlierScoringEngine.new failingScorer)
    timestamp noviceMessages = Throw TypeError
  /\ exists later,
      ScoringEngine.analyzeConversation (ScoringEngine.new failingScorer)
        timestamp noviceConversation = Return later.
Proof.
  destruct (engines_agree_unless_a_scorer_throws
              (ScoringEngine.dimensions (ScoringEngine.new failingScorer))
              timestamp noviceConversation noviceMessages eq_refl)
    as [_ Hthrow].
  apply (Hthrow [("promptEngineering", ScoringEngine.total PromptEngineeringScorer.analyze)]
           "iterativeRefinement" failingScorer
           [("problemSolving", ScoringEngine.total ProblemSolvingScorer.analyze);
            ("criticalThinking", ScoringEngine.total CriticalThinkingScorer.analyze)]
           TypeError eq_refl).
  - intros n s [Heq|[]]. injection Heq as <- <-. eexists. reflexivity.
  - reflexivity.
Defined.


End Earlier.

Module CatalogFacts.

(** X22. For each analyzer of the sources the catalog of
    [getDimensionDescriptions] lists the sub-criteria of the breakdown, in
    the same order, and the range it prints for each, from 0 to the cap,
    holds the sub-score on every conversation. *)
Theorem catalog_documents_the_breakdowns
        (name : string) (analyze : list Message -> DimensionResult) :
  In (name, analyze) sourceAnalyzers ->
  exists entry : Catalog.Entry,
    lookup name Catalog.getDimensionDescriptions = Some entry
    /\ forall conversation : list Message,
        Forall2
          (fun (sub : string * Z) (doc : string * string) =>
             fst sub = fst doc
             /\ exists cap : nat, documentsRange (snd doc) cap /\ 0 <= snd sub <= Z.of_nat cap)
          (Result.breakdown (analyze conversation)) (Catalog.criteria entry).
Proof.
  unfold sourceAnalyzers. cbn [In].
  intros [H|[H|[H|[]]]]; injection H as <- <-.
  - eexists. split; [reflexivity|]. intros conversation.
    destruct (AnalyzerFacts.promptEngineering_shape conversation)
      as (p1 & p2 & p3 & p4 & -> & ? & ? & ? & ? & _).
    cbn [Catalog.criteria].
    repeat constructor; cbn [fst snd].
    + exists 6%nat. split; [now exists "Detail and precision in requests" | lia].
    + exists 6%nat. split; [now exists "Organization and formatting" | lia].
    + exists 6%nat. split; [now exists "Background information provided" | lia].
    + exists 7%nat. split; [now exists "Clarity of AI role specification" | lia].
  - eexists. split; [reflexivity|]. intros conversation.
    destruct (AnalyzerFacts.problemSolving_shape conversation)
      as (s1 & s2 & s3 & -> & ? & ? & ? & _).
    cbn [Catalog.criteria].
    repeat constructor; cbn [fst snd].
    + exists 8%nat. split; [now exists "Breaking down problems into steps" | lia].
    + exists 8%nat. split; [now exists "Logical order of questions" | lia].
    + exists 9%nat. split; [now exists "Maintaining focus on objectives" | lia].
  - eexists. split; [reflexivity|]. intros conversation.
    destruct (AnalyzerFacts.criticalThinking_shape conversation)
      as (c1 & c2 & c3 & -> & ? & ? & ? & _).
    cbn [Catalog.criteria].
    repeat constructor; cbn [fst snd].
    + exists 8%nat. split; [now exists "Fact-checking and accuracy assessment" | lia].
    + exists 8%nat. split; [now exists "Identification of biases and assumptions" | lia].
    + exists 9%nat. split; [now exists "Evaluation of output quality" | lia].
Qed.

Lemma catalog_documents_the_breakdowns_witness :
  exists entry : Catalog.Entry,
    lookup "criticalThinking" Catalog.getDimensionDescriptions = Some entry
    /\ forall conversation : list Message,
        Forall2
          (fun (sub : string * Z) (doc : string * string) =>
             fst sub = fst doc
             /\ exists cap : nat, documentsRange (snd doc) cap /\ 0 <= snd sub <= Z.of_nat cap)
          (Result.breakdown (CriticalThinkingScorer.analyze conversation))
          (Catalog.criteria entry).
Proof.
  apply (catalog_documents_the_breakdowns "criticalThinking" CriticalThinkingScorer.analyze).
  cbn. tauto.
Defined.


End CatalogFacts.
